(** * VitalityScore: the fitness score orchestrator and the HealthKit providers

    A shallow embedding of
      - [src/utils/fitnessCalculator.ts]      ([calculateFitnessScore]),
      - [src/services/healthDataProviders.ts] (the five data providers),
      - [src/services/healthService.ts]       (the methods of the service and
        the statement that completes [AppleHealthKit]).

    Numbers.  A JavaScript [number] is a double.  Modules [FitnessCalculator],
    [HealthDataProviders] and [HealthService] read a number as the real
    number it is and the operators as the exact operations of [R], with
    [Math.round], [Math.max], [Math.sqrt] and [Math.pow] the functions of
    the same name in module [JS]; rounding, [NaN] and the infinities are
    outside these modules.  Where the rounding of doubles decides a
    property, the code is written once more over a class of arithmetics
    (class [Arith.t], module [Numeric]) and read in
      - [Arith.rounded fl]: the real numbers, the result of every operation
        rounded by [fl]; doubles that do not overflow are the case where
        [fl] rounds to the nearest double, and [Arith.exact], where nothing
        is rounded, is the arithmetic of the modules above;
      - [Double.arith]: the binary64 numbers of the kernel, on which the
        code runs as it does in JavaScript;
      - [Arith.checked fl]: as [Arith.rounded fl], with a division that
        fails on a zero divisor.

    Promises.  A settled promise is a value of [Promise A]: [Resolved a] or
    [Rejected e].  [await] is the bind of that error monad.

    HealthKit.  Every query of the native module calls its callback once;
    the module is modelled by the arguments it hands to each callback.  The
    query options (dates, limits, ordering) only select the samples the
    store reports and are not modelled.

    Imports.  [./categoryCalculators], [./scoringUtils],
    [./workoutDataProviders] and [./historicalDataProviders] are not among
    the sources: the orchestrator is parameterised by the first two (classes
    [CategoryCalculators] and [ScoringUtils]) and the service by the promises
    their providers return.

    Dates.  A date is the instant [getTime()] returns, in milliseconds;
    [toDateString] is a parameter of the grouping, since it depends on the
    time zone of the device. *)

From Stdlib Require Import Reals Lra Lia ZArith List String Bool.
From Stdlib Require Import Sorting.Sorted Sorting.Permutation.
From Stdlib Require Floats Uint63.
Import ListNotations.
Open Scope R_scope.

(* ================================================================== *)
(** * JavaScript primitives used by the sources *)

Module JS.

(** [Math.round]: the nearest integer, a tie going towards +infinity. *)
Definition Math_round (x : R) : R := IZR (Zfloor (x + / 2)).

(** [Math.max] of two numbers. *)
Definition Math_max (a b : R) : R := Rmax a b.

(** [Math.sqrt]. *)
Definition Math_sqrt (x : R) : R := sqrt x.

(** [Math.pow] with a natural exponent. *)
Definition Math_pow (x : R) (n : nat) : R := x ^ n.

(** [a > b] on numbers, as a boolean. *)
Definition gt (a b : R) : bool := if Rlt_dec b a then true else false.

(** Truthiness of a number: every number but [0] is truthy. *)
Definition truthy_number (x : R) : bool :=
  if Req_dec_T x 0 then false else true.

(** [x || d] on numbers. *)
Definition or_number (x d : R) : R := if truthy_number x then x else d.

(** Truthiness of a value that is a string, [null] or [undefined]:
    only a non-empty string is truthy. *)
Definition truthy_string (s : option string) : bool :=
  match s with
  | Some s => negb (String.eqb s "")
  | None => false
  end.

(** [String.prototype.includes]: [needle] occurs in [s]. *)
Fixpoint includes (s needle : string) : bool :=
  if String.prefix needle s then true
  else match s with
       | EmptyString => false
       | String _ rest => includes rest needle
       end.

(** [Array.prototype.reduce] with an initial value. *)
Definition reduce {A B : Type} (f : B -> A -> B) (init : B) (l : list A) : B :=
  fold_left f l init.

(** [Array.prototype.length], as a number. *)
Definition length_number {A : Type} (l : list A) : R := INR (List.length l).

End JS.

(* ================================================================== *)
(** * Arithmetics *)

Module Arith.

(** The operations the numeric code of the sources applies to numbers. *)
Class t (T : Type) : Type := {
  (** an integer literal, the length of an array, the instant of a date *)
  number : Z -> T;
  add : T -> T -> T;
  sub : T -> T -> T;
  mul : T -> T -> T;
  div : T -> T -> T;
  (** [a > b] *)
  gt : T -> T -> bool;
  Math_round : T -> T;
  Math_max : T -> T -> T;
  Math_sqrt : T -> T;
  (** [Math.pow(x, 2)] *)
  Math_pow2 : T -> T
}.

(** The real numbers, the result of every operation rounded by [fl].
    [Math.round], [Math.max] and the comparison do not round: their result
    is an integer or one of their arguments. *)
Definition rounded (fl : R -> R) : t R :=
  {| number := IZR;
     add x y := fl (x + y);
     sub x y := fl (x - y);
     mul x y := fl (x * y);
     div x y := fl (x / y);
     gt := JS.gt;
     Math_round := JS.Math_round;
     Math_max := JS.Math_max;
     Math_sqrt x := fl (JS.Math_sqrt x);
     Math_pow2 x := fl (JS.Math_pow x 2) |}.

(** The real numbers, nothing rounded. *)
Definition exact : t R := rounded (fun x => x).





End Arith.

(** Doubles: the binary64 numbers of the kernel, whose operations round to
    the nearest double, a tie going to the even one. *)
Module Double.
Import PrimFloat.

(** The double of an integer (exact up to 2^53 in absolute value). *)
Definition number (z : Z) : float :=
  if (z <? 0)%Z
  then opp (of_uint63 (Uint63.of_Z (- z)))
  else of_uint63 (Uint63.of_Z z).

(** From 2^52 on every double is an integer. *)
Definition two52 : float := number (2 ^ 52).

Definition half : float := div (number 1) (number 2).

(** [Math.floor] of a double below 2^52 in absolute value: adding and
    subtracting 2^52 rounds to an integer, which is the floor or one above. *)
Definition Math_floor (x : float) : float :=
  let nearest :=
    if ltb x (number 0)
    then add (sub x two52) two52
    else sub (add x two52) two52 in
  if ltb x nearest then sub nearest (number 1) else nearest.

(** [Math.round]: [NaN], the infinities and the integers are returned as
    they are; otherwise the nearest integer, a tie going towards +infinity,
    and [-0] for a negative number that rounds to zero. *)
Definition Math_round (x : float) : float :=
  if ltb (abs x) two52
  then
    let floor := Math_floor x in
    let n := if leb half (sub x floor) then add floor (number 1) else floor in
    if eqb n (number 0)
    then (if ltb x (number 0) then opp (number 0)
          else if eqb x (number 0) then x else n)
    else n
  else x.

(** [Math.max] of two numbers: [NaN] if one of them is, and [+0] above [-0]. *)
Definition Math_max (a b : float) : float :=
  if is_nan a then a
  else if is_nan b then b
  else if ltb a b then b
  else if ltb b a then a
  else match classify a with
       | FloatClass.NZero => b
       | _ => a
       end.

(** [Math.pow(x, 2)] is taken to be the rounded square [x * x]. *)
Definition arith : Arith.t float :=
  {| Arith.number := number;
     Arith.add := add;
     Arith.sub := sub;
     Arith.mul := mul;
     Arith.div := div;
     Arith.gt a b := ltb b a;
     Arith.Math_round := Math_round;
     Arith.Math_max := Math_max;
     Arith.Math_sqrt := sqrt;
     Arith.Math_pow2 x := mul x x |}.

(** The real number a finite double is; [None] for [NaN] and the
    infinities. *)
Definition toReal (x : float) : option R :=
  match FloatOps.Prim2SF x with
  | SpecFloat.S754_zero _ => Some 0
  | SpecFloat.S754_finite negative m e =>
      Some ((if negative then - IZR (Zpos m) else IZR (Zpos m)) * powerRZ 2 e)
  | _ => None
  end.

End Double.

(* ================================================================== *)
(** * [@/types/health] and [@/types/errors] *)

Module Health.

(** [HealthMetrics]: the nine numeric fields. *)
Record HealthMetrics : Type := {
  restingHeartRate : R;
  heartRateVariability : R;
  vo2Max : R;
  deepSleepPercentage : R;
  remSleepPercentage : R;
  sleepConsistency : R;
  monthlyTrainingTime : R;
  trainingIntensity : R;
  dailySteps : R
}.

Section Results.
(** The explanatory entry type and the level type are declared in
    [@/types/health]; the orchestrator only moves their values around. *)
Variables HistoryItem FitnessLevel : Type.

(** What a category calculator returns. *)
Record CategoryResult : Type := {
  total : R;
  items : list HistoryItem
}.

(** What [calculateBonusPoints] returns. *)
Record BonusResult : Type := {
  points : R;
  detailedExplanation : string
}.

Record BonusBreakdown : Type := {
  cardiovascularPercent : R;
  recoveryPercent : R;
  activityPercent : R;
  excellentCategories : list string;
  requirementsExplanation : string
}.

Record FitnessScoreResult : Type := {
  totalScore : R;
  cardiovascularPoints : R;
  recoveryPoints : R;
  activityPoints : R;
  bonusPoints : R;
  fitnessLevel : FitnessLevel;
  bonusBreakdown : BonusBreakdown;
  historyItems : list HistoryItem
}.
End Results.

Arguments total {HistoryItem} _.
Arguments items {HistoryItem} _.
Arguments Build_CategoryResult {HistoryItem} _ _.
Arguments totalScore {HistoryItem FitnessLevel} _.
Arguments cardiovascularPoints {HistoryItem FitnessLevel} _.
Arguments recoveryPoints {HistoryItem FitnessLevel} _.
Arguments activityPoints {HistoryItem FitnessLevel} _.
Arguments bonusPoints {HistoryItem FitnessLevel} _.
Arguments fitnessLevel {HistoryItem FitnessLevel} _.
Arguments bonusBreakdown {HistoryItem FitnessLevel} _.
Arguments historyItems {HistoryItem FitnessLevel} _.
Arguments Build_FitnessScoreResult {HistoryItem FitnessLevel} _ _ _ _ _ _ _ _.

(** What a rejected promise carries. *)
Inductive Thrown : Type :=
| HealthKitInitializationError (message : string)
| OtherError (message : string).

End Health.

(* ================================================================== *)
(** * [src/utils/fitnessCalculator.ts] *)

Module FitnessCalculator.
Import Health.

(** The functions imported from [./categoryCalculators]. *)
Class CategoryCalculators (HistoryItem : Type) : Type := {
  calculateCardiovascularPoints : R -> R -> R -> CategoryResult HistoryItem;
  calculateRecoveryPoints : R -> R -> R -> CategoryResult HistoryItem;
  calculateActivityPoints : R -> R -> R -> CategoryResult HistoryItem;
  createBonusHistoryItem : R -> R -> R -> HistoryItem
}.

(** The functions imported from [./scoringUtils]. *)
Class ScoringUtils (FitnessLevel : Type) : Type := {
  calculateBonusPoints : R -> R -> R -> BonusResult;
  determineFitnessLevel : R -> FitnessLevel
}.

Section Orchestrator.
Context {HistoryItem FitnessLevel : Type}.
Context {calculators : CategoryCalculators HistoryItem}.
Context {utils : ScoringUtils FitnessLevel}.

Definition calculateFitnessScore (metrics : HealthMetrics)
  : FitnessScoreResult HistoryItem FitnessLevel :=
  let cardiovascularResult :=
    calculateCardiovascularPoints
      (restingHeartRate metrics)
      (heartRateVariability metrics)
      (vo2Max metrics) in
  let recoveryResult :=
    calculateRecoveryPoints
      (deepSleepPercentage metrics)
      (remSleepPercentage metrics)
      (sleepConsistency metrics) in
  let activityResult :=
    calculateActivityPoints
      (monthlyTrainingTime metrics / 30)
      (trainingIntensity metrics)
      (dailySteps metrics) in
  let bonusResult :=
    calculateBonusPoints
      (total cardiovascularResult)
      (total recoveryResult)
      (total activityResult) in
  let bonusHistoryItem :=
    createBonusHistoryItem
      (total cardiovascularResult)
      (total recoveryResult)
      (total activityResult) in
  let totalScore :=
    total cardiovascularResult
    + total recoveryResult
    + total activityResult
    + points bonusResult in
  let fitnessLevel := determineFitnessLevel totalScore in
  let historyItems :=
    items cardiovascularResult
    ++ items recoveryResult
    ++ items activityResult
    ++ [bonusHistoryItem] in
  {| totalScore := totalScore;
     cardiovascularPoints := total cardiovascularResult;
     recoveryPoints := total recoveryResult;
     activityPoints := total activityResult;
     bonusPoints := points bonusResult;
     fitnessLevel := fitnessLevel;
     bonusBreakdown :=
       {| cardiovascularPercent :=
            JS.Math_round (total cardiovascularResult / 30 * 100);
          recoveryPercent :=
            JS.Math_round (total recoveryResult / 35 * 100);
          activityPercent :=
            JS.Math_round (total activityResult / 30 * 100);
          excellentCategories :=
            if JS.includes (detailedExplanation bonusResult) "all three"
            then ["Cardiovascular"; "Recovery"; "Activity"]%string
            else [];
          requirementsExplanation := detailedExplanation bonusResult |};
     historyItems := historyItems |}.
End Orchestrator.

End FitnessCalculator.

(* ================================================================== *)
(** * Promises *)

Module Async.
Import Health.

(** A settled promise. *)
Inductive Promise (A : Type) : Type :=
| Resolved (a : A)
| Rejected (e : Thrown).

Arguments Resolved {A} a.
Arguments Rejected {A} e.

(** [await p] followed by the rest of the [async] function. *)
Definition await {A B : Type} (p : Promise A) (k : A -> Promise B) : Promise B :=
  match p with
  | Resolved a => k a
  | Rejected e => Rejected e
  end.

(** [try { body } catch (error) { handler }]. *)
Definition try_catch {A : Type} (body : Promise A) (handler : Thrown -> Promise A)
  : Promise A :=
  match body with
  | Resolved a => Resolved a
  | Rejected e => handler e
  end.

Definition rejects {A : Type} (p : Promise A) : Prop :=
  exists e, p = Rejected e.

(** [Promise.all([p, q])]: both values when both promises resolve, a
    rejection when one of them rejects.  When both reject, the error is
    that of the promise that settles first: [secondFirst] says that it is
    [q]. *)
Definition all2 {A B : Type} (secondFirst : bool) (p : Promise A)
  (q : Promise B) : Promise (A * B) :=
  match p, q with
  | Resolved a, Resolved b => Resolved (a, b)
  | Rejected e, Resolved _ => Rejected e
  | Resolved _, Rejected e => Rejected e
  | Rejected e1, Rejected e2 => Rejected (if secondFirst then e2 else e1)
  end.

Declare Scope promise_scope.
Notation "x <- p ;; k" := (await p (fun x => k))
  (at level 100, p at next level, right associativity) : promise_scope.

End Async.

(* ================================================================== *)
(** * [react-native] and [react-native-health] *)

Module ReactNative.

(** [Platform.OS]. *)
Inductive PlatformOS : Type := ios | android | macos | windows | web.

(** [a !== b] on [Platform.OS]. *)
Definition neq (a b : PlatformOS) : bool :=
  match a, b with
  | ios, ios | android, android | macos, macos
  | windows, windows | web, web => false
  | _, _ => true
  end.

(** [HealthValue]: the providers read its [value] only. *)
Record HealthValue : Type := { value : R }.

(** The arguments a HealthKit query hands to its callback. *)
Record Callback (A : Type) : Type := {
  callbackError : option string;
  results : A
}.

Arguments callbackError {A} _.
Arguments results {A} _.
Arguments Build_Callback {A} _ _.

End ReactNative.

(** A sleep sample.  [startDate] and [endDate] are the instants that
    [new Date(...).getTime()] returns for the sample's dates, in
    milliseconds. *)
Module SleepSample.
Record t : Type := {
  startDate : Z;
  endDate : Z;
  value : string
}.
End SleepSample.

Module AppleHealthKit.
Import ReactNative.

(** The native module, as what each of its queries reports to its callback.
    [initHealthKit] reports an error only. *)
Record t : Type := {
  initHealthKit : option string;
  getRestingHeartRateSamples : Callback (list HealthValue);
  getHeartRateVariabilitySamples : Callback (list HealthValue);
  getVo2MaxSamples : Callback (list HealthValue);
  getSleepSamples : Callback (list SleepSample.t);
  getStepCount : Callback HealthValue
}.
End AppleHealthKit.

(* ================================================================== *)
(** * [src/services/healthDataProviders.ts] *)

Module HealthDataProviders.
Import ReactNative Async.

(** [results.reduce((sum, sample) => sum + sample.value, 0)]. *)
Definition sumValues (results : list HealthValue) : R :=
  JS.reduce (fun sum sample => sum + value sample) 0 results.

(** The average the three heart providers compute from the samples. *)
Definition averageValue (results : list HealthValue) : R :=
  if JS.gt (JS.length_number results) 0
  then sumValues results / JS.length_number results
  else 0.

Section Providers.
Variable OS : PlatformOS.
Variable kit : AppleHealthKit.t.

Definition getRestingHeartRateData : Promise R :=
  if neq OS ios then Resolved 0
  else
    let cb := AppleHealthKit.getRestingHeartRateSamples kit in
    if JS.truthy_string (callbackError cb) then Resolved 0
    else
      let averageRestingHeartRate := averageValue (results cb) in
      Resolved (JS.Math_round averageRestingHeartRate).

Definition getHeartRateVariabilityData : Promise R :=
  if neq OS ios then Resolved 0
  else
    let cb := AppleHealthKit.getHeartRateVariabilitySamples kit in
    if JS.truthy_string (callbackError cb) then Resolved 0
    else
      let averageHeartRateVariability := averageValue (results cb) in
      Resolved (JS.Math_round averageHeartRateVariability).

Definition getVO2MaxData : Promise R :=
  if neq OS ios then Resolved 0
  else
    let cb := AppleHealthKit.getVo2MaxSamples kit in
    if JS.truthy_string (callbackError cb) then Resolved 0
    else
      let averageVO2Max := averageValue (results cb) in
      Resolved (JS.Math_round (averageVO2Max * 10) / 10).

(** What [getSleepAnalysisData] resolves with. *)
Record SleepAnalysis : Type := {
  deepSleepPercentage : R;
  remSleepPercentage : R;
  sleepConsistency : R
}.

(** The variables the [forEach] loop over the samples updates. *)
Record SleepTotals : Type := {
  totalDeepSleep : R;
  totalRemSleep : R;
  totalSleep : R;
  sleepDurations : list R
}.

(** The length of a sample in hours. *)
Definition hours (sample : SleepSample.t) : R :=
  let duration :=
    IZR (SleepSample.endDate sample) - IZR (SleepSample.startDate sample) in
  duration / (1000 * 60 * 60).

(** One turn of the [forEach] loop. *)
Definition addSample (acc : SleepTotals) (sample : SleepSample.t) : SleepTotals :=
  let hours := hours sample in
  {| totalSleep := totalSleep acc + hours;
     totalDeepSleep :=
       if String.eqb (SleepSample.value sample) "DEEP"
       then totalDeepSleep acc + hours
       else totalDeepSleep acc;
     totalRemSleep :=
       if String.eqb (SleepSample.value sample) "DEEP"
       then totalRemSleep acc
       else if String.eqb (SleepSample.value sample) "REM"
            then totalRemSleep acc + hours
            else totalRemSleep acc;
     sleepDurations := sleepDurations acc ++ [hours] |}.

Definition sleepTotals (results : list SleepSample.t) : SleepTotals :=
  fold_left addSample results
    {| totalDeepSleep := 0; totalRemSleep := 0; totalSleep := 0;
       sleepDurations := [] |}.

Definition averageSleep (sleepDurations : list R) : R :=
  if JS.gt (JS.length_number sleepDurations) 0
  then JS.reduce (fun a b => a + b) 0 sleepDurations
       / JS.length_number sleepDurations
  else 0.

Definition variance (sleepDurations : list R) : R :=
  let averageSleep := averageSleep sleepDurations in
  if JS.gt (JS.length_number sleepDurations) 0
  then JS.reduce
         (fun sum duration => sum + JS.Math_pow (duration - averageSleep) 2)
         0 sleepDurations
       / JS.length_number sleepDurations
  else 0.

(** The success branch of the [getSleepSamples] callback. *)
Definition analyseSleep (results : list SleepSample.t) : SleepAnalysis :=
  let t := sleepTotals results in
  let deepSleepPercentage :=
    if JS.gt (totalSleep t) 0
    then totalDeepSleep t / totalSleep t * 100 else 0 in
  let remSleepPercentage :=
    if JS.gt (totalSleep t) 0
    then totalRemSleep t / totalSleep t * 100 else 0 in
  let variance := variance (sleepDurations t) in
  let standardDeviation := JS.Math_sqrt variance in
  let sleepConsistency := JS.Math_max 0 (100 - standardDeviation * 20) in
  {| deepSleepPercentage := JS.Math_round (deepSleepPercentage * 10) / 10;
     remSleepPercentage := JS.Math_round (remSleepPercentage * 10) / 10;
     sleepConsistency := JS.Math_round sleepConsistency |}.

Definition getSleepAnalysisData : Promise SleepAnalysis :=
  if neq OS ios
  then Resolved {| deepSleepPercentage := 0;
                   remSleepPercentage := 0;
                   sleepConsistency := 0 |}
  else
    let cb := AppleHealthKit.getSleepSamples kit in
    if JS.truthy_string (callbackError cb)
    then Resolved {| deepSleepPercentage := 0;
                     remSleepPercentage := 0;
                     sleepConsistency := 0 |}
    else Resolved (analyseSleep (results cb)).

Definition getTodaysStepCount : Promise R :=
  if neq OS ios then Resolved 0
  else
    let cb := AppleHealthKit.getStepCount kit in
    if JS.truthy_string (callbackError cb) then Resolved 0
    else Resolved (JS.or_number (value (results cb)) 0).

End Providers.

End HealthDataProviders.

(* ================================================================== *)
(** * The numeric code of the sources, in any arithmetic *)

Module Numeric.
Import ReactNative Async Health FitnessCalculator.

Declare Scope number_scope.
Delimit Scope number_scope with number.
Notation "x + y" := (Arith.add x y) : number_scope.
Notation "x - y" := (Arith.sub x y) : number_scope.
Notation "x * y" := (Arith.mul x y) : number_scope.
Notation "x / y" := (Arith.div x y) : number_scope.
Notation "x > y" := (Arith.gt x y) : number_scope.
Notation "# z" := (Arith.number z%Z) (at level 1, format "# z") : number_scope.

(** What [getSleepAnalysisData] resolves with. *)
Record SleepAnalysis (T : Type) : Type := {
  deepSleepPercentage : T;
  remSleepPercentage : T;
  sleepConsistency : T
}.

Arguments deepSleepPercentage {T} _.
Arguments remSleepPercentage {T} _.
Arguments sleepConsistency {T} _.
Arguments Build_SleepAnalysis {T} _ _ _.

(** The variables the [forEach] loop over the samples updates. *)
Record SleepTotals (T : Type) : Type := {
  totalDeepSleep : T;
  totalRemSleep : T;
  totalSleep : T;
  sleepDurations : list T
}.

Arguments totalDeepSleep {T} _.
Arguments totalRemSleep {T} _.
Arguments totalSleep {T} _.
Arguments sleepDurations {T} _.
Arguments Build_SleepTotals {T} _ _ _ _.

Section Sleep.
Context {T : Type} {A : Arith.t T}.
Local Open Scope number_scope.

(** [Array.prototype.length], as a number. *)
Definition length_number {X : Type} (l : list X) : T :=
  Arith.number (Z.of_nat (List.length l)).

(** The length of a sample in hours. *)
Definition hours (sample : SleepSample.t) : T :=
  let duration :=
    Arith.number (SleepSample.endDate sample)
    - Arith.number (SleepSample.startDate sample) in
  duration / (#1000 * #60 * #60).

(** One turn of the [forEach] loop. *)
Definition addSample (acc : SleepTotals T) (sample : SleepSample.t)
  : SleepTotals T :=
  let hours := hours sample in
  {| totalSleep := totalSleep acc + hours;
     totalDeepSleep :=
       if String.eqb (SleepSample.value sample) "DEEP"
       then totalDeepSleep acc + hours
       else totalDeepSleep acc;
     totalRemSleep :=
       if String.eqb (SleepSample.value sample) "DEEP"
       then totalRemSleep acc
       else if String.eqb (SleepSample.value sample) "REM"
            then totalRemSleep acc + hours
            else totalRemSleep acc;
     sleepDurations := sleepDurations acc ++ [hours] |}.

Definition sleepTotals (results : list SleepSample.t) : SleepTotals T :=
  fold_left addSample results
    {| totalDeepSleep := #0; totalRemSleep := #0; totalSleep := #0;
       sleepDurations := [] |}.

Definition averageSleep (sleepDurations : list T) : T :=
  if length_number sleepDurations > #0
  then JS.reduce (fun a b => a + b) #0 sleepDurations
       / length_number sleepDurations
  else #0.

Definition variance (sleepDurations : list T) : T :=
  let averageSleep := averageSleep sleepDurations in
  if length_number sleepDurations > #0
  then JS.reduce
         (fun sum duration => sum + Arith.Math_pow2 (duration - averageSleep))
         #0 sleepDurations
       / length_number sleepDurations
  else #0.

(** The success branch of the [getSleepSamples] callback. *)
Definition analyseSleep (results : list SleepSample.t) : SleepAnalysis T :=
  let t := sleepTotals results in
  let deepSleepPercentage :=
    if totalSleep t > #0
    then totalDeepSleep t / totalSleep t * #100 else #0 in
  let remSleepPercentage :=
    if totalSleep t > #0
    then totalRemSleep t / totalSleep t * #100 else #0 in
  let variance := variance (sleepDurations t) in
  let standardDeviation := Arith.Math_sqrt variance in
  let sleepConsistency :=
    Arith.Math_max #0 (#100 - standardDeviation * #20) in
  {| deepSleepPercentage := Arith.Math_round (deepSleepPercentage * #10) / #10;
     remSleepPercentage := Arith.Math_round (remSleepPercentage * #10) / #10;
     sleepConsistency := Arith.Math_round sleepConsistency |}.

Definition getSleepAnalysisData (OS : PlatformOS) (kit : AppleHealthKit.t)
  : Promise (SleepAnalysis T) :=
  if neq OS ios
  then Resolved {| deepSleepPercentage := #0;
                   remSleepPercentage := #0;
                   sleepConsistency := #0 |}
  else
    let cb := AppleHealthKit.getSleepSamples kit in
    if JS.truthy_string (callbackError cb)
    then Resolved {| deepSleepPercentage := #0;
                     remSleepPercentage := #0;
                     sleepConsistency := #0 |}
    else Resolved (analyseSleep (results cb)).

End Sleep.

Section Orchestrator.
Context {HistoryItem FitnessLevel : Type}.
Context {calculators : CategoryCalculators HistoryItem}.
Context {utils : ScoringUtils FitnessLevel}.
Context {A : Arith.t R}.
Local Open Scope number_scope.

(** [calculateFitnessScore] of [fitnessCalculator.ts] in an arithmetic on the
    real numbers. *)
Definition calculateFitnessScore (metrics : HealthMetrics)
  : FitnessScoreResult HistoryItem FitnessLevel :=
  let cardiovascularResult :=
    calculateCardiovascularPoints
      (restingHeartRate metrics)
      (heartRateVariability metrics)
      (vo2Max metrics) in
  let recoveryResult :=
    calculateRecoveryPoints
      (Health.deepSleepPercentage metrics)
      (Health.remSleepPercentage metrics)
      (Health.sleepConsistency metrics) in
  let activityResult :=
    calculateActivityPoints
      (monthlyTrainingTime metrics / #30)%number
      (trainingIntensity metrics)
      (dailySteps metrics) in
  let bonusResult :=
    calculateBonusPoints
      (total cardiovascularResult)
      (total recoveryResult)
      (total activityResult) in
  let bonusHistoryItem :=
    createBonusHistoryItem
      (total cardiovascularResult)
      (total recoveryResult)
      (total activityResult) in
  let totalScore :=
    total cardiovascularResult
    + total recoveryResult
    + total activityResult
    + points bonusResult in
  let fitnessLevel := determineFitnessLevel totalScore in
  let historyItems :=
    items cardiovascularResult
    ++ items recoveryResult
    ++ items activityResult
    ++ [bonusHistoryItem] in
  {| totalScore := totalScore;
     cardiovascularPoints := total cardiovascularResult;
     recoveryPoints := total recoveryResult;
     activityPoints := total activityResult;
     bonusPoints := points bonusResult;
     fitnessLevel := fitnessLevel;
     bonusBreakdown :=
       {| cardiovascularPercent :=
            Arith.Math_round (total cardiovascularResult / #30 * #100);
          recoveryPercent :=
            Arith.Math_round (total recoveryResult / #35 * #100);
          activityPercent :=
            Arith.Math_round (total activityResult / #30 * #100);
          excellentCategories :=
            if JS.includes (detailedExplanation bonusResult) "all three"
            then ["Cardiovascular"; "Recovery"; "Activity"]%string
            else [];
          requirementsExplanation := detailedExplanation bonusResult |};
     historyItems := historyItems |}.
End Orchestrator.

End Numeric.

(* ================================================================== *)
(** * [src/services/healthService.ts] *)

Module HealthService.
Import ReactNative Async Health.
Local Open Scope promise_scope.

(** What [getMonthlyWorkoutData] of [./workoutDataProviders] resolves with:
    the two fields [getAllHealthMetrics] reads. *)
Record WorkoutData : Type := {
  monthlyTrainingTime : R;
  trainingIntensity : R
}.

(** The service object. *)
Record t : Type := { isHealthKitInitialized : bool }.

Section Service.
Variable OS : PlatformOS.
Variable kit : AppleHealthKit.t.
(** The promise the call [getMonthlyWorkoutData()] returns. *)
Variable getMonthlyWorkoutData : Promise WorkoutData.

(** [initialize]: the promise and the service after the call. *)
Definition initialize (this : t) : Promise bool * t :=
  if neq OS ios then (Resolved false, this)
  else if JS.truthy_string (AppleHealthKit.initHealthKit kit)
       then (Resolved false, {| isHealthKitInitialized := false |})
       else (Resolved true, {| isHealthKitInitialized := true |}).

(** The first block of [getAllHealthMetrics]: initialise on demand and
    throw when that fails. *)
Definition ensureInitialized (this : t) : Promise unit * t :=
  if negb (isHealthKitInitialized this)
  then
    let '(p, this') := initialize this in
    (initialized <- p ;;
     if negb initialized
     then Rejected (HealthKitInitializationError "Failed to initialize HealthKit")
     else Resolved tt,
     this')
  else (Resolved tt, this).

(** The [try] block of [getAllHealthMetrics]: [Promise.all] over the six
    providers, in the order of the array, and the record built from them. *)
Definition collectHealthMetrics : Promise HealthMetrics :=
  restingHeartRate <- HealthDataProviders.getRestingHeartRateData OS kit ;;
  heartRateVariability <- HealthDataProviders.getHeartRateVariabilityData OS kit ;;
  vo2Max <- HealthDataProviders.getVO2MaxData OS kit ;;
  sleepData <- HealthDataProviders.getSleepAnalysisData OS kit ;;
  dailySteps <- HealthDataProviders.getTodaysStepCount OS kit ;;
  workoutData <- getMonthlyWorkoutData ;;
  Resolved
    {| Health.restingHeartRate := restingHeartRate;
       Health.heartRateVariability := heartRateVariability;
       Health.vo2Max := vo2Max;
       Health.deepSleepPercentage :=
         HealthDataProviders.deepSleepPercentage sleepData;
       Health.remSleepPercentage :=
         HealthDataProviders.remSleepPercentage sleepData;
       Health.sleepConsistency :=
         HealthDataProviders.sleepConsistency sleepData;
       Health.monthlyTrainingTime := monthlyTrainingTime workoutData;
       Health.trainingIntensity := trainingIntensity workoutData;
       Health.dailySteps := dailySteps |}.

Definition getAllHealthMetrics (this : t) : Promise HealthMetrics * t :=
  let '(ready, this') := ensureInitialized this in
  (_ <- ready ;;
   try_catch collectHealthMetrics (fun error => Rejected error),
   this').

End Service.
End HealthService.

(* ================================================================== *)
(** * The properties' vocabulary *)

Module Spec.
Import Health.

(** [n] is [x] rounded to the nearest integer, a tie going up. *)
Definition roundsHalfUp (x n : R) : Prop :=
  (exists z : Z, n = IZR z) /\ n - / 2 <= x < n + / 2.

(** The sum of a list of numbers. *)
Definition sum (l : list R) : R := fold_right Rplus 0 l.

(** The arithmetic mean of a list of numbers. *)
Definition mean (l : list R) : R := sum l / INR (List.length l).

(** The (population) standard deviation of a list of numbers; [0] for the
    empty list. *)
Definition standardDeviation (l : list R) : R :=
  match l with
  | [] => 0
  | _ => sqrt (sum (map (fun x => Rsqr (x - mean l)) l) / INR (List.length l))
  end.

(** The consistency score of a standard deviation [sigma]. *)
Definition consistencyScore (sigma : R) : R :=
  JS.Math_round (Rmax 0 (100 - 20 * sigma)).

(** The consistency score of [sigma] when the product and the difference are
    rounded by [fl]. *)
Definition roundedConsistencyScore (fl : R -> R) (sigma : R) : R :=
  JS.Math_round (Rmax 0 (fl (100 - fl (sigma * 20)))).

(** The length of a sleep sample in hours: a duration in milliseconds over
    3,600,000. *)
Definition hoursOf (sample : SleepSample.t) : R :=
  IZR (SleepSample.endDate sample - SleepSample.startDate sample) / 3600000.

(** The same quantities in an arithmetic that rounds the result of every
    operation by [fl]: the hours of a sample; the sum of a list, added from
    its first element on; and the standard deviation, from the rounded mean
    and the rounded squares of the deviations. *)
Definition roundedHours (fl : R -> R) (sample : SleepSample.t) : R :=
  fl (fl (IZR (SleepSample.endDate sample)
          - IZR (SleepSample.startDate sample)) / 3600000).

Definition roundedSum (fl : R -> R) (l : list R) : R :=
  fold_left (fun sum x => fl (sum + x)) l 0.

Definition roundedMean (fl : R -> R) (l : list R) : R :=
  fl (roundedSum fl l / INR (List.length l)).

Definition roundedStandardDeviation (fl : R -> R) (l : list R) : R :=
  match l with
  | [] => 0
  | _ =>
      let squares :=
        map (fun x => fl (Rsqr (fl (x - roundedMean fl l)))) l in
      fl (sqrt (fl (roundedSum fl squares / INR (List.length l))))
  end.

(** [fl] is a rounding as that of doubles: it keeps the order, and the
    integers up to 2^53 in absolute value are not rounded. *)
Definition rounding (fl : R -> R) : Prop :=
  (forall x y, x <= y -> fl x <= fl y)
  /\ (forall z : Z, (Z.abs z <= 2 ^ 53)%Z -> fl (IZR z) = IZR z).

(** HealthKit initialisation fails for a service that is not initialised
    yet when the platform is not iOS or [initHealthKit] reports an error. *)
Definition initializationFails (OS : ReactNative.PlatformOS)
  (kit : AppleHealthKit.t) (this : HealthService.t) : Prop :=
  HealthService.isHealthKitInitialized this = false
  /\ (ReactNative.neq OS ReactNative.ios = true
      \/ JS.truthy_string (AppleHealthKit.initHealthKit kit) = true).

(** The category [name] is at or above 75% of its maximum, for the category
    totals [c], [r] and [a]. *)
Definition qualifies (c r a : R) (name : string) : Prop :=
  (name = "Cardiovascular"%string /\ 75 / 100 * 30 <= c)
  \/ (name = "Recovery"%string /\ 75 / 100 * 35 <= r)
  \/ (name = "Activity"%string /\ 75 / 100 * 30 <= a).

(** [excellentCategories] is the set of the qualifying categories. *)
Definition excellentCategoriesExact {HistoryItem FitnessLevel : Type}
  (result : FitnessScoreResult HistoryItem FitnessLevel) : Prop :=
  forall name : string,
    In name (excellentCategories (bonusBreakdown result))
    <-> qualifies (cardiovascularPoints result) (recoveryPoints result)
          (activityPoints result) name.

End Spec.

(* ================================================================== *)
(** * Stand-ins for [./categoryCalculators] and [./scoringUtils] *)

Module StandIn.
Import Health FitnessCalculator.

Definition clamp (lo hi x : R) : R := Rmax lo (Rmin hi x).

(** A category result of three sub-metrics, each clamped to its maximum, the
    total clamped to the category's maximum. *)
Definition category (names : string * string * string) (m1 m2 m3 : R)
  (x1 x2 x3 : R) : CategoryResult string :=
  let '(n1, n2, n3) := names in
  {| total := clamp 0 (m1 + m2 + m3) (clamp 0 m1 x1 + clamp 0 m2 x2 + clamp 0 m3 x3);
     items := [n1; n2; n3] |}.

(** Modelled from the spec: the functions of [./categoryCalculators], which
    is not among the sources.  The spec fixes the sub-metrics, their maxima
    and the clamping of points and totals, and leaves the thresholds open;
    here a sub-metric's points are its raw value, clamped. *)
#[local] Instance calculators : CategoryCalculators string := {|
  calculateCardiovascularPoints :=
    category ("RHR", "HRV", "VO2 Max")%string 10 10 10;
  calculateRecoveryPoints :=
    category ("Deep Sleep", "REM Sleep", "Sleep Consistency")%string 15 12 8;
  calculateActivityPoints :=
    category ("Training Time", "Training Intensity", "Daily Steps")%string 12 12 6;
  createBonusHistoryItem := fun _ _ _ => "Bonus Consistency"%string
|}.

(** The number of categories at or above 75% of their maximum. *)
Definition excellentCount (c r a : R) : nat :=
  (if Rle_dec 75 (c / 30 * 100) then 1 else 0)
  + (if Rle_dec 75 (r / 35 * 100) then 1 else 0)
  + (if Rle_dec 75 (a / 30 * 100) then 1 else 0).

(** The levels of the stand-in classifier. *)
Inductive Level : Type := Poor | Fair | Good | Excellent.

(** Modelled from the spec: the functions of [./scoringUtils], which is not
    among the sources.  The bonus is 0, 1, 3 or 5 points for 0, 1, 2 or 3
    categories at or above 75% of their maximum, and the explanation has the
    phrase "all three" when all three are; the other wording and the level
    boundaries are placeholders. *)
#[local] Instance utils : ScoringUtils Level := {|
  calculateBonusPoints := fun c r a =>
    match excellentCount c r a with
    | O => {| points := 0;
              detailedExplanation := "No category reached 75% of its maximum" |}
    | 1%nat => {| points := 1;
              detailedExplanation := "One category reached 75% of its maximum" |}
    | 2%nat => {| points := 3;
              detailedExplanation := "Two categories reached 75% of their maximum" |}
    | _ => {| points := 5;
              detailedExplanation := "Excellent in all three categories" |}
    end;
  determineFitnessLevel := fun totalScore =>
    if Rle_dec 75 totalScore then Excellent
    else if Rle_dec 50 totalScore then Good
    else if Rle_dec 25 totalScore then Fair
    else Poor
|}.

(** Metrics whose first three fields earn the full cardiovascular points with
    the stand-in calculators and whose other fields are zero. *)
Definition cardioOnly : HealthMetrics :=
  {| restingHeartRate := 10; heartRateVariability := 10; vo2Max := 10;
     deepSleepPercentage := 0; remSleepPercentage := 0; sleepConsistency := 0;
     monthlyTrainingTime := 0; trainingIntensity := 0; dailySteps := 0 |}.

(** Metrics that earn every point with the stand-in calculators: 360 minutes
    of monthly training are 12 minutes a day. *)
Definition allMax : HealthMetrics :=
  {| restingHeartRate := 10; heartRateVariability := 10; vo2Max := 10;
     deepSleepPercentage := 15; remSleepPercentage := 12; sleepConsistency := 8;
     monthlyTrainingTime := 360; trainingIntensity := 12; dailySteps := 6 |}.

(** Calculators that record the arguments they are called with. *)
Inductive Call : Type :=
| CardiovascularCall (rhr hrv vo2Max : R)
| RecoveryCall (deepSleepPct remSleepPct sleepConsistency : R)
| ActivityCall (dailyTrainingMinutes trainingIntensity dailySteps : R)
| BonusItemCall (cardioTotal recoveryTotal activityTotal : R).

#[local] Instance recorder : CategoryCalculators Call := {|
  calculateCardiovascularPoints := fun x y z =>
    {| total := 0; items := [CardiovascularCall x y z] |};
  calculateRecoveryPoints := fun x y z =>
    {| total := 0; items := [RecoveryCall x y z] |};
  calculateActivityPoints := fun x y z =>
    {| total := x; items := [ActivityCall x y z] |};
  createBonusHistoryItem := BonusItemCall
|}.

(** [metrics] with another [monthlyTrainingTime]. *)
Definition withMonthlyTrainingTime (metrics : HealthMetrics) (v : R)
  : HealthMetrics :=
  {| restingHeartRate := restingHeartRate metrics;
     heartRateVariability := heartRateVariability metrics;
     vo2Max := vo2Max metrics;
     deepSleepPercentage := deepSleepPercentage metrics;
     remSleepPercentage := remSleepPercentage metrics;
     sleepConsistency := sleepConsistency metrics;
     monthlyTrainingTime := v;
     trainingIntensity := trainingIntensity metrics;
     dailySteps := dailySteps metrics |}.

End StandIn.

(* ================================================================== *)
(** * HealthKit answers used as examples *)

Module Scenario.
Import ReactNative.

(** No error and no samples. *)
Definition noSamples {A : Type} : Callback (list A) :=
  {| callbackError := None; results := [] |}.

(** HealthKit initialises and every query succeeds with no data. *)
Definition emptyStore : AppleHealthKit.t :=
  {| AppleHealthKit.initHealthKit := None;
     AppleHealthKit.getRestingHeartRateSamples := noSamples;
     AppleHealthKit.getHeartRateVariabilitySamples := noSamples;
     AppleHealthKit.getVo2MaxSamples := noSamples;
     AppleHealthKit.getSleepSamples := noSamples;
     AppleHealthKit.getStepCount :=
       {| callbackError := None; results := {| value := 0 |} |} |}.

(** [kit] with another answer to [getSleepSamples]. *)
Definition withSleepSamples (kit : AppleHealthKit.t)
  (cb : Callback (list SleepSample.t)) : AppleHealthKit.t :=
  {| AppleHealthKit.initHealthKit := AppleHealthKit.initHealthKit kit;
     AppleHealthKit.getRestingHeartRateSamples :=
       AppleHealthKit.getRestingHeartRateSamples kit;
     AppleHealthKit.getHeartRateVariabilitySamples :=
       AppleHealthKit.getHeartRateVariabilitySamples kit;
     AppleHealthKit.getVo2MaxSamples := AppleHealthKit.getVo2MaxSamples kit;
     AppleHealthKit.getSleepSamples := cb;
     AppleHealthKit.getStepCount := AppleHealthKit.getStepCount kit |}.

(** A sample of four minutes and one of ten hours and one minute. *)
Definition shortAndLong : list SleepSample.t :=
  [ {| SleepSample.startDate := 1700000000000;
       SleepSample.endDate := 1700000240000;
       SleepSample.value := "CORE" |};
    {| SleepSample.startDate := 1700003600000;
       SleepSample.endDate := 1700039660000;
       SleepSample.value := "CORE" |} ].

(** Forty-five minutes of deep sleep and 355 minutes of core sleep. *)
Definition deepOf400 : list SleepSample.t :=
  [ {| SleepSample.startDate := 1700000000000;
       SleepSample.endDate := 1700002700000;
       SleepSample.value := "DEEP" |};
    {| SleepSample.startDate := 1700002700000;
       SleepSample.endDate := 1700024000000;
       SleepSample.value := "CORE" |} ].

(** A night of 6 h 04 and a night of 8 h 01. *)
Definition twoNights : list SleepSample.t :=
  [ {| SleepSample.startDate := 1700000000000;
       SleepSample.endDate := 1700021840000;
       SleepSample.value := "CORE" |};
    {| SleepSample.startDate := 1700086400000;
       SleepSample.endDate := 1700115260000;
       SleepSample.value := "CORE" |} ].

(** Rounding to the nearest multiple of 1/1024, a tie going up. *)
Definition toNearest1024th (x : R) : R := JS.Math_round (x * 1024) / 1024.

(** A night of two samples: seven hours of deep sleep, nine hours of REM. *)
Definition twoSamples : list SleepSample.t :=
  [ {| SleepSample.startDate := 0;
       SleepSample.endDate := 25200000;
       SleepSample.value := "DEEP" |};
    {| SleepSample.startDate := 25200000;
       SleepSample.endDate := 57600000;
       SleepSample.value := "REM" |} ].

End Scenario.

(* ================================================================== *)
(** * [Array.prototype.sort] and objects used as dictionaries *)

Module JSArray.

(** [x] is put before the first element [y] that the comparator does not
    order before it ([compare x y <= 0]). *)
Fixpoint insert {A : Type} (compare : A -> A -> Z) (x : A) (l : list A)
  : list A :=
  match l with
  | [] => [x]
  | y :: rest =>
      if (compare x y <=? 0)%Z then x :: y :: rest
      else y :: insert compare x rest
  end.

(** [array.sort(compare)]: the stable sort of the array. *)
Definition sort {A : Type} (compare : A -> A -> Z) (l : list A) : list A :=
  fold_right (insert compare) [] l.

End JSArray.

(** An object with string keys: its own properties in insertion order, which
    is the order of [Object.values] for keys that are not array indices.
    The keys used here are date strings and function names; none is an array
    index or the name of a property of [Object.prototype]. *)
Module JSObject.
Section Dict.
Context {V : Type}.

Definition t : Type := list (string * V).

(** [object[key]]; [None] is [undefined]. *)
Fixpoint get (key : string) (object : t) : option V :=
  match object with
  | [] => None
  | (k, v) :: rest => if String.eqb k key then Some v else get key rest
  end.

(** The object after the value stored under an existing [key] is changed
    by [f]. *)
Fixpoint modify (key : string) (f : V -> V) (object : t) : t :=
  match object with
  | [] => []
  | (k, v) :: rest =>
      if String.eqb k key then (k, f v) :: rest
      else (k, v) :: modify key f rest
  end.

(** [object[key] = v]: an existing property keeps its place, a new one
    goes last. *)
Fixpoint set (key : string) (v : V) (object : t) : t :=
  match object with
  | [] => [(key, v)]
  | (k, w) :: rest =>
      if String.eqb k key then (k, v) :: rest
      else (k, w) :: set key v rest
  end.

(** [Object.values(object)]. *)
Definition values (object : t) : list V := map snd object.

End Dict.
Arguments t V : clear implicits.
End JSObject.

(* ================================================================== *)
(** * [healthService.ts]: the other methods *)

Module Historical.

(** [HealthValue] with the [startDate] that the grouping reads: the instant
    [new Date(sample.startDate).getTime()], in milliseconds. *)
Record HealthValue : Type := {
  value : R;
  startDate : Z
}.

(** An entry of [getHistoricalHealthData]'s result.  [date] is the instant
    of [new Date(sample.startDate)]. *)
Record DateGroup : Type := {
  date : Z;
  stepsData : list HealthValue;
  heartRateData : list HealthValue;
  hrvData : list HealthValue;
  sleepData : list SleepSample.t
}.

(** An entry of [getHistoricalWorkoutData]'s result. *)
Record Workout : Type := {
  workoutDate : Z;
  duration : R;
  intensity : R
}.

(** What [getComprehensiveHistoricalData] resolves with. *)
Record Comprehensive : Type := {
  historicalData : list DateGroup;
  workoutData : list Workout
}.

(** [group.stepsData.push(sample)] and its three siblings. *)
Definition pushSteps (sample : HealthValue) (g : DateGroup) : DateGroup :=
  {| date := date g;
     stepsData := stepsData g ++ [sample];
     heartRateData := heartRateData g;
     hrvData := hrvData g;
     sleepData := sleepData g |}.

Definition pushHeartRate (sample : HealthValue) (g : DateGroup) : DateGroup :=
  {| date := date g;
     stepsData := stepsData g;
     heartRateData := heartRateData g ++ [sample];
     hrvData := hrvData g;
     sleepData := sleepData g |}.

Definition pushHrv (sample : HealthValue) (g : DateGroup) : DateGroup :=
  {| date := date g;
     stepsData := stepsData g;
     heartRateData := heartRateData g;
     hrvData := hrvData g ++ [sample];
     sleepData := sleepData g |}.

Definition pushSleep (sample : SleepSample.t) (g : DateGroup) : DateGroup :=
  {| date := date g;
     stepsData := stepsData g;
     heartRateData := heartRateData g;
     hrvData := hrvData g;
     sleepData := sleepData g ++ [sample] |}.

Section Grouping.
(** [new Date(instant).toDateString()]: the local calendar day of an
    instant, as text. *)
Variable toDateString : Z -> string.

(** The body the four [forEach] loops share: create the day's group when
    [dateGroups] has none, then push the sample to one of its lists. *)
Definition addToGroup (push : DateGroup -> DateGroup) (sampleStartDate : Z)
  (dateGroups : JSObject.t DateGroup) : JSObject.t DateGroup :=
  let dateStr := toDateString sampleStartDate in
  let dateGroups :=
    match JSObject.get dateStr dateGroups with
    | Some _ => dateGroups
    | None =>
        JSObject.set dateStr
          {| date := sampleStartDate;
             stepsData := []; heartRateData := []; hrvData := [];
             sleepData := [] |}
          dateGroups
    end in
  JSObject.modify dateStr push dateGroups.

(** [dateGroups] after the four loops. *)
Definition groupByDate
  (stepsData heartRateData hrvData : list HealthValue)
  (sleepData : list SleepSample.t) : JSObject.t DateGroup :=
  let dateGroups : JSObject.t DateGroup := [] in
  let dateGroups :=
    fold_left (fun groups sample =>
                 addToGroup (pushSteps sample) (startDate sample) groups)
      stepsData dateGroups in
  let dateGroups :=
    fold_left (fun groups sample =>
                 addToGroup (pushHeartRate sample) (startDate sample) groups)
      heartRateData dateGroups in
  let dateGroups :=
    fold_left (fun groups sample =>
                 addToGroup (pushHrv sample) (startDate sample) groups)
      hrvData dateGroups in
  fold_left (fun groups sample =>
               addToGroup (pushSleep sample) (SleepSample.startDate sample)
                 groups)
    sleepData dateGroups.

(** [(a, b) => b.date.getTime() - a.date.getTime()]. *)
Definition byDateDescending (a b : DateGroup) : Z := (date b - date a)%Z.

(** What the [try] block of [getHistoricalHealthData] returns. *)
Definition groupedByDate
  (stepsData heartRateData hrvData : list HealthValue)
  (sleepData : list SleepSample.t) : list DateGroup :=
  JSArray.sort byDateDescending
    (JSObject.values (groupByDate stepsData heartRateData hrvData sleepData)).

End Grouping.
End Historical.

Module HealthServiceMethods.
Import ReactNative Async Health Historical.
Local Open Scope promise_scope.

(** What [getTodaysWorkoutData] of [./workoutDataProviders] resolves with:
    the two fields [getTodaysHealthMetrics] reads. *)
Record TodaysTraining : Type := {
  todaysTrainingTime : R;
  todaysTrainingIntensity : R
}.

(** What [getTodaysHealthMetrics] resolves with. *)
Record TodaysHealthMetrics : Type := {
  dailySteps : R;
  dailyTrainingTime : R;
  trainingIntensity : R;
  restingHeartRate : R;
  heartRateVariability : R
}.

Definition zeroTodaysHealthMetrics : TodaysHealthMetrics :=
  {| dailySteps := 0; dailyTrainingTime := 0; trainingIntensity := 0;
     restingHeartRate := 0; heartRateVariability := 0 |}.

Section Methods.
Variable OS : PlatformOS.
Variable kit : AppleHealthKit.t.
Variable toDateString : Z -> string.
(** The promise the call [getTodaysWorkoutData()] returns, and the promises
    the providers of [./historicalDataProviders] return for a number of
    days. *)
Variable getTodaysWorkoutData : Promise TodaysTraining.
Variable getHistoricalStepsData : R -> Promise (list HealthValue).
Variable getHistoricalHeartRateData : R -> Promise (list HealthValue).
Variable getHistoricalHRVData : R -> Promise (list HealthValue).
Variable getHistoricalSleepData : R -> Promise (list SleepSample.t).
Variable getHistoricalWorkoutData : R -> Promise (list Workout).

(** The [try] block of [getTodaysHealthMetrics]. *)
Definition collectTodaysHealthMetrics : Promise TodaysHealthMetrics :=
  dailySteps <- HealthDataProviders.getTodaysStepCount OS kit ;;
  todaysTraining <- getTodaysWorkoutData ;;
  restingHeartRate <- HealthDataProviders.getRestingHeartRateData OS kit ;;
  heartRateVariability <-
    HealthDataProviders.getHeartRateVariabilityData OS kit ;;
  Resolved
    {| dailySteps := dailySteps;
       dailyTrainingTime := todaysTrainingTime todaysTraining;
       trainingIntensity := todaysTrainingIntensity todaysTraining;
       restingHeartRate := restingHeartRate;
       heartRateVariability := heartRateVariability |}.

Definition getTodaysHealthMetrics (this : HealthService.t)
  : Promise TodaysHealthMetrics * HealthService.t :=
  let tryBlock :=
    try_catch collectTodaysHealthMetrics
      (fun error => Resolved zeroTodaysHealthMetrics) in
  if negb (HealthService.isHealthKitInitialized this)
  then
    let '(p, this') := HealthService.initialize OS kit this in
    (initialized <- p ;;
     if negb initialized then Resolved zeroTodaysHealthMetrics else tryBlock,
     this')
  else (tryBlock, this).

(** A parameter [days: number = 30]. *)
Definition daysOrDefault (days : option R) : R :=
  match days with
  | Some d => d
  | None => 30
  end.

(** The [try] block of [getHistoricalHealthData].  [Promise.all] is taken in
    the order of the array: when several providers reject, the error is the
    first one's in that order. *)
Definition collectHistoricalHealthData (days : R) : Promise (list DateGroup) :=
  stepsData <- getHistoricalStepsData days ;;
  heartRateData <- getHistoricalHeartRateData days ;;
  hrvData <- getHistoricalHRVData days ;;
  sleepData <- getHistoricalSleepData days ;;
  Resolved (groupedByDate toDateString stepsData heartRateData hrvData sleepData).

Definition getHistoricalHealthData (days : option R) (this : HealthService.t)
  : Promise (list DateGroup) * HealthService.t :=
  let days := daysOrDefault days in
  let '(ready, this') := HealthService.ensureInitialized OS kit this in
  (_ <- ready ;;
   try_catch (collectHistoricalHealthData days) (fun error => Rejected error),
   this').

(** [getComprehensiveHistoricalData].  Both calls are made before
    [Promise.all] waits for them; [workoutSettlesFirst] says which of the two
    rejections comes first when both promises reject. *)
Definition getComprehensiveHistoricalData (workoutSettlesFirst : bool)
  (days : option R) (this : HealthService.t)
  : Promise Comprehensive * HealthService.t :=
  let days := daysOrDefault days in
  let '(ready, this') := HealthService.ensureInitialized OS kit this in
  match ready with
  | Rejected e => (Rejected e, this')
  | Resolved _ =>
      let '(historical, this'') := getHistoricalHealthData (Some days) this' in
      (try_catch
         (both <- all2 workoutSettlesFirst historical
                    (getHistoricalWorkoutData days) ;;
          Resolved {| historicalData := fst both;
                      workoutData := snd both |})
         (fun error => Rejected error),
       this'')
  end.

End Methods.
End HealthServiceMethods.

(** The statement at the top of [healthService.ts] that copies functions
    missing from [AppleHealthKit] from [NativeModules.AppleHealthKit]. *)
Module NativeWorkaround.
Import ReactNative.

Definition keys : list string :=
  [ "initHealthKit"; "getRestingHeartRateSamples";
    "getHeartRateVariabilitySamples"; "getVo2MaxSamples"; "getSleepSamples";
    "getStepCount"; "getSamples"; "getAnchoredWorkouts" ]%string.

Section Patch.
(** The native functions; every one is a truthy value. *)
Variable Fn : Type.

(** One turn of the [for] loop. *)
Definition copyMissing (native : JSObject.t Fn) (kit : JSObject.t Fn)
  (key : string) : JSObject.t Fn :=
  match JSObject.get key kit, JSObject.get key native with
  | None, Some f => JSObject.set key f kit
  | _, _ => kit
  end.

(** [AppleHealthKit] after the statement; [native] is
    [NativeModules.AppleHealthKit], which may be [undefined]. *)
Definition patch (OS : PlatformOS) (native : option (JSObject.t Fn))
  (kit : JSObject.t Fn) : JSObject.t Fn :=
  match native with
  | Some native =>
      if neq OS ios then kit else fold_left (copyMissing native) keys kit
  | None => kit
  end.

End Patch.
End NativeWorkaround.

(* ================================================================== *)
(** * The vocabulary of the grouping properties *)

Module Grouped.
Import Historical.

(** [sample] falls on the day [day]. *)
Definition onDay (toDateString : Z -> string) (day : string) (instant : Z)
  : bool :=
  String.eqb (toDateString instant) day.

(** The samples of a list that fall on [day], in the order of the list. *)
Definition valuesOn (toDateString : Z -> string) (day : string)
  (samples : list HealthValue) : list HealthValue :=
  filter (fun s => onDay toDateString day (startDate s)) samples.

Definition sleepOn (toDateString : Z -> string) (day : string)
  (samples : list SleepSample.t) : list SleepSample.t :=
  filter (fun s => onDay toDateString day (SleepSample.startDate s)) samples.

(** The start instants of all samples, in the order the loops visit them. *)
Definition instants (stepsData heartRateData hrvData : list HealthValue)
  (sleepData : list SleepSample.t) : list Z :=
  map startDate stepsData ++ map startDate heartRateData
  ++ map startDate hrvData ++ map SleepSample.startDate sleepData.

(** A sample of one of the four kinds, for the loops seen as one. *)
Inductive Event : Type :=
| StepsEvent (sample : HealthValue)
| HeartRateEvent (sample : HealthValue)
| HrvEvent (sample : HealthValue)
| SleepEvent (sample : SleepSample.t).

Definition instant (e : Event) : Z :=
  match e with
  | StepsEvent s | HeartRateEvent s | HrvEvent s => startDate s
  | SleepEvent s => SleepSample.startDate s
  end.

Definition push (e : Event) : DateGroup -> DateGroup :=
  match e with
  | StepsEvent s => pushSteps s
  | HeartRateEvent s => pushHeartRate s
  | HrvEvent s => pushHrv s
  | SleepEvent s => pushSleep s
  end.

Definition events (stepsData heartRateData hrvData : list HealthValue)
  (sleepData : list SleepSample.t) : list Event :=
  map StepsEvent stepsData ++ map HeartRateEvent heartRateData
  ++ map HrvEvent hrvData ++ map SleepEvent sleepData.

Definition stepsOf (es : list Event) : list HealthValue :=
  flat_map (fun e => match e with StepsEvent s => [s] | _ => [] end) es.
Definition heartRateOf (es : list Event) : list HealthValue :=
  flat_map (fun e => match e with HeartRateEvent s => [s] | _ => [] end) es.
Definition hrvOf (es : list Event) : list HealthValue :=
  flat_map (fun e => match e with HrvEvent s => [s] | _ => [] end) es.
Definition sleepOf (es : list Event) : list SleepSample.t :=
  flat_map (fun e => match e with SleepEvent s => [s] | _ => [] end) es.

(** The events that fall on [day]. *)
Definition eventsOn (toDateString : Z -> string) (day : string)
  (es : list Event) : list Event :=
  filter (fun e => onDay toDateString day (instant e)) es.

(** One turn of any of the four loops. *)
Definition turn (toDateString : Z -> string) (groups : JSObject.t DateGroup)
  (e : Event) : JSObject.t DateGroup :=
  addToGroup toDateString (push e) (instant e) groups.

(** What holds of [dateGroups] after the loops have visited [es]: the keys
    are distinct, every visited sample's day is a key, and the group of a
    day has the date of the first sample visited on that day and, in each
    list, the samples of that kind visited on that day. *)
Record GroupsOf (toDateString : Z -> string) (es : list Event)
  (groups : JSObject.t DateGroup) : Prop := {
  keys_distinct : NoDup (map fst groups);
  keys_cover : forall e,
    In e es -> In (toDateString (instant e)) (map fst groups);
  group_content : forall k g,
    In (k, g) groups ->
    (exists e rest, eventsOn toDateString k es = e :: rest
                    /\ date g = instant e)
    /\ stepsData g = stepsOf (eventsOn toDateString k es)
    /\ heartRateData g = heartRateOf (eventsOn toDateString k es)
    /\ hrvData g = hrvOf (eventsOn toDateString k es)
    /\ sleepData g = sleepOf (eventsOn toDateString k es)
}.

(** A day function for examples: the number of whole days since the epoch,
    as a string of that many marks. *)
Definition dayMarks (instant : Z) : string :=
  String.concat "" (repeat "|"%string (Z.to_nat (instant / 86400000))).

End Grouped.

(* ================================================================== *)
(** * HealthKit answers with data *)

Module Readings.
Import ReactNative.

(** A night's sleep of eight hours starting at [start]. *)
Definition eightHours (start : Z) (stage : string) : SleepSample.t :=
  {| SleepSample.startDate := start;
     SleepSample.endDate := start + 28800000;
     SleepSample.value := stage |}.

(** Resting heart rates of 60 and 61, variabilities of 40 and 45, VO2 max
    of 41.2 and 41.3, two nights of eight hours and 8000 steps. *)
Definition store : AppleHealthKit.t :=
  {| AppleHealthKit.initHealthKit := None;
     AppleHealthKit.getRestingHeartRateSamples :=
       {| callbackError := None;
          results := [ {| value := 60 |}; {| value := 61 |} ] |};
     AppleHealthKit.getHeartRateVariabilitySamples :=
       {| callbackError := None;
          results := [ {| value := 40 |}; {| value := 45 |} ] |};
     AppleHealthKit.getVo2MaxSamples :=
       {| callbackError := None;
          results := [ {| value := 412 / 10 |}; {| value := 413 / 10 |} ] |};
     AppleHealthKit.getSleepSamples :=
       {| callbackError := None;
          results := [ eightHours 0 "CORE"; eightHours 86400000 "DEEP" ] |};
     AppleHealthKit.getStepCount :=
       {| callbackError := None; results := {| value := 8000 |} |} |}.

End Readings.

(** The sleep samples of a list whose [value] is [stage]. *)
Module SleepStages.
Definition inStage (stage : string) (samples : list SleepSample.t)
  : list SleepSample.t :=
  filter (fun s => String.eqb (SleepSample.value s) stage) samples.
End SleepStages.

(** Samples of three days for a run of the grouping: steps on day 1, day 0
    and day 1 again, a heart rate on day 2, a sleep sample on day 0. *)
Module Diary.
Import Historical.

Definition steps : list HealthValue :=
  [ {| value := 100; startDate := 90000000 |};
    {| value := 200; startDate := 1000 |};
    {| value := 300; startDate := 100000000 |} ].

Definition heartRates : list HealthValue :=
  [ {| value := 60; startDate := 172800000 |} ].

(** The two samples of [Scenario.twoSamples], one hour later. *)
Definition laterTwoSamples : list SleepSample.t :=
  [ {| SleepSample.startDate := 3600000;
       SleepSample.endDate := 28800000;
       SleepSample.value := "DEEP" |};
    {| SleepSample.startDate := 28800000;
       SleepSample.endDate := 61200000;
       SleepSample.value := "REM" |} ].

Definition nap : SleepSample.t :=
  {| SleepSample.startDate := 2000;
     SleepSample.endDate := 3602000;
     SleepSample.value := "CORE" |}.

End Diary.

(* ================================================================== *)
(** * Facts about the JavaScript primitives *)

Section RoundFacts.
Import JS.

Lemma Math_round_roundsHalfUp (x : R) : Spec.roundsHalfUp x (Math_round x).
Proof.
  unfold Spec.roundsHalfUp, Math_round.
  split; [now exists (Zfloor (x + / 2)) |].
  pose proof (Zfloor_bound (x + / 2)) as B. lra.
Qed.

Lemma roundsHalfUp_unique (x n : R) :
  Spec.roundsHalfUp x n -> n = Math_round x.
Proof.
  intros [[z ->] B]. unfold Math_round.
  f_equal. symmetry. apply Zfloor_eq. lra.
Qed.

Lemma Math_round_IZR (z : Z) : Math_round (IZR z) = IZR z.
Proof.
  symmetry. apply roundsHalfUp_unique.
  split; [now exists z | lra].
Qed.

Lemma Math_round_le (x y : R) : x <= y -> Math_round x <= Math_round y.
Proof.
  intros H. unfold Math_round. apply IZR_le, Zfloor_le. lra.
Qed.

Lemma Math_round_0 : Math_round 0 = 0.
Proof. exact (Math_round_IZR 0). Qed.

Lemma Math_round_between (lo hi : Z) (x : R) :
  IZR lo <= x <= IZR hi -> IZR lo <= Math_round x <= IZR hi.
Proof.
  intros [L H]. split.
  - rewrite <- (Math_round_IZR lo). now apply Math_round_le.
  - rewrite <- (Math_round_IZR hi). now apply Math_round_le.
Qed.

Lemma gt_true (a b : R) : gt a b = true <-> b < a.
Proof. unfold gt. destruct (Rlt_dec b a); split; intros; auto; discriminate. Qed.

Lemma gt_false (a b : R) : gt a b = false <-> a <= b.
Proof.
  unfold gt. destruct (Rlt_dec b a); split; intros; auto; try discriminate; lra.
Qed.

End RoundFacts.

(* ================================================================== *)
(** * The orchestrator: [calculateFitnessScore] *)

Section FitnessScore.
Import Health FitnessCalculator.
Context {HistoryItem FitnessLevel : Type}.
Context {calculators : CategoryCalculators HistoryItem}.
Context {utils : ScoringUtils FitnessLevel}.

(** C1.  For every [HealthMetrics] input, [totalScore] of the result of
    [calculateFitnessScore] is exactly the sum of the result's
    [cardiovascularPoints], [recoveryPoints], [activityPoints] and
    [bonusPoints]. *)
Theorem totalScore_is_sum_of_components (metrics : HealthMetrics) :
  let result := calculateFitnessScore metrics in
  totalScore result
  = cardiovascularPoints result + recoveryPoints result
    + activityPoints result + bonusPoints result.
Proof. reflexivity. Qed.

(** The components are the totals of the three calculators and the points of
    the bonus utility, computed on the fields of [metrics]. *)
Lemma components_unfold (metrics : HealthMetrics) :
  let result := calculateFitnessScore metrics in
  let c := calculateCardiovascularPoints (restingHeartRate metrics)
             (heartRateVariability metrics) (vo2Max metrics) in
  let r := calculateRecoveryPoints (deepSleepPercentage metrics)
             (remSleepPercentage metrics) (sleepConsistency metrics) in
  let a := calculateActivityPoints (monthlyTrainingTime metrics / 30)
             (trainingIntensity metrics) (dailySteps metrics) in
  cardiovascularPoints result = total c
  /\ recoveryPoints result = total r
  /\ activityPoints result = total a
  /\ bonusPoints result = points (calculateBonusPoints (total c) (total r) (total a)).
Proof. repeat split. Qed.

(** C3.  If the three category calculators return totals within [0,30],
    [0,35] and [0,30] and [calculateBonusPoints] returns 0, 1, 3 or 5 points,
    then [0 <= totalScore <= 100] for every input. *)
Theorem totalScore_within_0_100
  (Hcardio : forall x y z,
      0 <= total (calculateCardiovascularPoints x y z) <= 30)
  (Hrecovery : forall x y z,
      0 <= total (calculateRecoveryPoints x y z) <= 35)
  (Hactivity : forall x y z,
      0 <= total (calculateActivityPoints x y z) <= 30)
  (Hbonus : forall c r a,
      In (points (calculateBonusPoints c r a)) [0; 1; 3; 5])
  (metrics : HealthMetrics) :
  0 <= totalScore (calculateFitnessScore metrics) <= 100.
Proof.
  cbn.
  set (c := calculateCardiovascularPoints _ _ _).
  set (r := calculateRecoveryPoints _ _ _).
  set (a := calculateActivityPoints _ _ _).
  pose proof (Hcardio (restingHeartRate metrics)
                (heartRateVariability metrics) (vo2Max metrics)) as Bc.
  pose proof (Hrecovery (deepSleepPercentage metrics)
                (remSleepPercentage metrics) (sleepConsistency metrics)) as Br.
  pose proof (Hactivity (monthlyTrainingTime metrics / 30)
                (trainingIntensity metrics) (dailySteps metrics)) as Ba.
  fold c in Bc. fold r in Br. fold a in Ba.
  destruct (Hbonus (total c) (total r) (total a))
    as [E | [E | [E | [E | []]]]]; rewrite <- E; lra.
Qed.

(** With no rounding, the orchestrator of [Numeric] is
    [calculateFitnessScore]. *)
Lemma calculateFitnessScore_exact (metrics : HealthMetrics) :
  Numeric.calculateFitnessScore (A := Arith.exact) metrics
  = calculateFitnessScore metrics.
Proof. reflexivity. Qed.

(** C5.  In double arithmetic, where [fl] rounds the result of an operation,
    the three percentage fields of [bonusBreakdown] are
    [Math.round((total / max) * 100)] for the totals of the three
    calculators, with the maxima 30, 35 and 30; [Math.round] gives the
    integer nearest to that product, a tie going up; and with no rounding
    the orchestrator is [calculateFitnessScore]. *)
Theorem bonusBreakdown_percentages (fl : R -> R) (metrics : HealthMetrics) :
  let c := calculateCardiovascularPoints (restingHeartRate metrics)
             (heartRateVariability metrics) (vo2Max metrics) in
  let r := calculateRecoveryPoints (deepSleepPercentage metrics)
             (remSleepPercentage metrics) (sleepConsistency metrics) in
  let a := calculateActivityPoints (fl (monthlyTrainingTime metrics / 30))
             (trainingIntensity metrics) (dailySteps metrics) in
  let b := bonusBreakdown
             (Numeric.calculateFitnessScore (A := Arith.rounded fl) metrics) in
  let percentage categoryTotal max := fl (fl (categoryTotal / max) * 100) in
  (cardiovascularPercent b = JS.Math_round (percentage (total c) 30)
   /\ recoveryPercent b = JS.Math_round (percentage (total r) 35)
   /\ activityPercent b = JS.Math_round (percentage (total a) 30))
  /\ (Spec.roundsHalfUp (percentage (total c) 30) (cardiovascularPercent b)
      /\ Spec.roundsHalfUp (percentage (total r) 35) (recoveryPercent b)
      /\ Spec.roundsHalfUp (percentage (total a) 30) (activityPercent b))
  /\ Numeric.calculateFitnessScore (A := Arith.rounded (fun x => x)) metrics
     = calculateFitnessScore metrics.
Proof.
  cbn. split; [repeat split |]. split; [| reflexivity].
  repeat split; try apply Math_round_roundsHalfUp.
  all: eexists; reflexivity.
Qed.

(** C6.  [historyItems] is the cardiovascular items, then the recovery
    items, then the activity items, then the one bonus item: every entry
    once, in order. *)
Theorem historyItems_is_ordered_concatenation (metrics : HealthMetrics) :
  let c := calculateCardiovascularPoints (restingHeartRate metrics)
             (heartRateVariability metrics) (vo2Max metrics) in
  let r := calculateRecoveryPoints (deepSleepPercentage metrics)
             (remSleepPercentage metrics) (sleepConsistency metrics) in
  let a := calculateActivityPoints (monthlyTrainingTime metrics / 30)
             (trainingIntensity metrics) (dailySteps metrics) in
  let bonusHistoryItem := createBonusHistoryItem (total c) (total r) (total a) in
  let history := historyItems (calculateFitnessScore metrics) in
  history = items c ++ items r ++ items a ++ [bonusHistoryItem]
  /\ List.length history
     = (List.length (items c) + List.length (items r)
        + List.length (items a) + 1)%nat
  /\ (forall i, (i < List.length (items c))%nat ->
        nth_error history i = nth_error (items c) i)
  /\ (forall i, (i < List.length (items r))%nat ->
        nth_error history (List.length (items c) + i) = nth_error (items r) i)
  /\ (forall i, (i < List.length (items a))%nat ->
        nth_error history (List.length (items c) + List.length (items r) + i)
        = nth_error (items a) i)
  /\ nth_error history
       (List.length (items c) + List.length (items r) + List.length (items a))
     = Some bonusHistoryItem.
Proof.
  cbn.
  set (c := calculateCardiovascularPoints _ _ _).
  set (r := calculateRecoveryPoints _ _ _).
  set (a := calculateActivityPoints _ _ _).
  split; [reflexivity |].
  split; [rewrite !length_app; cbn; lia |].
  split; [intros i Hi; now rewrite nth_error_app1 |].
  split.
  { intros i Hi. rewrite nth_error_app2 by lia.
    replace (List.length (items c) + i - List.length (items c))%nat with i by lia.
    now rewrite nth_error_app1. }
  split.
  { intros i Hi. rewrite nth_error_app2 by lia. rewrite nth_error_app2 by lia.
    replace (List.length (items c) + List.length (items r) + i
             - List.length (items c) - List.length (items r))%nat with i by lia.
    now rewrite nth_error_app1. }
  rewrite nth_error_app2 by lia. rewrite nth_error_app2 by lia.
  rewrite nth_error_app2 by lia.
  replace (List.length (items c) + List.length (items r) + List.length (items a)
           - List.length (items c) - List.length (items r)
           - List.length (items a))%nat with 0%nat by lia.
  reflexivity.
Qed.

End FitnessScore.

(* ================================================================== *)
(** * The orchestrator with the stand-in modules *)

Section StandInFacts.
Import Health FitnessCalculator StandIn.

Lemma clamp_bounds (hi x : R) : 0 <= hi -> 0 <= clamp 0 hi x <= hi.
Proof.
  intros H. unfold clamp, Rmax, Rmin.
  repeat destruct (Rle_dec _ _); lra.
Qed.

Lemma clamp_id (hi x : R) : 0 <= x <= hi -> clamp 0 hi x = x.
Proof.
  intros H. unfold clamp, Rmax, Rmin.
  repeat destruct (Rle_dec _ _); lra.
Qed.

Lemma category_total_bounds names (m1 m2 m3 x1 x2 x3 : R) :
  0 <= m1 + m2 + m3 ->
  0 <= total (category names m1 m2 m3 x1 x2 x3) <= m1 + m2 + m3.
Proof.
  intros H. destruct names as [[n1 n2] n3]. cbn. now apply clamp_bounds.
Qed.

Lemma standIn_bonus_points (c r a : R) :
  In (points (calculateBonusPoints (ScoringUtils := utils) c r a)) [0; 1; 3; 5].
Proof.
  cbn. destruct (excellentCount c r a) as [| [| [| n]]]; cbn; auto 6.
Qed.

Lemma cardioOnly_totals :
  let result := calculateFitnessScore (calculators := calculators)
                  (utils := utils) cardioOnly in
  cardiovascularPoints result = 30
  /\ recoveryPoints result = 0
  /\ activityPoints result = 0.
Proof.
  cbn. repeat split.
  - rewrite !(clamp_id 10 10) by lra. rewrite clamp_id by lra. lra.
  - rewrite (clamp_id 15 0), (clamp_id 12 0), (clamp_id 8 0) by lra.
    rewrite clamp_id by lra. lra.
  - replace (0 / 30) with 0 by lra.
    rewrite !(clamp_id 12 0), (clamp_id 6 0) by lra.
    rewrite clamp_id by lra. lra.
Qed.

End StandInFacts.

Section FitnessScoreArguments.
Import Health FitnessCalculator.

(** C4.  [calculateFitnessScore] calls the Activity calculator with
    [monthlyTrainingTime / 30], [trainingIntensity] and [dailySteps]; for a
    monthly training time of 300 the first argument is 10. *)
Theorem activity_calculator_receives_daily_average :
  (forall (HistoryItem FitnessLevel : Type)
          (calculators : CategoryCalculators HistoryItem)
          (utils : ScoringUtils FitnessLevel) (metrics : HealthMetrics),
      let result := calculateFitnessScore metrics in
      let a := calculateActivityPoints (monthlyTrainingTime metrics / 30)
                 (trainingIntensity metrics) (dailySteps metrics) in
      activityPoints result = total a
      /\ exists before bonus,
           historyItems result = before ++ items a ++ [bonus])
  /\ (forall (FitnessLevel : Type) (utils : ScoringUtils FitnessLevel)
             (metrics : HealthMetrics),
         historyItems
           (calculateFitnessScore (calculators := StandIn.recorder) metrics)
         = [StandIn.CardiovascularCall (restingHeartRate metrics)
              (heartRateVariability metrics) (vo2Max metrics);
            StandIn.RecoveryCall (deepSleepPercentage metrics)
              (remSleepPercentage metrics) (sleepConsistency metrics);
            StandIn.ActivityCall (monthlyTrainingTime metrics / 30)
              (trainingIntensity metrics) (dailySteps metrics);
            StandIn.BonusItemCall 0 0 (monthlyTrainingTime metrics / 30)])
  /\ (forall (FitnessLevel : Type) (utils : ScoringUtils FitnessLevel)
             (metrics : HealthMetrics),
         In (StandIn.ActivityCall 10 (trainingIntensity metrics)
               (dailySteps metrics))
            (historyItems
               (calculateFitnessScore (calculators := StandIn.recorder)
                  (StandIn.withMonthlyTrainingTime metrics 300)))
         /\ ~ In (StandIn.ActivityCall 300 (trainingIntensity metrics)
                    (dailySteps metrics))
              (historyItems
                 (calculateFitnessScore (calculators := StandIn.recorder)
                    (StandIn.withMonthlyTrainingTime metrics 300)))).
Proof.
  split; [| split].
  - intros HI FL calculators utils metrics. cbn. split; [reflexivity |].
    eexists (_ ++ _), _. rewrite <- app_assoc. reflexivity.
  - reflexivity.
  - intros FL utils metrics. cbn.
    replace (300 / 30) with 10 by lra. split.
    + auto.
    + intros [H | [H | [H | [H | []]]]]; try discriminate H.
      injection H as H. lra.
Qed.

(** [excellentCategories] is all three names or none. *)
Lemma excellentCategories_all_or_nothing
  {HistoryItem FitnessLevel : Type}
  {calculators : CategoryCalculators HistoryItem}
  {utils : ScoringUtils FitnessLevel} (metrics : HealthMetrics) :
  let e := excellentCategories (bonusBreakdown (calculateFitnessScore metrics)) in
  e = ["Cardiovascular"; "Recovery"; "Activity"]%string \/ e = [].
Proof.
  cbn. destruct (JS.includes _ _); auto.
Qed.

(** Between none and all: the all-or-nothing list is not the set of the
    qualifying categories. *)
Lemma all_or_nothing_not_exact
  {HistoryItem FitnessLevel : Type}
  {calculators : CategoryCalculators HistoryItem}
  {utils : ScoringUtils FitnessLevel} (metrics : HealthMetrics) :
  let result := calculateFitnessScore metrics in
  let q := Spec.qualifies (cardiovascularPoints result)
             (recoveryPoints result) (activityPoints result) in
  (exists name, q name) ->
  (exists name, In name ["Cardiovascular"; "Recovery"; "Activity"]%string
                /\ ~ q name) ->
  ~ Spec.excellentCategoriesExact result.
Proof.
  intros result q [n1 H1] [n2 [H2 H3]] Hexact.
  destruct (excellentCategories_all_or_nothing metrics) as [E | E].
  - apply H3, Hexact. fold result in E. rewrite E. exact H2.
  - apply Hexact in H1. fold result in E. rewrite E in H1. exact H1.
Qed.

(** With the stand-in calculators, [cardioOnly] has the cardiovascular
    category at its maximum and the recovery category at zero. *)
Lemma cardioOnly_qualifies :
  let result := calculateFitnessScore (calculators := StandIn.calculators)
                  (utils := StandIn.utils) StandIn.cardioOnly in
  let q := Spec.qualifies (cardiovascularPoints result)
             (recoveryPoints result) (activityPoints result) in
  q "Cardiovascular"%string /\ ~ q "Recovery"%string.
Proof.
  intros result q.
  destruct cardioOnly_totals as (Hc & Hr & Ha).
  fold result in Hc, Hr, Ha.
  unfold q, Spec.qualifies. rewrite Hc, Hr, Ha. split.
  - left. split; [reflexivity | lra].
  - intros [[H _] | [[_ H] | [H _]]]; try discriminate H. lra.
Qed.

(** The names [qualifies] can hold of are the three category names. *)
Lemma qualifies_is_category (c r a : R) (name : string) :
  Spec.qualifies c r a name ->
  In name ["Cardiovascular"; "Recovery"; "Activity"]%string.
Proof.
  intros [[-> _] | [[-> _] | [-> _]]]; cbn; auto.
Qed.

(** C2 (amended).  [excellentCategories] is all three category names when
    the explanation [calculateBonusPoints] returns for the three calculators'
    totals has the phrase "all three", and empty otherwise.  With a bonus
    utility that writes the phrase exactly when all three categories are at
    or above 75% of their maximum: it is all three names when all three
    qualify (so at 100% of each maximum) and empty otherwise, and it is the
    set of the qualifying categories exactly when all three or none
    qualify. *)
Theorem excellentCategories_all_three_or_none
  {HistoryItem FitnessLevel : Type}
  {calculators : CategoryCalculators HistoryItem}
  {utils : ScoringUtils FitnessLevel}
  (Hphrase : forall c r a,
      JS.includes (detailedExplanation (calculateBonusPoints c r a)) "all three"
      = true
      <-> (forall name,
              In name ["Cardiovascular"; "Recovery"; "Activity"]%string ->
              Spec.qualifies c r a name))
  (metrics : HealthMetrics) :
  let c := calculateCardiovascularPoints (restingHeartRate metrics)
             (heartRateVariability metrics) (vo2Max metrics) in
  let r := calculateRecoveryPoints (deepSleepPercentage metrics)
             (remSleepPercentage metrics) (sleepConsistency metrics) in
  let a := calculateActivityPoints (monthlyTrainingTime metrics / 30)
             (trainingIntensity metrics) (dailySteps metrics) in
  let explanation :=
    detailedExplanation (calculateBonusPoints (total c) (total r) (total a)) in
  let excellent :=
    excellentCategories (bonusBreakdown (calculateFitnessScore metrics)) in
  let q := Spec.qualifies (total c) (total r) (total a) in
  let allQualify :=
    forall name,
      In name ["Cardiovascular"; "Recovery"; "Activity"]%string -> q name in
  excellent
  = (if JS.includes explanation "all three"
     then ["Cardiovascular"; "Recovery"; "Activity"]%string else [])
  /\ (allQualify ->
      excellent = ["Cardiovascular"; "Recovery"; "Activity"]%string)
  /\ (total c = 30 /\ total r = 35 /\ total a = 30 ->
      excellent = ["Cardiovascular"; "Recovery"; "Activity"]%string)
  /\ (~ allQualify -> excellent = [])
  /\ ((forall name, In name excellent <-> q name)
      <-> allQualify \/ (forall name, ~ q name)).
Proof.
  intros c r a explanation excellent q allQualify.
  assert (Hall : allQualify ->
                 excellent = ["Cardiovascular"; "Recovery"; "Activity"]%string).
  { intros H. pose proof (proj2 (Hphrase _ _ _) H) as P.
    unfold excellent. cbn. fold c r a. now rewrite P. }
  assert (Hnot : ~ allQualify -> excellent = []).
  { intros H. unfold excellent. cbn. fold c r a.
    destruct (JS.includes _ _) eqn:E; [| reflexivity].
    exfalso. apply H. intros name Hin.
    exact (proj1 (Hphrase _ _ _) E name Hin). }
  split; [reflexivity |]. split; [exact Hall |].
  split.
  { intros (Ec & Er & Ea). apply Hall. intros name Hin.
    unfold q, Spec.qualifies. rewrite Ec, Er, Ea.
    destruct Hin as [<- | [<- | [<- | []]]].
    - left. split; [reflexivity | lra].
    - right. left. split; [reflexivity | lra].
    - right. right. split; [reflexivity | lra]. }
  split; [exact Hnot |].
  split.
  - intros Hexact.
    destruct (excellentCategories_all_or_nothing metrics) as [E | E];
      fold excellent in E.
    + left. intros name Hin. apply Hexact. now rewrite E.
    + right. intros name Hq. apply Hexact in Hq. now rewrite E in Hq.
  - intros [H | H] name.
    + rewrite (Hall H). split; [apply H | apply qualifies_is_category].
    + assert (N : ~ allQualify).
      { intros Q. apply (H "Cardiovascular"%string), Q. cbn. auto. }
      rewrite (Hnot N). split; [intros [] | intros Hq; exact (H name Hq)].
Qed.

(** The stand-in bonus utility writes "all three" exactly when all three
    categories qualify. *)
Lemma standIn_phrase (c r a : R) :
  JS.includes
    (detailedExplanation (calculateBonusPoints (ScoringUtils := StandIn.utils) c r a))
    "all three" = true
  <-> (forall name,
          In name ["Cardiovascular"; "Recovery"; "Activity"]%string ->
          Spec.qualifies c r a name).
Proof.
  cbn [calculateBonusPoints StandIn.utils]. unfold StandIn.excellentCount.
  split.
  - intros H name Hin. unfold Spec.qualifies.
    destruct (Rle_dec 75 (c / 30 * 100)), (Rle_dec 75 (r / 35 * 100)),
      (Rle_dec 75 (a / 30 * 100)); cbn in H; try discriminate H.
    destruct Hin as [<- | [<- | [<- | []]]].
    + left. split; [reflexivity | lra].
    + right. left. split; [reflexivity | lra].
    + right. right. split; [reflexivity | lra].
  - intros H.
    assert (Hc : 75 / 100 * 30 <= c).
    { destruct (H "Cardiovascular"%string) as [[_ L] | [[E _] | [E _]]];
        [cbn; auto | exact L | discriminate E | discriminate E]. }
    assert (Hr : 75 / 100 * 35 <= r).
    { destruct (H "Recovery"%string) as [[E _] | [[_ L] | [E _]]];
        [cbn; auto | discriminate E | exact L | discriminate E]. }
    assert (Ha : 75 / 100 * 30 <= a).
    { destruct (H "Activity"%string) as [[E _] | [[E _] | [_ L]]];
        [cbn; auto | discriminate E | discriminate E | exact L]. }
    destruct (Rle_dec 75 (c / 30 * 100)); [| lra].
    destruct (Rle_dec 75 (r / 35 * 100)); [| lra].
    destruct (Rle_dec 75 (a / 30 * 100)); [| lra].
    reflexivity.
Qed.

Lemma excellentCategories_all_three_or_none_witness :
  let result := calculateFitnessScore (calculators := StandIn.calculators)
                  (utils := StandIn.utils) StandIn.cardioOnly in
  let q := Spec.qualifies (cardiovascularPoints result)
             (recoveryPoints result) (activityPoints result) in
  q "Cardiovascular"%string /\ ~ q "Recovery"%string
  /\ excellentCategories (bonusBreakdown result) = []
  /\ ~ Spec.excellentCategoriesExact result.
Proof.
  intros result q.
  destruct cardioOnly_qualifies as [Q1 Q2]. fold result q in Q1, Q2.
  destruct (excellentCategories_all_three_or_none
              (calculators := StandIn.calculators) (utils := StandIn.utils)
              standIn_phrase StandIn.cardioOnly) as (_ & _ & _ & Hnot & Hexact).
  split; [exact Q1 | split; [exact Q2 |]]. split.
  - apply Hnot. intros Q. apply Q2, Q. cbn. auto.
  - intros E. apply Hexact in E. destruct E as [Q | N].
    + apply Q2, Q. cbn. auto.
    + exact (N _ Q1).
Defined.

(** C2 as stated does not hold: with the cardiovascular category at its
    maximum and the other two at zero, [excellentCategories] is not the set
    of the qualifying categories. *)
Lemma excellentCategories_not_always_exact :
  ~ (forall (HistoryItem FitnessLevel : Type)
            (calculators : CategoryCalculators HistoryItem)
            (utils : ScoringUtils FitnessLevel) (metrics : HealthMetrics),
        Spec.excellentCategoriesExact (calculateFitnessScore metrics)).
Proof.
  intros H.
  destruct cardioOnly_qualifies as [Q1 Q2].
  refine (all_or_nothing_not_exact (calculators := StandIn.calculators)
            (utils := StandIn.utils) StandIn.cardioOnly _ _ (H _ _ _ _ _)).
  - exists "Cardiovascular"%string. exact Q1.
  - exists "Recovery"%string. split; [cbn; auto | exact Q2].
Qed.

Lemma totalScore_within_0_100_witness :
  (forall x y z,
      0 <= total (calculateCardiovascularPoints
                    (CategoryCalculators := StandIn.calculators) x y z) <= 30)
  /\ (forall x y z,
         0 <= total (calculateRecoveryPoints
                       (CategoryCalculators := StandIn.calculators) x y z) <= 35)
  /\ (forall x y z,
         0 <= total (calculateActivityPoints
                       (CategoryCalculators := StandIn.calculators) x y z) <= 30)
  /\ (forall c r a,
         In (points (calculateBonusPoints (ScoringUtils := StandIn.utils) c r a))
            [0; 1; 3; 5])
  /\ 0 <= totalScore (calculateFitnessScore (calculators := StandIn.calculators)
                        (utils := StandIn.utils) StandIn.cardioOnly) <= 100.
Proof.
  assert (B : forall names m1 m2 m3 s x y z,
             0 <= m1 + m2 + m3 -> m1 + m2 + m3 = s ->
             0 <= total (StandIn.category names m1 m2 m3 x y z) <= s).
  { intros names m1 m2 m3 s x y z H <-. now apply category_total_bounds. }
  assert (Hc : forall x y z,
             0 <= total (calculateCardiovascularPoints
                           (CategoryCalculators := StandIn.calculators) x y z)
             <= 30) by (intros x y z; apply B; lra).
  assert (Hr : forall x y z,
             0 <= total (calculateRecoveryPoints
                           (CategoryCalculators := StandIn.calculators) x y z)
             <= 35) by (intros x y z; apply B; lra).
  assert (Ha : forall x y z,
             0 <= total (calculateActivityPoints
                           (CategoryCalculators := StandIn.calculators) x y z)
             <= 30) by (intros x y z; apply B; lra).
  split; [exact Hc |]. split; [exact Hr |]. split; [exact Ha |].
  split; [exact standIn_bonus_points |].
  exact (totalScore_within_0_100 (calculators := StandIn.calculators)
           (utils := StandIn.utils) Hc Hr Ha standIn_bonus_points
           StandIn.cardioOnly).
Defined.

End FitnessScoreArguments.

(* ================================================================== *)
(** * The providers: [healthDataProviders.ts] *)

Section ProviderFacts.
Import ReactNative Async HealthDataProviders.

(** [reduce] with [+] adds the sum of the list to the initial value. *)
Lemma reduce_add {A : Type} (f : A -> R) (l : list A) (init : R) :
  JS.reduce (fun sum x => sum + f x) init l = init + Spec.sum (map f l).
Proof.
  unfold JS.reduce, Spec.sum. revert init.
  induction l as [| x l IH]; intros init; cbn.
  - lra.
  - rewrite IH. lra.
Qed.

Lemma length_number_pos {A : Type} (l : list A) :
  l <> [] -> 0 < JS.length_number l.
Proof.
  intros H. unfold JS.length_number. apply lt_0_INR.
  destruct l; [congruence | cbn; lia].
Qed.

Lemma gt_length_nonempty {A : Type} (l : list A) :
  l <> [] -> JS.gt (JS.length_number l) 0 = true.
Proof. intros H. apply gt_true. now apply length_number_pos. Qed.

Lemma gt_length_empty {A : Type} : JS.gt (JS.length_number (@nil A)) 0 = false.
Proof. apply gt_false. unfold JS.length_number. cbn. lra. Qed.

(** The loop pushes the hours of each sample, in order. *)
Lemma sleepDurations_fold (results : list SleepSample.t) (acc : SleepTotals) :
  sleepDurations (fold_left addSample results acc)
  = sleepDurations acc ++ map hours results.
Proof.
  revert acc. induction results as [| s l IH]; intros acc; cbn.
  - now rewrite app_nil_r.
  - rewrite IH. cbn. now rewrite <- app_assoc.
Qed.

Lemma sleepDurations_sleepTotals (results : list SleepSample.t) :
  sleepDurations (sleepTotals results) = map hours results.
Proof. unfold sleepTotals. now rewrite sleepDurations_fold. Qed.

Lemma averageSleep_mean (l : list R) : l <> [] -> averageSleep l = Spec.mean l.
Proof.
  intros H. unfold averageSleep, Spec.mean.
  rewrite gt_length_nonempty by assumption.
  rewrite (reduce_add (fun x => x)), map_id. unfold JS.length_number.
  now rewrite Rplus_0_l.
Qed.

(** [Math.sqrt(variance)] is the standard deviation of the durations. *)
Lemma sqrt_variance_standardDeviation (l : list R) :
  JS.Math_sqrt (variance l) = Spec.standardDeviation l.
Proof.
  unfold JS.Math_sqrt, variance. destruct l as [| x l].
  - rewrite gt_length_empty. cbn. apply sqrt_0.
  - assert (N : x :: l <> []) by discriminate.
    rewrite gt_length_nonempty by assumption.
    rewrite (reduce_add
               (fun duration => JS.Math_pow (duration - averageSleep (x :: l)) 2)).
    rewrite averageSleep_mean by assumption.
    unfold Spec.standardDeviation, JS.length_number.
    rewrite Rplus_0_l. f_equal. f_equal. f_equal.
    apply map_ext. intros a. unfold JS.Math_pow, Rsqr. cbn. ring.
Qed.

Lemma standardDeviation_nonneg (l : list R) : 0 <= Spec.standardDeviation l.
Proof.
  unfold Spec.standardDeviation. destruct l; [lra | apply sqrt_pos].
Qed.

Lemma consistencyScore_antitone (s1 s2 : R) :
  s1 <= s2 -> Spec.consistencyScore s2 <= Spec.consistencyScore s1.
Proof.
  intros H. unfold Spec.consistencyScore. apply Math_round_le.
  unfold Rmax. repeat destruct (Rle_dec _ _); lra.
Qed.

Lemma consistencyScore_range (s : R) :
  0 <= s -> 0 <= Spec.consistencyScore s <= 100.
Proof.
  intros H. unfold Spec.consistencyScore.
  apply (Math_round_between 0 100).
  unfold Rmax. destruct (Rle_dec _ _); lra.
Qed.

(** The success branch computes the consistency score of the standard
    deviation of the samples' hours. *)
Lemma analyseSleep_sleepConsistency (results : list SleepSample.t) :
  sleepConsistency (analyseSleep results)
  = Spec.consistencyScore (Spec.standardDeviation (map hours results)).
Proof.
  unfold analyseSleep. cbn.
  rewrite sqrt_variance_standardDeviation, sleepDurations_sleepTotals.
  unfold Spec.consistencyScore, JS.Math_max. f_equal. f_equal. ring.
Qed.

Lemma analyseSleep_nil :
  analyseSleep [] = {| deepSleepPercentage := 0;
                       remSleepPercentage := 0;
                       sleepConsistency := 100 |}.
Proof.
  unfold analyseSleep. cbn.
  assert (G : JS.gt 0 0 = false) by (apply gt_false; lra).
  rewrite G, sqrt_variance_standardDeviation. cbn.
  unfold JS.Math_max.
  replace (0 * 10) with 0 by ring. rewrite Math_round_0.
  replace (Rmax 0 (100 - 0 * 20)) with 100
    by (unfold Rmax; destruct (Rle_dec _ _); lra).
  rewrite (Math_round_IZR 100). f_equal; lra.
Qed.

(** The two guards every provider starts with. *)
Ltac provider_cases :=
  repeat match goal with
         | |- context [if neq ?os ios then _ else _] => destruct (neq os ios)
         | |- context [if JS.truthy_string ?e then _ else _] =>
             destruct (JS.truthy_string e)
         end;
  eauto.

(** No provider rejects. *)
Lemma getRestingHeartRateData_resolves OS kit :
  exists v, getRestingHeartRateData OS kit = Resolved v.
Proof.
  unfold getRestingHeartRateData.
  provider_cases.
Qed.

Lemma getHeartRateVariabilityData_resolves OS kit :
  exists v, getHeartRateVariabilityData OS kit = Resolved v.
Proof.
  unfold getHeartRateVariabilityData.
  provider_cases.
Qed.

Lemma getVO2MaxData_resolves OS kit :
  exists v, getVO2MaxData OS kit = Resolved v.
Proof.
  unfold getVO2MaxData.
  provider_cases.
Qed.

Lemma getSleepAnalysisData_resolves OS kit :
  exists v, getSleepAnalysisData OS kit = Resolved v.
Proof.
  unfold getSleepAnalysisData.
  provider_cases.
Qed.

Lemma getTodaysStepCount_resolves OS kit :
  exists v, getTodaysStepCount OS kit = Resolved v.
Proof.
  unfold getTodaysStepCount.
  provider_cases.
Qed.

End ProviderFacts.

Section ProviderClaims.
Import ReactNative Async HealthDataProviders.

(** ** The sleep analysis in rounded arithmetic *)

Section RoundedSleep.
Variable fl : R -> R.
Hypothesis Hfl : Spec.rounding fl.

Lemma rounding_monotone (x y : R) : x <= y -> fl x <= fl y.
Proof. apply Hfl. Qed.

Lemma rounding_integer (z : Z) : (Z.abs z <= 2 ^ 53)%Z -> fl (IZR z) = IZR z.
Proof. apply Hfl. Qed.

Lemma rounding_0 : fl 0 = 0.
Proof. apply (rounding_integer 0). lia. Qed.

Lemma rounding_nonneg (x : R) : 0 <= x -> 0 <= fl x.
Proof. intros H. rewrite <- rounding_0. now apply rounding_monotone. Qed.

(** The constant [1000 * 60 * 60] is not rounded. *)
Lemma rounded_milliseconds_per_hour : fl (fl (1000 * 60) * 60) = 3600000.
Proof.
  replace (1000 * 60) with (IZR 60000) by (simpl; lra).
  rewrite rounding_integer by lia.
  replace (60000 * 60) with (IZR 3600000) by (simpl; lra).
  rewrite rounding_integer by lia. reflexivity.
Qed.

Lemma rounded_hours (sample : SleepSample.t) :
  Numeric.hours (A := Arith.rounded fl) sample = Spec.roundedHours fl sample.
Proof.
  unfold Numeric.hours, Spec.roundedHours. cbn.
  now rewrite rounded_milliseconds_per_hour.
Qed.

(** The loop pushes the hours of each sample, in order. *)
Lemma rounded_sleepDurations_fold (results : list SleepSample.t)
  (acc : Numeric.SleepTotals R) :
  Numeric.sleepDurations
    (fold_left (Numeric.addSample (A := Arith.rounded fl)) results acc)
  = Numeric.sleepDurations acc ++ map (Spec.roundedHours fl) results.
Proof.
  revert acc. induction results as [| s l IH]; intros acc; cbn [fold_left map].
  - now rewrite app_nil_r.
  - rewrite IH. cbn [Numeric.addSample Numeric.sleepDurations].
    rewrite rounded_hours, <- app_assoc. reflexivity.
Qed.

Lemma rounded_sleepDurations (results : list SleepSample.t) :
  Numeric.sleepDurations (Numeric.sleepTotals (A := Arith.rounded fl) results)
  = map (Spec.roundedHours fl) results.
Proof. unfold Numeric.sleepTotals. now rewrite rounded_sleepDurations_fold. Qed.

(** [reduce] with a rounded [+] is the rounded sum of the terms. *)
Lemma rounded_reduce (f : R -> R) (l : list R) (init : R) :
  JS.reduce (fun sum x => fl (sum + f x)) init l
  = fold_left (fun sum x => fl (sum + x)) (map f l) init.
Proof.
  unfold JS.reduce. revert init.
  induction l as [| x l IH]; intros init; cbn; [reflexivity | apply IH].
Qed.

Lemma rounded_length_number {X : Type} (l : list X) :
  Numeric.length_number (A := Arith.rounded fl) l = INR (List.length l).
Proof. unfold Numeric.length_number. cbn. now rewrite <- INR_IZR_INZ. Qed.

Lemma rounded_averageSleep (l : list R) :
  l <> [] ->
  Numeric.averageSleep (A := Arith.rounded fl) l = Spec.roundedMean fl l.
Proof.
  intros N. unfold Numeric.averageSleep. rewrite rounded_length_number.
  cbn [Arith.gt Arith.rounded Arith.number Arith.div Arith.add].
  fold (JS.length_number l). rewrite gt_length_nonempty by assumption.
  rewrite (rounded_reduce (fun x => x)), map_id. reflexivity.
Qed.

(** [Math.sqrt(variance)] is the rounded standard deviation of the
    durations. *)
Lemma rounded_sqrt_variance (l : list R) :
  fl (JS.Math_sqrt (Numeric.variance (A := Arith.rounded fl) l))
  = Spec.roundedStandardDeviation fl l.
Proof.
  unfold Numeric.variance. rewrite rounded_length_number.
  cbn [Arith.gt Arith.rounded Arith.number Arith.div Arith.add Arith.sub
       Arith.Math_sqrt Arith.Math_pow2].
  fold (JS.length_number l). destruct l as [| x l].
  - rewrite gt_length_empty. unfold JS.Math_sqrt.
    rewrite sqrt_0. apply rounding_0.
  - assert (N : x :: l <> []) by discriminate.
    rewrite gt_length_nonempty by assumption.
    rewrite rounded_averageSleep by assumption.
    rewrite (rounded_reduce
               (fun duration =>
                  fl (JS.Math_pow
                        (fl (duration - Spec.roundedMean fl (x :: l))) 2))).
    unfold Spec.roundedStandardDeviation, Spec.roundedSum, JS.Math_sqrt,
      JS.length_number.
    f_equal. f_equal. f_equal. f_equal. f_equal.
    apply map_ext. intros d. f_equal. unfold JS.Math_pow, Rsqr. simpl. ring.
Qed.

Lemma roundedStandardDeviation_nonneg (l : list R) :
  0 <= Spec.roundedStandardDeviation fl l.
Proof.
  unfold Spec.roundedStandardDeviation.
  destruct l; [lra | apply rounding_nonneg, sqrt_pos].
Qed.

(** The success branch computes the rounded consistency score of the
    rounded standard deviation of the samples' rounded hours. *)
Lemma rounded_sleepConsistency (results : list SleepSample.t) :
  Numeric.sleepConsistency
    (Numeric.analyseSleep (A := Arith.rounded fl) results)
  = Spec.roundedConsistencyScore fl
      (Spec.roundedStandardDeviation fl
         (map (Spec.roundedHours fl) results)).
Proof.
  unfold Numeric.analyseSleep. cbn [Numeric.sleepConsistency].
  cbn [Arith.Math_sqrt Arith.rounded].
  rewrite rounded_sqrt_variance, rounded_sleepDurations. reflexivity.
Qed.

Lemma roundedConsistencyScore_antitone (s1 s2 : R) :
  s1 <= s2 ->
  Spec.roundedConsistencyScore fl s2 <= Spec.roundedConsistencyScore fl s1.
Proof.
  intros H. unfold Spec.roundedConsistencyScore. apply Math_round_le.
  assert (M : fl (100 - fl (s2 * 20)) <= fl (100 - fl (s1 * 20))).
  { apply rounding_monotone.
    assert (fl (s1 * 20) <= fl (s2 * 20)) by (apply rounding_monotone; lra).
    lra. }
  unfold Rmax. repeat destruct (Rle_dec _ _); lra.
Qed.

Lemma roundedConsistencyScore_range (s : R) :
  0 <= s -> 0 <= Spec.roundedConsistencyScore fl s <= 100.
Proof.
  intros H. unfold Spec.roundedConsistencyScore.
  apply (Math_round_between 0 100).
  assert (M : fl (100 - fl (s * 20)) <= 100).
  { rewrite <- (rounding_integer 100) at 2 by lia.
    apply rounding_monotone.
    assert (0 <= fl (s * 20)) by (apply rounding_nonneg; lra).
    lra. }
  unfold Rmax. destruct (Rle_dec _ _); lra.
Qed.

End RoundedSleep.

(** With no rounding, the rounded quantities are the exact ones. *)
Lemma roundedHours_exact (sample : SleepSample.t) :
  Spec.roundedHours (fun x => x) sample = Spec.hoursOf sample.
Proof.
  unfold Spec.roundedHours, Spec.hoursOf. now rewrite minus_IZR.
Qed.

Lemma roundedStandardDeviation_exact (l : list R) :
  Spec.roundedStandardDeviation (fun x => x) l = Spec.standardDeviation l.
Proof.
  assert (S : forall l', Spec.roundedSum (fun x => x) l' = Spec.sum l').
  { intros l'. unfold Spec.roundedSum.
    change (fold_left (fun sum x => sum + x) l' 0)
      with (JS.reduce (fun sum x => sum + (fun y => y) x) 0 l').
    rewrite (reduce_add (fun y => y)), map_id. lra. }
  unfold Spec.roundedStandardDeviation, Spec.standardDeviation,
    Spec.roundedMean, Spec.mean.
  destruct l as [| x l]; [reflexivity |].
  now rewrite !S.
Qed.

Lemma roundedConsistencyScore_exact (sigma : R) :
  Spec.roundedConsistencyScore (fun x => x) sigma = Spec.consistencyScore sigma.
Proof.
  unfold Spec.roundedConsistencyScore, Spec.consistencyScore.
  f_equal. f_equal. ring.
Qed.

(** Rounding to the 1024th is a rounding. *)
Lemma toNearest1024th_rounding : Spec.rounding Scenario.toNearest1024th.
Proof.
  unfold Scenario.toNearest1024th. split.
  - intros x y H.
    assert (M : JS.Math_round (x * 1024) <= JS.Math_round (y * 1024))
      by (apply Math_round_le; lra).
    lra.
  - intros z _. replace (IZR z * 1024) with (IZR (z * 1024))
      by (rewrite mult_IZR; reflexivity).
    rewrite Math_round_IZR, mult_IZR. field.
Qed.

(** The exact standard deviation of the hours of [Scenario.shortAndLong] is
    4.975, whose consistency score is [round(0.5) = 1]. *)
Lemma shortAndLong_exact_score :
  Spec.consistencyScore
    (Spec.standardDeviation (map Spec.hoursOf Scenario.shortAndLong))
  = 1.
Proof.
  assert (H1 : map Spec.hoursOf Scenario.shortAndLong = [1 / 15; 601 / 60]).
  { unfold Scenario.shortAndLong, Spec.hoursOf. cbn [map SleepSample.endDate
      SleepSample.startDate].
    replace (1700000240000 - 1700000000000)%Z with 240000%Z by reflexivity.
    replace (1700039660000 - 1700003600000)%Z with 36060000%Z by reflexivity.
    f_equal; [| f_equal]; lra. }
  rewrite H1. unfold Spec.standardDeviation, Spec.mean, Spec.sum.
  cbn [map fold_right List.length INR].
  replace ((Rsqr (1 / 15 - (1 / 15 + (601 / 60 + 0)) / (1 + 1))
            + (Rsqr (601 / 60 - (1 / 15 + (601 / 60 + 0)) / (1 + 1)) + 0))
           / (1 + 1))
    with (Rsqr (199 / 40)) by (unfold Rsqr; field).
  rewrite sqrt_Rsqr by lra.
  unfold Spec.consistencyScore.
  replace (Rmax 0 (100 - 20 * (199 / 40))) with (/ 2)
    by (unfold Rmax; destruct (Rle_dec _ _); lra).
  symmetry. apply roundsHalfUp_unique.
  split; [now exists 1%Z | lra].
Qed.

(** In doubles, the success branch gives 0 on [Scenario.shortAndLong]. *)
Lemma shortAndLong_double_score :
  Numeric.sleepConsistency
    (Numeric.analyseSleep (A := Double.arith) Scenario.shortAndLong)
  = Double.number 0.
Proof. vm_compute. reflexivity. Qed.

(** C7 as stated does not hold: in doubles, for a sample of four minutes and
    one of ten hours and one minute, the standard deviation of the hours is
    4.975 and [round(max(0, 100 - 20 * 4.975))] is 1, but
    [getSleepAnalysisData] resolves with a [sleepConsistency] of 0. *)
Lemma sleepConsistency_is_not_the_exact_formula :
  ~ (forall kit s,
        JS.truthy_string (callbackError (AppleHealthKit.getSleepSamples kit))
        = false ->
        Numeric.getSleepAnalysisData (A := Double.arith) ios kit = Resolved s ->
        Double.toReal (Numeric.sleepConsistency s)
        = Some (Spec.consistencyScore
                  (Spec.standardDeviation
                     (map Spec.hoursOf
                        (results (AppleHealthKit.getSleepSamples kit)))))).
Proof.
  intros H.
  specialize (H (Scenario.withSleepSamples Scenario.emptyStore
                   {| callbackError := None;
                      results := Scenario.shortAndLong |})
                (Numeric.analyseSleep (A := Double.arith) Scenario.shortAndLong)
                eq_refl eq_refl).
  cbn [Scenario.withSleepSamples AppleHealthKit.getSleepSamples results] in H.
  rewrite shortAndLong_double_score, shortAndLong_exact_score in H.
  injection H as H. lra.
Qed.

(** C7 (amended).  In double arithmetic, where [fl] rounds the result of an
    operation, [getSleepAnalysisData] resolves with a [sleepConsistency] in
    [0, 100]; when the samples are delivered (iOS, no callback error) it is
    [Math.round(Math.max(0, 100 - sigma * 20))] for the standard deviation
    [sigma] of the samples' hours as the code computes it, every operation
    rounded; a larger [sigma] never gives a larger score; and with no
    rounding [sigma] is the standard deviation of the hours and the score
    is [round(max(0, 100 - 20 * sigma))]. *)
Theorem sleepConsistency_of_rounded_standard_deviation
  (fl : R -> R) (Hfl : Spec.rounding fl) :
  (forall OS kit,
      exists s,
        Numeric.getSleepAnalysisData (A := Arith.rounded fl) OS kit = Resolved s
        /\ 0 <= Numeric.sleepConsistency s <= 100
        /\ (neq OS ios = false ->
            JS.truthy_string
              (callbackError (AppleHealthKit.getSleepSamples kit)) = false ->
            let sigma :=
              Spec.roundedStandardDeviation fl
                (map (Spec.roundedHours fl)
                   (results (AppleHealthKit.getSleepSamples kit))) in
            Numeric.sleepConsistency s
            = JS.Math_round (JS.Math_max 0 (fl (100 - fl (sigma * 20))))))
  /\ (forall results1 results2,
         Spec.roundedStandardDeviation fl (map (Spec.roundedHours fl) results1)
         <= Spec.roundedStandardDeviation fl
              (map (Spec.roundedHours fl) results2) ->
         Numeric.sleepConsistency
           (Numeric.analyseSleep (A := Arith.rounded fl) results2)
         <= Numeric.sleepConsistency
              (Numeric.analyseSleep (A := Arith.rounded fl) results1))
  /\ (forall results,
         Numeric.sleepConsistency
           (Numeric.analyseSleep (A := Arith.exact) results)
         = JS.Math_round
             (JS.Math_max 0
                (100 - 20 * Spec.standardDeviation
                              (map Spec.hoursOf results)))).
Proof.
  split; [| split].
  - intros OS kit. unfold Numeric.getSleepAnalysisData.
    pose proof (rounding_0 fl Hfl) as F0.
    destruct (neq OS ios) eqn:Eos.
    { eexists. split; [reflexivity |]. cbn. split; [lra | discriminate]. }
    destruct (JS.truthy_string _) eqn:Eerr.
    { eexists. split; [reflexivity |]. cbn. split; [lra | discriminate]. }
    eexists. split; [reflexivity |].
    rewrite (rounded_sleepConsistency fl Hfl). split.
    + apply (roundedConsistencyScore_range fl Hfl),
        (roundedStandardDeviation_nonneg fl Hfl).
    + intros _ _. reflexivity.
  - intros results1 results2 H.
    rewrite !(rounded_sleepConsistency fl Hfl).
    now apply (roundedConsistencyScore_antitone fl Hfl).
  - intros results0.
    assert (E : Spec.rounding (fun x => x)) by (split; auto).
    unfold Arith.exact. rewrite (rounded_sleepConsistency _ E).
    rewrite roundedConsistencyScore_exact, roundedStandardDeviation_exact.
    rewrite (map_ext _ _ roundedHours_exact). reflexivity.
Qed.

Lemma sleepConsistency_of_rounded_standard_deviation_witness :
  Spec.rounding Scenario.toNearest1024th
  /\ exists s,
       Numeric.getSleepAnalysisData
         (A := Arith.rounded Scenario.toNearest1024th) ios
         (Scenario.withSleepSamples Scenario.emptyStore
            {| callbackError := None; results := Scenario.shortAndLong |})
       = Resolved s
       /\ 0 <= Numeric.sleepConsistency s <= 100.
Proof.
  split; [exact toNearest1024th_rounding |].
  destruct (sleepConsistency_of_rounded_standard_deviation
              Scenario.toNearest1024th toNearest1024th_rounding)
    as (H & _ & _).
  destruct (H ios
              (Scenario.withSleepSamples Scenario.emptyStore
                 {| callbackError := None; results := Scenario.shortAndLong |}))
    as (s & E & B & _).
  exists s. split; [exact E | exact B].
Defined.

(** Where the providers resolve with zero: off iOS and on a callback error
    all five do (the sleep provider with an all-zero record), and on an empty
    sample list the three heart providers do. *)
Lemma providers_zero_without_data OS kit :
  (neq OS ios = true ->
   getRestingHeartRateData OS kit = Resolved 0
   /\ getHeartRateVariabilityData OS kit = Resolved 0
   /\ getVO2MaxData OS kit = Resolved 0
   /\ getSleepAnalysisData OS kit
      = Resolved {| deepSleepPercentage := 0; remSleepPercentage := 0;
                    sleepConsistency := 0 |}
   /\ getTodaysStepCount OS kit = Resolved 0)
  /\ (JS.truthy_string
        (callbackError (AppleHealthKit.getRestingHeartRateSamples kit)) = true ->
      getRestingHeartRateData OS kit = Resolved 0)
  /\ (JS.truthy_string
        (callbackError (AppleHealthKit.getHeartRateVariabilitySamples kit)) = true ->
      getHeartRateVariabilityData OS kit = Resolved 0)
  /\ (JS.truthy_string
        (callbackError (AppleHealthKit.getVo2MaxSamples kit)) = true ->
      getVO2MaxData OS kit = Resolved 0)
  /\ (JS.truthy_string
        (callbackError (AppleHealthKit.getSleepSamples kit)) = true ->
      getSleepAnalysisData OS kit
      = Resolved {| deepSleepPercentage := 0; remSleepPercentage := 0;
                    sleepConsistency := 0 |})
  /\ (JS.truthy_string
        (callbackError (AppleHealthKit.getStepCount kit)) = true ->
      getTodaysStepCount OS kit = Resolved 0)
  /\ (results (AppleHealthKit.getRestingHeartRateSamples kit) = [] ->
      getRestingHeartRateData OS kit = Resolved 0)
  /\ (results (AppleHealthKit.getHeartRateVariabilitySamples kit) = [] ->
      getHeartRateVariabilityData OS kit = Resolved 0)
  /\ (results (AppleHealthKit.getVo2MaxSamples kit) = [] ->
      getVO2MaxData OS kit = Resolved 0).
Proof.
  assert (A0 : averageValue [] = 0).
  { unfold averageValue. now rewrite gt_length_empty. }
  unfold getRestingHeartRateData, getHeartRateVariabilityData, getVO2MaxData,
    getSleepAnalysisData, getTodaysStepCount.
  split; [intros ->; repeat split |].
  repeat (split; [intros ->; destruct (neq OS ios); reflexivity |]).
  repeat match goal with |- _ /\ _ => split end.
  all: intros ->; rewrite A0;
    destruct (neq OS ios); [reflexivity |];
    destruct (JS.truthy_string _); [reflexivity |];
    rewrite ?Rmult_0_l, Math_round_0; f_equal; lra.
Qed.

(** On iOS, a successful [getSleepSamples] callback with no samples. *)
Lemma getSleepAnalysisData_no_samples OS kit :
  neq OS ios = false ->
  JS.truthy_string (callbackError (AppleHealthKit.getSleepSamples kit)) = false ->
  results (AppleHealthKit.getSleepSamples kit) = [] ->
  getSleepAnalysisData OS kit
  = Resolved {| deepSleepPercentage := 0; remSleepPercentage := 0;
                sleepConsistency := 100 |}.
Proof.
  intros Hos Herr Hres. unfold getSleepAnalysisData.
  now rewrite Hos, Herr, Hres, analyseSleep_nil.
Qed.

(** C9 as stated does not hold: an empty sample list does not make
    [getSleepAnalysisData] resolve with an all-zero record. *)
Lemma getSleepAnalysisData_no_samples_is_not_all_zero :
  ~ (forall OS kit,
        results (AppleHealthKit.getSleepSamples kit) = [] ->
        getSleepAnalysisData OS kit
        = Resolved {| deepSleepPercentage := 0; remSleepPercentage := 0;
                      sleepConsistency := 0 |}).
Proof.
  intros H. specialize (H ios Scenario.emptyStore eq_refl).
  rewrite (getSleepAnalysisData_no_samples ios Scenario.emptyStore) in H
    by reflexivity.
  injection H as H. lra.
Qed.

(** C9 (amended).  No provider rejects.  Off iOS and on a callback error
    every provider resolves with 0 (the sleep provider with an all-zero
    record); on an empty sample list the three heart providers resolve with
    0, and the sleep provider, when its callback reports no error on iOS,
    resolves with zero percentages and a [sleepConsistency] of 100. *)
Theorem providers_never_reject OS kit :
  ((exists v, getRestingHeartRateData OS kit = Resolved v)
   /\ (exists v, getHeartRateVariabilityData OS kit = Resolved v)
   /\ (exists v, getVO2MaxData OS kit = Resolved v)
   /\ (exists v, getSleepAnalysisData OS kit = Resolved v)
   /\ (exists v, getTodaysStepCount OS kit = Resolved v))
  /\ (neq OS ios = true ->
      getRestingHeartRateData OS kit = Resolved 0
      /\ getHeartRateVariabilityData OS kit = Resolved 0
      /\ getVO2MaxData OS kit = Resolved 0
      /\ getSleepAnalysisData OS kit
         = Resolved {| deepSleepPercentage := 0; remSleepPercentage := 0;
                       sleepConsistency := 0 |}
      /\ getTodaysStepCount OS kit = Resolved 0)
  /\ ((JS.truthy_string
         (callbackError (AppleHealthKit.getRestingHeartRateSamples kit)) = true ->
       getRestingHeartRateData OS kit = Resolved 0)
      /\ (JS.truthy_string
            (callbackError (AppleHealthKit.getHeartRateVariabilitySamples kit))
          = true ->
          getHeartRateVariabilityData OS kit = Resolved 0)
      /\ (JS.truthy_string
            (callbackError (AppleHealthKit.getVo2MaxSamples kit)) = true ->
          getVO2MaxData OS kit = Resolved 0)
      /\ (JS.truthy_string
            (callbackError (AppleHealthKit.getSleepSamples kit)) = true ->
          getSleepAnalysisData OS kit
          = Resolved {| deepSleepPercentage := 0; remSleepPercentage := 0;
                        sleepConsistency := 0 |})
      /\ (JS.truthy_string
            (callbackError (AppleHealthKit.getStepCount kit)) = true ->
          getTodaysStepCount OS kit = Resolved 0))
  /\ ((results (AppleHealthKit.getRestingHeartRateSamples kit) = [] ->
       getRestingHeartRateData OS kit = Resolved 0)
      /\ (results (AppleHealthKit.getHeartRateVariabilitySamples kit) = [] ->
          getHeartRateVariabilityData OS kit = Resolved 0)
      /\ (results (AppleHealthKit.getVo2MaxSamples kit) = [] ->
          getVO2MaxData OS kit = Resolved 0)
      /\ (neq OS ios = false ->
          JS.truthy_string
            (callbackError (AppleHealthKit.getSleepSamples kit)) = false ->
          results (AppleHealthKit.getSleepSamples kit) = [] ->
          getSleepAnalysisData OS kit
          = Resolved {| deepSleepPercentage := 0; remSleepPercentage := 0;
                        sleepConsistency := 100 |})).
Proof.
  destruct (providers_zero_without_data OS kit)
    as (Hos & E1 & E2 & E3 & E4 & E5 & N1 & N2 & N3).
  split.
  { split; [apply getRestingHeartRateData_resolves |].
    split; [apply getHeartRateVariabilityData_resolves |].
    split; [apply getVO2MaxData_resolves |].
    split; [apply getSleepAnalysisData_resolves
           | apply getTodaysStepCount_resolves]. }
  split; [exact Hos |].
  split; [repeat split; assumption |].
  repeat split; try assumption.
  apply getSleepAnalysisData_no_samples.
Qed.

(** ** The sleep analysis with a checked division *)

Section CheckedSleep.
Variable fl : R -> R.
Hypothesis Hfl : Spec.rounding fl.










End CheckedSleep.

(** With no rounding, the analysis of [Numeric] is [analyseSleep]. *)
Lemma exact_sleepTotals_fold (results : list SleepSample.t)
  (acc : SleepTotals) :
  fold_left (Numeric.addSample (A := Arith.exact)) results
    {| Numeric.totalDeepSleep := totalDeepSleep acc;
       Numeric.totalRemSleep := totalRemSleep acc;
       Numeric.totalSleep := totalSleep acc;
       Numeric.sleepDurations := sleepDurations acc |}
  = let t := fold_left addSample results acc in
    {| Numeric.totalDeepSleep := totalDeepSleep t;
       Numeric.totalRemSleep := totalRemSleep t;
       Numeric.totalSleep := totalSleep t;
       Numeric.sleepDurations := sleepDurations t |}.
Proof.
  revert acc. induction results as [| s l IH]; intros acc; [reflexivity |].
  cbn [fold_left]. rewrite <- IH. reflexivity.
Qed.

Lemma exact_sleepTotals (results : list SleepSample.t) :
  Numeric.sleepTotals (A := Arith.exact) results
  = let t := sleepTotals results in
    {| Numeric.totalDeepSleep := totalDeepSleep t;
       Numeric.totalRemSleep := totalRemSleep t;
       Numeric.totalSleep := totalSleep t;
       Numeric.sleepDurations := sleepDurations t |}.
Proof.
  unfold Numeric.sleepTotals, sleepTotals.
  exact (exact_sleepTotals_fold results
           {| totalDeepSleep := 0; totalRemSleep := 0; totalSleep := 0;
              sleepDurations := [] |}).
Qed.

Lemma exact_variance (l : list R) :
  Numeric.variance (A := Arith.exact) l = variance l.
Proof.
  unfold Numeric.variance, variance, Numeric.averageSleep, averageSleep,
    Numeric.length_number, JS.length_number.
  cbn [Arith.gt Arith.exact Arith.rounded Arith.number Arith.div Arith.add
       Arith.sub Arith.Math_pow2].
  rewrite <- INR_IZR_INZ. reflexivity.
Qed.

Lemma exact_analyseSleep (results : list SleepSample.t) :
  Numeric.analyseSleep (A := Arith.exact) results
  = {| Numeric.deepSleepPercentage :=
         deepSleepPercentage (analyseSleep results);
       Numeric.remSleepPercentage :=
         remSleepPercentage (analyseSleep results);
       Numeric.sleepConsistency :=
         sleepConsistency (analyseSleep results) |}.
Proof.
  unfold Numeric.analyseSleep, analyseSleep.
  rewrite exact_sleepTotals.
  cbn [Numeric.totalDeepSleep Numeric.totalRemSleep Numeric.totalSleep
       Numeric.sleepDurations].
  rewrite exact_variance. reflexivity.
Qed.

Lemma exact_getSleepAnalysisData OS kit :
  exists s,
    getSleepAnalysisData OS kit = Resolved s
    /\ Numeric.getSleepAnalysisData (A := Arith.exact) OS kit
       = Resolved {| Numeric.deepSleepPercentage := deepSleepPercentage s;
                     Numeric.remSleepPercentage := remSleepPercentage s;
                     Numeric.sleepConsistency := sleepConsistency s |}.
Proof.
  unfold getSleepAnalysisData, Numeric.getSleepAnalysisData.
  destruct (neq OS ios); [eexists; split; reflexivity |].
  destruct (JS.truthy_string _); [eexists; split; reflexivity |].
  eexists. split; [reflexivity |]. now rewrite exact_analyseSleep.
Qed.



End ProviderClaims.

(* ================================================================== *)
(** * The service: [healthService.ts] *)

Section ServiceClaims.
Import ReactNative Async Health HealthService.

Lemma resolved_never_rejects {A : Type} (a : A) : ~ rejects (Resolved a).
Proof. intros [e H]. discriminate H. Qed.

Lemma rejected_rejects {A : Type} (e : Thrown) : rejects (@Rejected A e).
Proof. now exists e. Qed.

(** [initialize] never rejects. *)
Lemma initialize_resolves OS kit this :
  exists b, fst (initialize OS kit this) = Resolved b.
Proof.
  unfold initialize.
  destruct (neq OS ios); [| destruct (JS.truthy_string _)]; cbn; eauto.
Qed.

(** With a workout provider that resolves, the [try] block resolves with the
    record of the providers' values. *)
Lemma collectHealthMetrics_resolves OS kit (workoutData : WorkoutData) :
  exists restingHeartRate heartRateVariability vo2Max sleepData dailySteps,
    HealthDataProviders.getRestingHeartRateData OS kit
    = Resolved restingHeartRate
    /\ HealthDataProviders.getHeartRateVariabilityData OS kit
       = Resolved heartRateVariability
    /\ HealthDataProviders.getVO2MaxData OS kit = Resolved vo2Max
    /\ HealthDataProviders.getSleepAnalysisData OS kit = Resolved sleepData
    /\ HealthDataProviders.getTodaysStepCount OS kit = Resolved dailySteps
    /\ collectHealthMetrics OS kit (Resolved workoutData)
       = Resolved
           {| Health.restingHeartRate := restingHeartRate;
              Health.heartRateVariability := heartRateVariability;
              Health.vo2Max := vo2Max;
              Health.deepSleepPercentage :=
                HealthDataProviders.deepSleepPercentage sleepData;
              Health.remSleepPercentage :=
                HealthDataProviders.remSleepPercentage sleepData;
              Health.sleepConsistency :=
                HealthDataProviders.sleepConsistency sleepData;
              Health.monthlyTrainingTime := monthlyTrainingTime workoutData;
              Health.trainingIntensity := trainingIntensity workoutData;
              Health.dailySteps := dailySteps |}.
Proof.
  destruct (getRestingHeartRateData_resolves OS kit) as [v1 E1].
  destruct (getHeartRateVariabilityData_resolves OS kit) as [v2 E2].
  destruct (getVO2MaxData_resolves OS kit) as [v3 E3].
  destruct (getSleepAnalysisData_resolves OS kit) as [v4 E4].
  destruct (getTodaysStepCount_resolves OS kit) as [v5 E5].
  exists v1, v2, v3, v4, v5.
  unfold collectHealthMetrics. rewrite E1, E2, E3, E4, E5. cbn.
  repeat split.
Qed.

(** A rejection of the workout provider is rethrown once HealthKit is
    initialised. *)
Lemma getAllHealthMetrics_rethrows_workout_rejection OS kit (e : Thrown) :
  fst (getAllHealthMetrics OS kit (Rejected e)
         {| isHealthKitInitialized := true |})
  = Rejected e.
Proof.
  destruct (getRestingHeartRateData_resolves OS kit) as [v1 E1].
  destruct (getHeartRateVariabilityData_resolves OS kit) as [v2 E2].
  destruct (getVO2MaxData_resolves OS kit) as [v3 E3].
  destruct (getSleepAnalysisData_resolves OS kit) as [v4 E4].
  destruct (getTodaysStepCount_resolves OS kit) as [v5 E5].
  unfold getAllHealthMetrics, collectHealthMetrics. cbn.
  rewrite E1, E2, E3, E4, E5. reflexivity.
Qed.

(** [initialize] resolves with [false] exactly when the platform is not iOS
    or [initHealthKit] reports an error. *)
Lemma initialize_false_iff OS kit this :
  fst (initialize OS kit this) = Resolved false
  <-> neq OS ios = true
      \/ JS.truthy_string (AppleHealthKit.initHealthKit kit) = true.
Proof.
  unfold initialize.
  destruct (neq OS ios); [cbn; tauto |].
  destruct (JS.truthy_string _); cbn; split; auto.
  - discriminate.
  - intros [H | H]; discriminate H.
Qed.

(** The first block of [getAllHealthMetrics], by the platform and the
    answer of [initHealthKit]. *)
Lemma ensureInitialized_by_environment OS kit this :
  (Spec.initializationFails OS kit this ->
   fst (ensureInitialized OS kit this)
   = Rejected (HealthKitInitializationError "Failed to initialize HealthKit"))
  /\ (~ Spec.initializationFails OS kit this ->
      fst (ensureInitialized OS kit this) = Resolved tt).
Proof.
  unfold Spec.initializationFails, ensureInitialized, initialize.
  destruct (isHealthKitInitialized this); cbn.
  { split; [intros [H _]; discriminate H | reflexivity]. }
  destruct (neq OS ios); cbn.
  { split; [reflexivity | intros N; exfalso; apply N; auto]. }
  destruct (JS.truthy_string _); cbn.
  { split; [reflexivity | intros N; exfalso; apply N; auto]. }
  split; [intros [_ [H | H]]; discriminate H | reflexivity].
Qed.

(** [getAllHealthMetrics] is the rejection of a failed initialisation or
    else the outcome of its [try] block. *)
Lemma getAllHealthMetrics_by_environment
  OS kit (getMonthlyWorkoutData : Promise WorkoutData) this :
  let p := fst (getAllHealthMetrics OS kit getMonthlyWorkoutData this) in
  (Spec.initializationFails OS kit this ->
   p = Rejected (HealthKitInitializationError "Failed to initialize HealthKit"))
  /\ (~ Spec.initializationFails OS kit this ->
      p = collectHealthMetrics OS kit getMonthlyWorkoutData).
Proof.
  destruct (ensureInitialized_by_environment OS kit this) as [F S].
  unfold getAllHealthMetrics.
  destruct (ensureInitialized OS kit this) as [ready this'].
  cbn [fst] in *. split.
  - intros H. rewrite (F H). reflexivity.
  - intros H. rewrite (S H). cbn [await].
    now destruct (collectHealthMetrics OS kit getMonthlyWorkoutData).
Qed.

(** The [try] block rethrows a rejection of the workout provider. *)
Lemma collectHealthMetrics_rejects OS kit (e : Thrown) :
  collectHealthMetrics OS kit (Rejected e) = Rejected e.
Proof.
  destruct (getRestingHeartRateData_resolves OS kit) as [v1 E1].
  destruct (getHeartRateVariabilityData_resolves OS kit) as [v2 E2].
  destruct (getVO2MaxData_resolves OS kit) as [v3 E3].
  destruct (getSleepAnalysisData_resolves OS kit) as [v4 E4].
  destruct (getTodaysStepCount_resolves OS kit) as [v5 E5].
  unfold collectHealthMetrics. rewrite E1, E2, E3, E4, E5. reflexivity.
Qed.

(** C8 as stated does not hold: on iOS, with a HealthKit that initialises,
    [getAllHealthMetrics] rejects when [getMonthlyWorkoutData] rejects,
    although initialisation does not fail. *)
Lemma getAllHealthMetrics_rejects_when_workouts_reject :
  ~ (forall OS kit (getMonthlyWorkoutData : Promise WorkoutData) this,
        rejects (fst (getAllHealthMetrics OS kit getMonthlyWorkoutData this))
        <-> Spec.initializationFails OS kit this).
Proof.
  intros H.
  set (e := OtherError "The workout query failed").
  set (this := {| isHealthKitInitialized := false |}).
  assert (N : ~ Spec.initializationFails ios Scenario.emptyStore this).
  { intros [_ [F | F]]; discriminate F. }
  apply N, (H ios Scenario.emptyStore (Rejected e) this).
  destruct (getAllHealthMetrics_by_environment ios Scenario.emptyStore
              (Rejected e) this) as [_ S].
  rewrite (S N), collectHealthMetrics_rejects. apply rejected_rejects.
Qed.

(** C8 (amended).  [getAllHealthMetrics] rejects exactly when HealthKit
    initialisation fails (the service is not initialised and the platform is
    not iOS or [initHealthKit] reports an error), and then with
    [HealthKitInitializationError], or when [getMonthlyWorkoutData] rejects,
    whose error is rethrown; otherwise it resolves with the [HealthMetrics]
    record whose nine fields are the values the providers resolve with.  The
    five providers of [healthDataProviders] never reject. *)
Theorem getAllHealthMetrics_rejects_iff_initialization_or_workouts_fail
  OS kit (getMonthlyWorkoutData : Promise WorkoutData)
  (this : HealthService.t) :
  let p := fst (getAllHealthMetrics OS kit getMonthlyWorkoutData this) in
  let initializationFails :=
    isHealthKitInitialized this = false
    /\ (neq OS ios = true
        \/ JS.truthy_string (AppleHealthKit.initHealthKit kit) = true) in
  (rejects p <-> initializationFails \/ rejects getMonthlyWorkoutData)
  /\ (initializationFails ->
      p = Rejected (HealthKitInitializationError "Failed to initialize HealthKit"))
  /\ (~ initializationFails ->
      forall e, getMonthlyWorkoutData = Rejected e -> p = Rejected e)
  /\ (exists restingHeartRate heartRateVariability vo2Max sleepData dailySteps,
         HealthDataProviders.getRestingHeartRateData OS kit
         = Resolved restingHeartRate
         /\ HealthDataProviders.getHeartRateVariabilityData OS kit
            = Resolved heartRateVariability
         /\ HealthDataProviders.getVO2MaxData OS kit = Resolved vo2Max
         /\ HealthDataProviders.getSleepAnalysisData OS kit = Resolved sleepData
         /\ HealthDataProviders.getTodaysStepCount OS kit = Resolved dailySteps
         /\ (~ initializationFails ->
             forall workoutData,
               getMonthlyWorkoutData = Resolved workoutData ->
               p = Resolved
                     {| Health.restingHeartRate := restingHeartRate;
                        Health.heartRateVariability := heartRateVariability;
                        Health.vo2Max := vo2Max;
                        Health.deepSleepPercentage :=
                          HealthDataProviders.deepSleepPercentage sleepData;
                        Health.remSleepPercentage :=
                          HealthDataProviders.remSleepPercentage sleepData;
                        Health.sleepConsistency :=
                          HealthDataProviders.sleepConsistency sleepData;
                        Health.monthlyTrainingTime :=
                          monthlyTrainingTime workoutData;
                        Health.trainingIntensity :=
                          trainingIntensity workoutData;
                        Health.dailySteps := dailySteps |})).
Proof.
  intros p initializationFails.
  change initializationFails with (Spec.initializationFails OS kit this).
  destruct (getAllHealthMetrics_by_environment OS kit getMonthlyWorkoutData
              this) as [Hfail Hsucc].
  fold p in Hfail, Hsucc.
  assert (Hrethrow : ~ Spec.initializationFails OS kit this ->
                     forall e, getMonthlyWorkoutData = Rejected e ->
                               p = Rejected e).
  { intros N e E. rewrite (Hsucc N), E. apply collectHealthMetrics_rejects. }
  split; [| split; [exact Hfail | split; [exact Hrethrow |]]].
  - split.
    + intros Hrej.
      destruct (isHealthKitInitialized this) eqn:Flag.
      * right. assert (N : ~ Spec.initializationFails OS kit this).
        { intros [F _]. rewrite Flag in F. discriminate F. }
        destruct getMonthlyWorkoutData as [w | e] eqn:W;
          [| apply rejected_rejects].
        exfalso. rewrite (Hsucc N) in Hrej.
        destruct (collectHealthMetrics_resolves OS kit w)
          as (v1 & v2 & v3 & v4 & v5 & _ & _ & _ & _ & _ & E).
        rewrite E in Hrej. now apply resolved_never_rejects in Hrej.
      * destruct (neq OS ios) eqn:Eos; [left; split; auto |].
        destruct (JS.truthy_string (AppleHealthKit.initHealthKit kit)) eqn:Einit;
          [left; split; auto |].
        right. assert (N : ~ Spec.initializationFails OS kit this).
        { intros [_ [F | F]]; [rewrite Eos in F | rewrite Einit in F];
            discriminate F. }
        destruct getMonthlyWorkoutData as [w | e] eqn:W;
          [| apply rejected_rejects].
        exfalso. rewrite (Hsucc N) in Hrej.
        destruct (collectHealthMetrics_resolves OS kit w)
          as (v1 & v2 & v3 & v4 & v5 & _ & _ & _ & _ & _ & E).
        rewrite E in Hrej. now apply resolved_never_rejects in Hrej.
    + intros [F | [e E]].
      * rewrite (Hfail F). apply rejected_rejects.
      * destruct (isHealthKitInitialized this) eqn:Flag.
        { assert (N : ~ Spec.initializationFails OS kit this).
          { intros [F _]. rewrite Flag in F. discriminate F. }
          rewrite (Hrethrow N e E). apply rejected_rejects. }
        destruct (neq OS ios) eqn:Eos.
        { rewrite Hfail by (split; auto). apply rejected_rejects. }
        destruct (JS.truthy_string (AppleHealthKit.initHealthKit kit)) eqn:Einit.
        { rewrite Hfail by (split; auto). apply rejected_rejects. }
        assert (N : ~ Spec.initializationFails OS kit this).
        { intros [_ [F | F]]; [rewrite Eos in F | rewrite Einit in F];
            discriminate F. }
        rewrite (Hrethrow N e E). apply rejected_rejects.
  - destruct (getRestingHeartRateData_resolves OS kit) as [v1 E1].
    destruct (getHeartRateVariabilityData_resolves OS kit) as [v2 E2].
    destruct (getVO2MaxData_resolves OS kit) as [v3 E3].
    destruct (getSleepAnalysisData_resolves OS kit) as [v4 E4].
    destruct (getTodaysStepCount_resolves OS kit) as [v5 E5].
    exists v1, v2, v3, v4, v5. repeat (split; [assumption |]).
    intros N w W. rewrite (Hsucc N), W.
    unfold collectHealthMetrics. rewrite E1, E2, E3, E4, E5. reflexivity.
Qed.

End ServiceClaims.

(* ================================================================== *)
(** * Runs on concrete inputs *)

Section Examples.
Import ReactNative Async Health HealthDataProviders.

Lemma Math_round_eq (x : R) (z : Z) :
  IZR z - / 2 <= x < IZR z + / 2 -> JS.Math_round x = IZR z.
Proof.
  intros H. symmetry. apply roundsHalfUp_unique.
  split; [now exists z | exact H].
Qed.

(** A tie goes up, also below zero. *)
Example Math_round_ties :
  JS.Math_round (5 / 2) = 3 /\ JS.Math_round (- (5 / 2)) = -2
  /\ JS.Math_round (4375 / 10) = 438.
Proof.
  repeat split.
  - apply (Math_round_eq _ 3). lra.
  - apply (Math_round_eq _ (-2)). lra.
  - apply (Math_round_eq _ 438). lra.
Qed.

Example includes_all_three :
  JS.includes "Excellent in all three categories" "all three" = true
  /\ JS.includes "Two categories reached 75% of their maximum" "all three" = false
  /\ JS.includes "" "" = true.
Proof. repeat split. Qed.

Example sleepTotals_twoSamples :
  sleepTotals Scenario.twoSamples
  = {| totalDeepSleep := 7; totalRemSleep := 9; totalSleep := 16;
       sleepDurations := [7; 9] |}.
Proof.
  unfold sleepTotals, Scenario.twoSamples. cbn [fold_left].
  unfold addSample.
  cbn [SleepSample.value String.eqb Ascii.eqb Bool.eqb totalSleep
       totalDeepSleep totalRemSleep sleepDurations app].
  unfold hours. cbn [SleepSample.endDate SleepSample.startDate].
  f_equal; try lra.
  f_equal; [lra |]. f_equal. lra.
Qed.

Example standardDeviation_7_9 : Spec.standardDeviation [7; 9] = 1.
Proof.
  unfold Spec.standardDeviation, Spec.mean, Spec.sum, Rsqr. cbn.
  match goal with |- sqrt ?x = 1 => replace x with 1; [apply sqrt_1 |] end.
  field.
Qed.

(** Seven hours of deep sleep and nine of REM: 43.75% and 56.25%, rounded
    half up to one decimal, and a standard deviation of one hour. *)
Example analyseSleep_twoSamples :
  analyseSleep Scenario.twoSamples
  = {| deepSleepPercentage := 438 / 10;
       remSleepPercentage := 563 / 10;
       sleepConsistency := 80 |}.
Proof.
  unfold analyseSleep.
  rewrite sqrt_variance_standardDeviation, sleepTotals_twoSamples.
  cbn [totalSleep totalDeepSleep totalRemSleep sleepDurations].
  rewrite standardDeviation_7_9.
  assert (G : JS.gt 16 0 = true) by (apply gt_true; lra). rewrite G.
  rewrite (Math_round_eq (7 / 16 * 100 * 10) 438) by lra.
  rewrite (Math_round_eq (9 / 16 * 100 * 10) 563) by lra.
  unfold JS.Math_max.
  replace (Rmax 0 (100 - 1 * 20)) with 80
    by (unfold Rmax; destruct (Rle_dec _ _); lra).
  now rewrite (Math_round_IZR 80).
Qed.

(** Off iOS the service throws and the flag stays unset. *)
Example getAllHealthMetrics_android kit getMonthlyWorkoutData :
  HealthService.getAllHealthMetrics android kit getMonthlyWorkoutData
    {| HealthService.isHealthKitInitialized := false |}
  = (Rejected (HealthKitInitializationError "Failed to initialize HealthKit"),
     {| HealthService.isHealthKitInitialized := false |}).
Proof. reflexivity. Qed.

(** On iOS with an empty store the service initialises and returns the
    record of the providers: zeros, but a sleep consistency of 100. *)
Example getAllHealthMetrics_emptyStore (w : HealthService.WorkoutData) :
  HealthService.getAllHealthMetrics ios Scenario.emptyStore (Resolved w)
    {| HealthService.isHealthKitInitialized := false |}
  = (Resolved
       {| restingHeartRate := 0; heartRateVariability := 0; vo2Max := 0;
          Health.deepSleepPercentage := 0; Health.remSleepPercentage := 0;
          Health.sleepConsistency := 100;
          monthlyTrainingTime := HealthService.monthlyTrainingTime w;
          trainingIntensity := HealthService.trainingIntensity w;
          dailySteps := 0 |},
     {| HealthService.isHealthKitInitialized := true |}).
Proof.
  destruct (providers_zero_without_data ios Scenario.emptyStore)
    as (_ & _ & _ & _ & _ & _ & H1 & H2 & H3).
  unfold HealthService.getAllHealthMetrics, HealthService.ensureInitialized,
    HealthService.collectHealthMetrics.
  cbn [negb HealthService.isHealthKitInitialized HealthService.initialize neq
       AppleHealthKit.initHealthKit Scenario.emptyStore JS.truthy_string fst snd
       await try_catch].
  rewrite (H1 eq_refl), (H2 eq_refl), (H3 eq_refl).
  assert (E : getSleepAnalysisData ios Scenario.emptyStore
              = Resolved (analyseSleep [])) by reflexivity.
  rewrite E, analyseSleep_nil.
  assert (S : getTodaysStepCount ios Scenario.emptyStore = Resolved 0).
  { unfold getTodaysStepCount. cbn. f_equal.
    unfold JS.or_number, JS.truthy_number.
    destruct (Req_dec_T 0 0); [reflexivity | lra]. }
  rewrite S. reflexivity.
Qed.

(** With the stand-in modules: all three categories at their maximum give
    the bonus of 5, a total of 100 and all three names. *)
Example calculateFitnessScore_allMax :
  let result :=
    FitnessCalculator.calculateFitnessScore
      (calculators := StandIn.calculators) (utils := StandIn.utils)
      StandIn.allMax in
  cardiovascularPoints result = 30 /\ recoveryPoints result = 35
  /\ activityPoints result = 30 /\ bonusPoints result = 5
  /\ totalScore result = 100
  /\ excellentCategories (bonusBreakdown result)
     = ["Cardiovascular"; "Recovery"; "Activity"]%string.
Proof.
  intros result.
  assert (Hc : cardiovascularPoints result = 30).
  { cbn. rewrite !(clamp_id 10 10) by lra.
    rewrite clamp_id by lra. lra. }
  assert (Hr : recoveryPoints result = 35).
  { cbn. rewrite (clamp_id 15 15), (clamp_id 12 12),
      (clamp_id 8 8) by lra.
    rewrite clamp_id by lra. lra. }
  assert (Ha : activityPoints result = 30).
  { cbn. replace (360 / 30) with 12 by lra.
    rewrite !(clamp_id 12 12), (clamp_id 6 6) by lra.
    rewrite clamp_id by lra. lra. }
  assert (Hcount : StandIn.excellentCount 30 35 30 = 3%nat).
  { unfold StandIn.excellentCount.
    destruct (Rle_dec 75 (30 / 30 * 100)); [| lra].
    destruct (Rle_dec 75 (35 / 35 * 100)); [| lra]. reflexivity. }
  assert (Hb : FitnessCalculator.calculateBonusPoints
                 (ScoringUtils := StandIn.utils)
                 (cardiovascularPoints result) (recoveryPoints result)
                 (activityPoints result)
               = {| points := 5;
                    detailedExplanation := "Excellent in all three categories" |}).
  { rewrite Hc, Hr, Ha. cbn. now rewrite Hcount. }
  split; [exact Hc |]. split; [exact Hr |]. split; [exact Ha |].
  change (bonusPoints result)
    with (points (FitnessCalculator.calculateBonusPoints
                    (ScoringUtils := StandIn.utils)
                    (cardiovascularPoints result) (recoveryPoints result)
                    (activityPoints result))).
  change (excellentCategories (bonusBreakdown result))
    with (if JS.includes
               (detailedExplanation
                  (FitnessCalculator.calculateBonusPoints
                     (ScoringUtils := StandIn.utils)
                     (cardiovascularPoints result) (recoveryPoints result)
                     (activityPoints result))) "all three"
          then ["Cardiovascular"; "Recovery"; "Activity"]%string else []).
  change (totalScore result)
    with (cardiovascularPoints result + recoveryPoints result
          + activityPoints result
          + points (FitnessCalculator.calculateBonusPoints
                      (ScoringUtils := StandIn.utils)
                      (cardiovascularPoints result) (recoveryPoints result)
                      (activityPoints result))).
  rewrite Hb, Hc, Hr, Ha. cbn. repeat split. lra.
Qed.

(** In doubles [(17.25 / 30) * 100] is just below 57.5, which [Math.round]
    takes to 57; the exact product is 57.5, which rounds to 58. *)
Example percentage_in_doubles :
  Double.Math_round
    (PrimFloat.mul
       (PrimFloat.div (PrimFloat.div (Double.number 69) (Double.number 4))
          (Double.number 30))
       (Double.number 100))
  = Double.number 57
  /\ JS.Math_round (69 / 4 / 30 * 100) = 58.
Proof.
  split; [vm_compute; reflexivity |].
  apply (Math_round_eq _ 58). lra.
Qed.

(** [Math.round] and [Math.max] on doubles: a tie goes up, also below zero;
    a negative number that rounds to zero gives [-0]; [NaN] stays [NaN]. *)
Example Math_round_on_doubles :
  let half (x : Z) := PrimFloat.div (Double.number x) (Double.number 2) in
  Double.Math_round (half 5%Z) = Double.number 3
  /\ Double.Math_round (half (-5)%Z) = Double.number (-2)
  /\ Double.Math_round (half 1%Z) = Double.number 1
  /\ Double.Math_round (half (-1)%Z) = PrimFloat.opp (Double.number 0)
  /\ Double.Math_round (Double.number 7) = Double.number 7
  /\ PrimFloat.is_nan (Double.Math_round PrimFloat.nan) = true
  /\ PrimFloat.is_nan (Double.Math_max (Double.number 0) PrimFloat.nan) = true
  /\ Double.Math_max (Double.number 0) (Double.number (-3)) = Double.number 0.
Proof. vm_compute. repeat split. Qed.

(** The sleep analysis in doubles: 45 minutes of deep sleep out of 400 are
    11.2 percent, and nights of 6 h 04 and 8 h 01 score 80. *)
Example analyseSleep_in_doubles :
  Numeric.deepSleepPercentage
    (Numeric.analyseSleep (A := Double.arith) Scenario.deepOf400)
  = PrimFloat.div (Double.number 112) (Double.number 10)
  /\ Numeric.sleepConsistency
       (Numeric.analyseSleep (A := Double.arith) Scenario.twoNights)
     = Double.number 80.
Proof. vm_compute. split; reflexivity. Qed.

End Examples.

(* ================================================================== *)
(** * Further properties of [calculateFitnessScore] *)

Section FitnessScoreMore.
Import Health FitnessCalculator.

Lemma Math_round_whole_between (lo hi : Z) (x : R) :
  IZR lo <= x <= IZR hi ->
  exists z : Z, JS.Math_round x = IZR z /\ (lo <= z <= hi)%Z.
Proof.
  intros H. exists (Zfloor (x + / 2)). split; [reflexivity |].
  pose proof (Math_round_between lo hi x H) as [L U].
  unfold JS.Math_round in L, U. split; now apply le_IZR.
Qed.

(** X1.  When the category calculators keep their totals within [0, 30],
    [0, 35] and [0, 30], each percentage of [bonusBreakdown] is a whole
    number between 0 and 100. *)
Theorem percentages_are_whole_numbers_within_0_100
  {HistoryItem FitnessLevel : Type}
  {calculators : CategoryCalculators HistoryItem}
  {utils : ScoringUtils FitnessLevel}
  (Hcardio : forall x y z,
      0 <= total (calculateCardiovascularPoints x y z) <= 30)
  (Hrecovery : forall x y z,
      0 <= total (calculateRecoveryPoints x y z) <= 35)
  (Hactivity : forall x y z,
      0 <= total (calculateActivityPoints x y z) <= 30)
  (metrics : HealthMetrics) :
  let b := bonusBreakdown (calculateFitnessScore metrics) in
  (exists z : Z, cardiovascularPercent b = IZR z /\ (0 <= z <= 100)%Z)
  /\ (exists z : Z, recoveryPercent b = IZR z /\ (0 <= z <= 100)%Z)
  /\ (exists z : Z, activityPercent b = IZR z /\ (0 <= z <= 100)%Z).
Proof.
  cbn.
  pose proof (Hcardio (restingHeartRate metrics)
                (heartRateVariability metrics) (vo2Max metrics)) as Bc.
  pose proof (Hrecovery (deepSleepPercentage metrics)
                (remSleepPercentage metrics) (sleepConsistency metrics)) as Br.
  pose proof (Hactivity (monthlyTrainingTime metrics / 30)
                (trainingIntensity metrics) (dailySteps metrics)) as Ba.
  repeat split; apply (Math_round_whole_between 0 100); lra.
Qed.

Lemma standIn_category_bounds :
  (forall x y z,
      0 <= total (calculateCardiovascularPoints
                    (CategoryCalculators := StandIn.calculators) x y z) <= 30)
  /\ (forall x y z,
         0 <= total (calculateRecoveryPoints
                       (CategoryCalculators := StandIn.calculators) x y z) <= 35)
  /\ (forall x y z,
         0 <= total (calculateActivityPoints
                       (CategoryCalculators := StandIn.calculators) x y z) <= 30).
Proof.
  assert (B : forall names m1 m2 m3 s x y z,
             0 <= m1 + m2 + m3 -> m1 + m2 + m3 = s ->
             0 <= total (StandIn.category names m1 m2 m3 x y z) <= s).
  { intros names m1 m2 m3 s x y z H <-. now apply category_total_bounds. }
  split; [| split]; intros x y z; apply B; lra.
Qed.

Lemma percentages_are_whole_numbers_within_0_100_witness :
  let b := bonusBreakdown
             (calculateFitnessScore (calculators := StandIn.calculators)
                (utils := StandIn.utils) StandIn.cardioOnly) in
  (exists z : Z, cardiovascularPercent b = IZR z /\ (0 <= z <= 100)%Z)
  /\ (exists z : Z, recoveryPercent b = IZR z /\ (0 <= z <= 100)%Z)
  /\ (exists z : Z, activityPercent b = IZR z /\ (0 <= z <= 100)%Z).
Proof.
  destruct standIn_category_bounds as (Hc & Hr & Ha).
  exact (percentages_are_whole_numbers_within_0_100
           (calculators := StandIn.calculators) (utils := StandIn.utils)
           Hc Hr Ha StandIn.cardioOnly).
Defined.



End FitnessScoreMore.

(* ================================================================== *)
(** * Further properties of the providers *)

Section ProvidersMore.
Import ReactNative Async HealthDataProviders.

Lemma Math_round_upper (x : R) : JS.Math_round x <= x + / 2.
Proof. destruct (Math_round_roundsHalfUp x) as [_ B]. lra. Qed.

(** X3.  Every provider resolves with a rounded number: the heart rate, the
    variability and the sleep consistency are whole numbers, and the VO2 max
    and the two sleep percentages are whole numbers of tenths. *)
Theorem providers_resolve_with_rounded_numbers OS kit :
  (exists z : Z, getRestingHeartRateData OS kit = Resolved (IZR z))
  /\ (exists z : Z, getHeartRateVariabilityData OS kit = Resolved (IZR z))
  /\ (exists z : Z, getVO2MaxData OS kit = Resolved (IZR z / 10))
  /\ (exists deep rem consistency : Z,
         getSleepAnalysisData OS kit
         = Resolved {| deepSleepPercentage := IZR deep / 10;
                       remSleepPercentage := IZR rem / 10;
                       sleepConsistency := IZR consistency |}).
Proof.
  assert (Z0 : 0 = IZR 0 / 10) by lra.
  unfold getRestingHeartRateData, getHeartRateVariabilityData, getVO2MaxData,
    getSleepAnalysisData, analyseSleep, JS.Math_round.
  repeat split.
  - destruct (neq OS ios); [now exists 0%Z |].
    destruct (JS.truthy_string _); [now exists 0%Z | eauto].
  - destruct (neq OS ios); [now exists 0%Z |].
    destruct (JS.truthy_string _); [now exists 0%Z | eauto].
  - destruct (neq OS ios); [exists 0%Z; now rewrite <- Z0 |].
    destruct (JS.truthy_string _); [exists 0%Z; now rewrite <- Z0 | eauto].
  - destruct (neq OS ios); [exists 0%Z, 0%Z, 0%Z; now rewrite <- Z0 |].
    destruct (JS.truthy_string _);
      [exists 0%Z, 0%Z, 0%Z; now rewrite <- Z0 | eauto].
Qed.

End ProvidersMore.

Section SleepMore.
Import ReactNative Async HealthDataProviders.

Import SleepStages.

Lemma fold_addSample (results : list SleepSample.t) (acc : SleepTotals) :
  fold_left addSample results acc
  = {| totalDeepSleep :=
         totalDeepSleep acc + Spec.sum (map hours (inStage "DEEP" results));
       totalRemSleep :=
         totalRemSleep acc + Spec.sum (map hours (inStage "REM" results));
       totalSleep := totalSleep acc + Spec.sum (map hours results);
       sleepDurations := sleepDurations acc ++ map hours results |}.
Proof.
  unfold inStage.
  revert acc. induction results as [| s l IH]; intros acc.
  - destruct acc. cbn. rewrite app_nil_r. f_equal; lra.
  - cbn [fold_left]. rewrite IH. unfold addSample at 1 2 3 4.
    cbn [totalDeepSleep totalRemSleep totalSleep sleepDurations filter map].
    rewrite <- app_assoc. cbn [app].
    destruct (String.eqb (SleepSample.value s) "DEEP") eqn:D.
    + apply String.eqb_eq in D. rewrite D. cbn [String.eqb Ascii.eqb Bool.eqb].
      cbn [map]. unfold Spec.sum. cbn [fold_right]. f_equal; lra.
    + destruct (String.eqb (SleepSample.value s) "REM");
        cbn [map]; unfold Spec.sum; cbn [fold_right]; f_equal; lra.
Qed.

(** X5.  The loop over the samples adds up the hours of all samples as the
    total sleep, whatever their stage, the hours of the samples valued
    "DEEP" and "REM" as deep and REM sleep, and keeps every sample's hours
    in order. *)
Theorem sleepTotals_are_sums_by_stage (results : list SleepSample.t) :
  sleepTotals results
  = {| totalDeepSleep := Spec.sum (map hours (inStage "DEEP" results));
       totalRemSleep := Spec.sum (map hours (inStage "REM" results));
       totalSleep := Spec.sum (map hours results);
       sleepDurations := map hours results |}.
Proof.
  unfold sleepTotals. rewrite fold_addSample. cbn. f_equal; lra.
Qed.

Lemma hours_nonneg (s : SleepSample.t) :
  (SleepSample.startDate s <= SleepSample.endDate s)%Z -> 0 <= hours s.
Proof.
  intros H. unfold hours. apply IZR_le in H.
  apply Rmult_le_pos; [lra |].
  apply Rlt_le, Rinv_0_lt_compat. lra.
Qed.

(** With samples that do not end before they start, the totals satisfy
    [0 <= deep], [0 <= rem] and [deep + rem <= total]. *)
Lemma sleepTotals_ordered (results : list SleepSample.t) :
  Forall (fun s => (SleepSample.startDate s <= SleepSample.endDate s)%Z)
    results ->
  let t := sleepTotals results in
  0 <= totalDeepSleep t /\ 0 <= totalRemSleep t
  /\ totalDeepSleep t + totalRemSleep t <= totalSleep t.
Proof.
  intros H. unfold sleepTotals. rewrite fold_addSample.
  cbn [totalDeepSleep totalRemSleep totalSleep]. rewrite !Rplus_0_l.
  unfold Spec.sum, inStage.
  induction H as [| s l Hs _ IH]; cbn [filter map fold_right].
  - lra.
  - pose proof (hours_nonneg s Hs) as P.
    destruct (String.eqb (SleepSample.value s) "DEEP") eqn:D.
    + apply String.eqb_eq in D. rewrite D. cbn [String.eqb Ascii.eqb Bool.eqb].
      cbn [map fold_right]. lra.
    + destruct (String.eqb (SleepSample.value s) "REM");
        cbn [map fold_right]; lra.
Qed.

(** A percentage of a part of a positive total, rounded to one decimal. *)
Lemma rounded_percentage_bounds (part other whole : R) :
  0 <= part -> 0 <= other -> part + other <= whole -> 0 < whole ->
  let p := JS.Math_round (part / whole * 100 * 10) / 10 in
  let q := JS.Math_round (other / whole * 100 * 10) / 10 in
  0 <= p <= 100 /\ 0 <= q <= 100 /\ p + q <= 100 + 1 / 10.
Proof.
  intros Hp Ho Hsum Hw p q.
  assert (I : 0 < / whole) by now apply Rinv_0_lt_compat.
  assert (P0 : 0 <= part * / whole) by (apply Rmult_le_pos; lra).
  assert (O0 : 0 <= other * / whole) by (apply Rmult_le_pos; lra).
  assert (S1 : part * / whole + other * / whole <= 1).
  { rewrite <- Rmult_plus_distr_r.
    apply Rmult_le_reg_r with whole; [exact Hw |].
    rewrite Rmult_assoc, Rinv_l by lra. lra. }
  unfold Rdiv in p, q.
  pose proof (Math_round_between 0 1000 (part * / whole * 100 * 10)) as Bp.
  pose proof (Math_round_between 0 1000 (other * / whole * 100 * 10)) as Bq.
  pose proof (Math_round_upper (part * / whole * 100 * 10)) as Up.
  pose proof (Math_round_upper (other * / whole * 100 * 10)) as Uq.
  unfold p, q, Rdiv. lra.
Qed.



Lemma sum_constant (d : R) (l : list R) :
  Forall (fun x => x = d) l -> Spec.sum l = INR (List.length l) * d.
Proof.
  unfold Spec.sum. induction 1 as [| x l -> _ IH].
  - cbn. lra.
  - cbn [fold_right List.length]. rewrite S_INR, IH. lra.
Qed.

(** Equal numbers have a standard deviation of 0. *)
Lemma standardDeviation_constant (d : R) (l : list R) :
  Forall (fun x => x = d) l -> Spec.standardDeviation l = 0.
Proof.
  intros H. unfold Spec.standardDeviation.
  destruct l as [| x l]; [reflexivity |].
  set (xs := x :: l) in *.
  assert (P : 0 < INR (List.length xs)) by (apply lt_0_INR; cbn; lia).
  assert (M : Spec.mean xs = d).
  { unfold Spec.mean. rewrite (sum_constant d) by assumption. field. lra. }
  rewrite M.
  assert (Z : Spec.sum (map (fun y => Rsqr (y - d)) xs) = 0).
  { rewrite (sum_constant 0).
    - lra.
    - apply Forall_forall. intros y Hy. apply in_map_iff in Hy.
      destruct Hy as (z & <- & Hz). rewrite Forall_forall in H.
      rewrite (H z Hz). unfold Rsqr. lra. }
  rewrite Z. unfold Rdiv. rewrite Rmult_0_l. apply sqrt_0.
Qed.

Lemma consistencyScore_0 : Spec.consistencyScore 0 = 100.
Proof.
  unfold Spec.consistencyScore.
  replace (Rmax 0 (100 - 20 * 0)) with 100
    by (unfold Rmax; destruct (Rle_dec _ _); lra).
  exact (Math_round_IZR 100).
Qed.

(** X7.  On iOS, when the query succeeds and all samples have the same
    length (also a single sample, or none), [getSleepAnalysisData] resolves
    with a [sleepConsistency] of 100. *)
Theorem equal_durations_give_full_consistency OS kit (d : R) :
  neq OS ios = false ->
  JS.truthy_string (callbackError (AppleHealthKit.getSleepSamples kit)) = false ->
  Forall (fun s => hours s = d) (results (AppleHealthKit.getSleepSamples kit)) ->
  exists s,
    getSleepAnalysisData OS kit = Resolved s /\ sleepConsistency s = 100.
Proof.
  intros Hos Herr H. unfold getSleepAnalysisData. rewrite Hos, Herr.
  eexists. split; [reflexivity |].
  rewrite analyseSleep_sleepConsistency.
  rewrite (standardDeviation_constant d).
  - apply consistencyScore_0.
  - apply Forall_forall. intros x Hx. apply in_map_iff in Hx.
    destruct Hx as (s & <- & Hs). rewrite Forall_forall in H. now apply H.
Qed.

Lemma equal_durations_give_full_consistency_witness :
  exists s,
    getSleepAnalysisData ReactNative.ios Readings.store = Resolved s
    /\ sleepConsistency s = 100.
Proof.
  apply (equal_durations_give_full_consistency ReactNative.ios
           Readings.store 8);
    [reflexivity | reflexivity |].
  repeat constructor; unfold hours; cbn; lra.
Defined.

End SleepMore.

(* ================================================================== *)
(** * Further properties of the service *)

Section ServiceMore.
Import ReactNative Async Health HealthService HealthServiceMethods.

Lemma try_catch_rethrow {A : Type} (p : Promise A) :
  try_catch p (fun error => Rejected error) = p.
Proof. now destruct p. Qed.

(** The flag and the promise of the first block of the throwing methods. *)
Lemma ensureInitialized_cases OS kit (this : HealthService.t) :
  (isHealthKitInitialized this = true
   /\ ensureInitialized OS kit this = (Resolved tt, this))
  \/ (isHealthKitInitialized this = false
      /\ fst (initialize OS kit this) = Resolved true
      /\ ensureInitialized OS kit this
         = (Resolved tt, {| isHealthKitInitialized := true |}))
  \/ (isHealthKitInitialized this = false
      /\ fst (initialize OS kit this) = Resolved false
      /\ isHealthKitInitialized (snd (ensureInitialized OS kit this)) = false
      /\ fst (ensureInitialized OS kit this)
         = Rejected (HealthKitInitializationError
                       "Failed to initialize HealthKit")).
Proof.
  destruct this as [[|]]; unfold ensureInitialized, initialize; cbn.
  - left. auto.
  - right. destruct (neq OS ios); [right; auto |].
    destruct (JS.truthy_string _); [right; auto | left; auto].
Qed.

(** X9.  [getTodaysHealthMetrics] never rejects: it resolves with the
    all-zero record when initialisation fails and when the workout provider
    rejects, and with the providers' values otherwise. *)
Theorem getTodaysHealthMetrics_never_rejects
  OS kit (getTodaysWorkoutData : Promise TodaysTraining)
  (this : HealthService.t) :
  let p := fst (getTodaysHealthMetrics OS kit getTodaysWorkoutData this) in
  let initializationFails :=
    isHealthKitInitialized this = false
    /\ fst (initialize OS kit this) = Resolved false in
  exists m,
    p = Resolved m
    /\ (initializationFails -> m = zeroTodaysHealthMetrics)
    /\ (forall e, getTodaysWorkoutData = Rejected e ->
                  m = zeroTodaysHealthMetrics)
    /\ (~ initializationFails ->
        forall w, getTodaysWorkoutData = Resolved w ->
        exists steps rhr hrv,
          HealthDataProviders.getTodaysStepCount OS kit = Resolved steps
          /\ HealthDataProviders.getRestingHeartRateData OS kit = Resolved rhr
          /\ HealthDataProviders.getHeartRateVariabilityData OS kit
             = Resolved hrv
          /\ m = {| dailySteps := steps;
                    dailyTrainingTime := todaysTrainingTime w;
                    trainingIntensity := todaysTrainingIntensity w;
                    restingHeartRate := rhr;
                    heartRateVariability := hrv |}).
Proof.
  intros p initializationFails.
  destruct (getTodaysStepCount_resolves OS kit) as [steps Es].
  destruct (getRestingHeartRateData_resolves OS kit) as [rhr Er].
  destruct (getHeartRateVariabilityData_resolves OS kit) as [hrv Eh].
  (* the [try] block with its [catch] *)
  set (tryBlock := try_catch
                     (collectTodaysHealthMetrics OS kit getTodaysWorkoutData)
                     (fun _ => Resolved zeroTodaysHealthMetrics)).
  assert (T : exists m,
             tryBlock = Resolved m
             /\ (forall e, getTodaysWorkoutData = Rejected e ->
                           m = zeroTodaysHealthMetrics)
             /\ (forall w, getTodaysWorkoutData = Resolved w ->
                   m = {| dailySteps := steps;
                          dailyTrainingTime := todaysTrainingTime w;
                          trainingIntensity := todaysTrainingIntensity w;
                          restingHeartRate := rhr;
                          heartRateVariability := hrv |})).
  { unfold tryBlock, collectTodaysHealthMetrics. rewrite Es, Er, Eh.
    destruct getTodaysWorkoutData as [w | e]; cbn; eexists;
      (split; [reflexivity |]); split; intros ? E;
      try discriminate E; try reflexivity.
    now injection E as <-. }
  destruct T as (m & Em & Hrej & Hres).
  unfold p, getTodaysHealthMetrics. fold tryBlock.
  unfold initializationFails.
  destruct this as [[|]]; cbn [isHealthKitInitialized negb].
  - exists m. rewrite Em. cbn. split; [reflexivity |].
    split; [intros [F _]; discriminate F |].
    split; [exact Hrej |].
    intros _ w Ew. exists steps, rhr, hrv. auto.
  - unfold initialize. destruct (neq OS ios); cbn.
    { exists zeroTodaysHealthMetrics. split; [reflexivity |].
      split; [reflexivity |]. split; [reflexivity |].
      intros N. exfalso. apply N. auto. }
    destruct (JS.truthy_string _); cbn.
    { exists zeroTodaysHealthMetrics. split; [reflexivity |].
      split; [reflexivity |]. split; [reflexivity |].
      intros N. exfalso. apply N. auto. }
    exists m. rewrite Em. split; [reflexivity |].
    split; [intros [_ F]; discriminate F |].
    split; [exact Hrej |].
    intros _ w Ew. exists steps, rhr, hrv. auto.
Qed.

(** X10.  After [getAllHealthMetrics], whatever the workout provider does,
    the service is uninitialised exactly when initialisation failed, and
    then the promise carries [HealthKitInitializationError]; an initialised
    service is left as it was; and whenever the service ends up initialised
    the promise is the outcome of the [try] block. *)
Theorem getAllHealthMetrics_flag_and_outcome
  OS kit (getMonthlyWorkoutData : Promise WorkoutData)
  (this : HealthService.t) :
  let p := fst (getAllHealthMetrics OS kit getMonthlyWorkoutData this) in
  let this' := snd (getAllHealthMetrics OS kit getMonthlyWorkoutData this) in
  let initializationFails :=
    isHealthKitInitialized this = false
    /\ fst (initialize OS kit this) = Resolved false in
  (isHealthKitInitialized this' = false <-> initializationFails)
  /\ (isHealthKitInitialized this = true -> this' = this)
  /\ (isHealthKitInitialized this' = false ->
      p = Rejected (HealthKitInitializationError
                      "Failed to initialize HealthKit"))
  /\ (isHealthKitInitialized this' = true ->
      p = collectHealthMetrics OS kit getMonthlyWorkoutData).
Proof.
  intros p this' initializationFails.
  unfold p, this', initializationFails, getAllHealthMetrics.
  destruct (ensureInitialized OS kit this) as [ready s] eqn:E.
  cbn [fst snd]. rewrite try_catch_rethrow.
  destruct (ensureInitialized_cases OS kit this)
    as [(F & C) | [(F & I & C) | (F & I & S & C)]];
    rewrite E in *; cbn [fst snd] in *.
  - injection C as -> ->. rewrite F. cbn.
    repeat split; try congruence. intros [H _]. discriminate H.
  - injection C as -> ->. rewrite F, I. cbn.
    repeat split; try congruence. intros [_ H]. discriminate H.
  - subst ready. rewrite S, F, I. cbn. repeat split; congruence.
Qed.

(** X11.  Two calls in a row, HealthKit possibly answering differently the
    second time: after a call whose initialisation failed the next call
    initialises again, and after any other call the next one does not
    initialise and gives the outcome of its [try] block. *)
Theorem getAllHealthMetrics_twice
  OS kit (workout : Promise WorkoutData)
  OS' kit' (workout' : Promise WorkoutData) (this : HealthService.t) :
  let this' := snd (getAllHealthMetrics OS kit workout this) in
  let initializationFails :=
    isHealthKitInitialized this = false
    /\ fst (initialize OS kit this) = Resolved false in
  (initializationFails ->
   getAllHealthMetrics OS' kit' workout' this'
   = getAllHealthMetrics OS' kit' workout'
       {| isHealthKitInitialized := false |})
  /\ (~ initializationFails ->
      getAllHealthMetrics OS' kit' workout' this'
      = (collectHealthMetrics OS' kit' workout', this')).
Proof.
  intros this' initializationFails.
  assert (F : isHealthKitInitialized this' = false <-> initializationFails).
  { unfold this', initializationFails, getAllHealthMetrics.
    destruct (ensureInitialized OS kit this) as [ready s] eqn:E.
    cbn [snd].
    destruct (ensureInitialized_cases OS kit this)
      as [(F & C) | [(F & I & C) | (F & I & S & C)]];
      rewrite E in *; cbn [fst snd] in *.
    - injection C as -> ->. rewrite F. split; [congruence |].
      intros [H _]. discriminate H.
    - injection C as -> ->. rewrite I. cbn. split; [congruence |].
      intros [_ H]. discriminate H.
    - rewrite S, F, I. split; auto. }
  clearbody this'. destruct this' as [[|]]; cbn in F; split.
  - intros H. apply F in H. discriminate H.
  - intros _. unfold getAllHealthMetrics, ensureInitialized. cbn.
    now rewrite try_catch_rethrow.
  - reflexivity.
  - intros N. exfalso. apply N, F. reflexivity.
Qed.

End ServiceMore.

(* ================================================================== *)
(** * Objects as dictionaries, and the sort *)


Section ObjectFacts.
Context {V : Type}.
Implicit Types (o : JSObject.t V) (k : string) (v : V).

Lemma get_None_iff k o : JSObject.get k o = None <-> ~ In k (map fst o).
Proof.
  induction o as [| [k' v'] o IH]; cbn.
  - tauto.
  - destruct (String.eqb k' k) eqn:E.
    + apply String.eqb_eq in E. split; [discriminate | intros H; tauto].
    + apply String.eqb_neq in E. rewrite IH. tauto.
Qed.

Lemma get_Some_In k v o : JSObject.get k o = Some v -> In (k, v) o.
Proof.
  induction o as [| [k' v'] o IH]; cbn; [discriminate |].
  destruct (String.eqb k' k) eqn:E.
  - apply String.eqb_eq in E. intros H. injection H as <-. subst. now left.
  - intros H. right. now apply IH.
Qed.

Lemma get_set k k' v o :
  JSObject.get k' (JSObject.set k v o)
  = if String.eqb k k' then Some v else JSObject.get k' o.
Proof.
  induction o as [| [k0 v0] o IH]; cbn.
  - reflexivity.
  - destruct (String.eqb k0 k) eqn:E; cbn.
    + apply String.eqb_eq in E. rewrite E.
      destruct (String.eqb k k'); reflexivity.
    + rewrite IH. destruct (String.eqb k0 k') eqn:E'; [| reflexivity].
      apply String.eqb_eq in E'. rewrite <- E', String.eqb_sym, E.
      reflexivity.
Qed.

Lemma set_absent k v o :
  ~ In k (map fst o) -> JSObject.set k v o = o ++ [(k, v)].
Proof.
  induction o as [| [k0 v0] o IH]; cbn; intros H; [reflexivity |].
  destruct (String.eqb k0 k) eqn:E.
  - apply String.eqb_eq in E. tauto.
  - rewrite IH by tauto. reflexivity.
Qed.

Lemma modify_keys k f o : map fst (JSObject.modify k f o) = map fst o.
Proof.
  induction o as [| [k0 v0] o IH]; cbn; [reflexivity |].
  destruct (String.eqb k0 k); cbn; [reflexivity | now rewrite IH].
Qed.

Lemma modify_absent_app k f o o' :
  ~ In k (map fst o) ->
  JSObject.modify k f (o ++ o') = o ++ JSObject.modify k f o'.
Proof.
  induction o as [| [k0 v0] o IH]; cbn; intros H; [reflexivity |].
  destruct (String.eqb k0 k) eqn:E.
  - apply String.eqb_eq in E. tauto.
  - rewrite IH by tauto. reflexivity.
Qed.

(** With distinct keys, [modify] changes the entry of its key and no other. *)
Lemma In_modify k f o k' v' :
  NoDup (map fst o) ->
  In (k', v') (JSObject.modify k f o) ->
  (k' <> k /\ In (k', v') o)
  \/ (k' = k /\ exists v, In (k, v) o /\ v' = f v).
Proof.
  induction o as [| [k0 v0] o IH]; cbn; intros N H; [contradiction |].
  inversion N as [| ? ? Hnotin N']; subst.
  destruct (String.eqb k0 k) eqn:E.
  - apply String.eqb_eq in E. subst k0. destruct H as [H | H].
    + injection H as <- <-. right. split; [reflexivity |]. eauto.
    + left. split; [| now right].
      intros ->. apply Hnotin. apply in_map_iff. now exists (k, v').
  - apply String.eqb_neq in E. destruct H as [H | H].
    + injection H as <- <-. left. split; [exact E | now left].
    + destruct (IH N' H) as [[Hne Hin] | [-> (v & Hin & ->)]].
      * left. split; [exact Hne | now right].
      * right. split; [reflexivity |]. exists v. split; [now right | reflexivity].
Qed.

End ObjectFacts.

Section SortFacts.
Context {A : Type}.
Variable compare : A -> A -> Z.

Lemma insert_perm (x : A) (l : list A) :
  Permutation (JSArray.insert compare x l) (x :: l).
Proof.
  induction l as [| y l IH]; cbn; [reflexivity |].
  destruct (compare x y <=? 0)%Z; [reflexivity |].
  rewrite IH. apply perm_swap.
Qed.

(** The sorted array has the elements of the array. *)
Lemma sort_perm (l : list A) : Permutation (JSArray.sort compare l) l.
Proof.
  induction l as [| x l IH]; cbn; [reflexivity |].
  fold (JSArray.sort compare l). rewrite insert_perm. now constructor.
Qed.

Variable before : A -> A -> Prop.
Hypothesis before_trans : forall a b c, before a b -> before b c -> before a c.
Hypothesis compare_before : forall a b, (compare a b <= 0)%Z -> before a b.
Hypothesis compare_after : forall a b, (0 < compare a b)%Z -> before b a.

Lemma insert_sorted (x : A) (l : list A) :
  StronglySorted before l -> StronglySorted before (JSArray.insert compare x l).
Proof.
  induction 1 as [| y l Hl IH Hy]; cbn.
  - repeat constructor.
  - destruct (compare x y <=? 0)%Z eqn:E.
    + apply Z.leb_le in E. constructor; [now constructor |].
      constructor; [now apply compare_before |].
      eapply Forall_impl; [| exact Hy].
      intros z Hz. eapply before_trans; [apply compare_before |]; eassumption.
    + apply Z.leb_gt in E. constructor; [exact IH |].
      apply Forall_forall. intros z Hz.
      apply (Permutation_in _ (insert_perm x l)) in Hz.
      destruct Hz as [<- | Hz]; [now apply compare_after |].
      rewrite Forall_forall in Hy. now apply Hy.
Qed.

Lemma sort_sorted (l : list A) : StronglySorted before (JSArray.sort compare l).
Proof.
  induction l as [| x l IH]; cbn; [constructor |].
  now apply insert_sorted.
Qed.

End SortFacts.

(* ================================================================== *)
(** * The grouping of [getHistoricalHealthData] *)

Section GroupingFacts.
Import Historical Grouped.
Variable toDateString : Z -> string.

Local Abbreviation turn := (Grouped.turn toDateString).
Local Abbreviation GroupsOf := (Grouped.GroupsOf toDateString).

Lemma fold_left_map_event {S X : Type} (f : S -> Event -> S) (g : X -> Event)
  (l : list X) (s : S) :
  fold_left f (map g l) s = fold_left (fun s x => f s (g x)) l s.
Proof. revert s. induction l; intros s; cbn; auto. Qed.

(** The four loops are one loop over the samples in visiting order. *)
Lemma groupByDate_events stepsData heartRateData hrvData sleepData :
  groupByDate toDateString stepsData heartRateData hrvData sleepData
  = fold_left turn (events stepsData heartRateData hrvData sleepData) [].
Proof.
  unfold groupByDate, events.
  rewrite !fold_left_app, !fold_left_map_event. reflexivity.
Qed.

Lemma eventsOn_app k (es es' : list Event) :
  eventsOn toDateString k (es ++ es')
  = eventsOn toDateString k es ++ eventsOn toDateString k es'.
Proof. apply filter_app. Qed.

Lemma stepsOf_app es es' : stepsOf (es ++ es') = stepsOf es ++ stepsOf es'.
Proof. apply flat_map_app. Qed.
Lemma heartRateOf_app es es' :
  heartRateOf (es ++ es') = heartRateOf es ++ heartRateOf es'.
Proof. apply flat_map_app. Qed.
Lemma hrvOf_app es es' : hrvOf (es ++ es') = hrvOf es ++ hrvOf es'.
Proof. apply flat_map_app. Qed.
Lemma sleepOf_app es es' : sleepOf (es ++ es') = sleepOf es ++ sleepOf es'.
Proof. apply flat_map_app. Qed.

Lemma GroupsOf_nil : GroupsOf [] [].
Proof. split; cbn; [constructor | contradiction | contradiction]. Qed.

Lemma eventsOn_absent k es groups :
  GroupsOf es groups -> ~ In k (map fst groups) ->
  eventsOn toDateString k es = [].
Proof.
  intros G N. unfold eventsOn.
  destruct (filter _ es) as [| e rest] eqn:F; [reflexivity |].
  exfalso. apply N.
  assert (Hin : In e (filter (fun e => onDay toDateString k (instant e)) es))
    by (rewrite F; now left).
  apply filter_In in Hin. destruct Hin as [Hin Hday].
  unfold onDay in Hday. apply String.eqb_eq in Hday. rewrite <- Hday.
  now apply (keys_cover _ _ _ G).
Qed.

Lemma eventsOn_single_same e :
  eventsOn toDateString (toDateString (instant e)) [e] = [e].
Proof. unfold eventsOn, onDay. cbn. now rewrite String.eqb_refl. Qed.

Lemma eventsOn_single_other k e :
  k <> toDateString (instant e) -> eventsOn toDateString k [e] = [].
Proof.
  intros N. unfold eventsOn, onDay. cbn.
  destruct (String.eqb (toDateString (instant e)) k) eqn:E; [| reflexivity].
  apply String.eqb_eq in E. congruence.
Qed.

(** The lists of a group after a push. *)
Lemma push_content e g :
  date (push e g) = date g
  /\ stepsData (push e g) = stepsData g ++ stepsOf [e]
  /\ heartRateData (push e g) = heartRateData g ++ heartRateOf [e]
  /\ hrvData (push e g) = hrvData g ++ hrvOf [e]
  /\ sleepData (push e g) = sleepData g ++ sleepOf [e].
Proof.
  destruct e; cbn; rewrite ?app_nil_r; repeat split.
Qed.

(** A turn of the loop keeps the invariant. *)
Lemma GroupsOf_turn es groups e :
  GroupsOf es groups -> GroupsOf (es ++ [e]) (turn groups e).
Proof.
  intros G. unfold Grouped.turn, addToGroup.
  pose proof (eventsOn_single_same e) as Same.
  set (k := toDateString (instant e)).
  set (fresh := {| date := instant e; stepsData := []; heartRateData := [];
                   hrvData := []; sleepData := [] |}).
  destruct (push_content e fresh) as (Pd & Ps & Ph & Pv & Pl).
  destruct (JSObject.get k groups) as [g0 |] eqn:Hget.
  - (* the day has a group *)
    assert (Hk : In k (map fst groups)).
    { apply get_Some_In in Hget. apply in_map_iff. now exists (k, g0). }
    split.
    + rewrite modify_keys. exact (keys_distinct _ _ _ G).
    + intros e' Hin. rewrite modify_keys. apply in_app_or in Hin.
      destruct Hin as [Hin | [<- | []]];
        [exact (keys_cover _ _ _ G e' Hin) | exact Hk].
    + intros k' g' Hin.
      apply In_modify in Hin; [| exact (keys_distinct _ _ _ G)].
      rewrite eventsOn_app.
      destruct Hin as [[Hne Hin] | [-> (g & Hin & ->)]].
      * rewrite (eventsOn_single_other k' e) by exact Hne.
        rewrite app_nil_r. now apply (group_content _ _ _ G).
      * fold k in Same. rewrite Same.
        destruct (group_content _ _ _ G _ _ Hin)
          as ((e0 & rest & E0 & D0) & Es & Eh & Ev & El).
        destruct (push_content e g) as (Qd & Qs & Qh & Qv & Ql).
        rewrite stepsOf_app, heartRateOf_app, hrvOf_app, sleepOf_app.
        rewrite Qd, Qs, Qh, Qv, Ql, Es, Eh, Ev, El.
        fold k in E0 |- *. rewrite E0.
        split; [| repeat split].
        exists e0, (rest ++ [e]). split; [reflexivity | exact D0].
  - (* the day is new *)
    apply get_None_iff in Hget.
    rewrite set_absent by exact Hget.
    rewrite modify_absent_app by exact Hget. cbn [JSObject.modify].
    rewrite String.eqb_refl.
    split.
    + rewrite map_app. cbn.
      apply NoDup_app_remove_l with (l := []). cbn.
      apply Permutation_NoDup with (l := k :: map fst groups).
      * apply Permutation_cons_append.
      * constructor; [exact Hget | exact (keys_distinct _ _ _ G)].
    + intros e' Hin. rewrite map_app. apply in_or_app.
      apply in_app_or in Hin.
      destruct Hin as [Hin | [<- | []]];
        [left; exact (keys_cover _ _ _ G e' Hin) | right; now left].
    + intros k' g' Hin. rewrite eventsOn_app.
      apply in_app_or in Hin. destruct Hin as [Hin | [Hin | []]].
      * assert (Hne : k' <> k).
        { intros ->. apply Hget. apply in_map_iff. now exists (k, g'). }
        rewrite (eventsOn_single_other k' e) by exact Hne.
        rewrite app_nil_r. now apply (group_content _ _ _ G).
      * injection Hin as <- <-.
        rewrite (eventsOn_absent k es groups G Hget). cbn [app].
        fold k in Same. rewrite Same.
        rewrite Pd, Ps, Ph, Pv, Pl. cbn [app].
        split; [| repeat split].
        exists e, []. split; reflexivity.
Qed.

Lemma GroupsOf_fold es' : forall es groups,
  GroupsOf es groups -> GroupsOf (es ++ es') (fold_left turn es' groups).
Proof.
  induction es' as [| e es' IH]; intros es groups G; cbn.
  - now rewrite app_nil_r.
  - replace (es ++ e :: es') with ((es ++ [e]) ++ es')
      by now rewrite <- app_assoc.
    apply IH. now apply GroupsOf_turn.
Qed.

(** The invariant holds of [dateGroups] after the four loops. *)
Lemma GroupsOf_groupByDate stepsData heartRateData hrvData sleepData :
  GroupsOf (events stepsData heartRateData hrvData sleepData)
    (groupByDate toDateString stepsData heartRateData hrvData sleepData).
Proof.
  rewrite groupByDate_events.
  exact (GroupsOf_fold _ [] [] GroupsOf_nil).
Qed.

End GroupingFacts.

Section GroupedByDate.
Import Historical Grouped.
Variable toDateString : Z -> string.
Variables stepsData heartRateData hrvData : list HealthValue.
Variable sleepData : list SleepSample.t.

(** The samples in visiting order, [dateGroups] after the loops, and the
    array returned. *)
Local Abbreviation es := (events stepsData heartRateData hrvData sleepData).
Local Abbreviation groups :=
  (groupByDate toDateString stepsData heartRateData hrvData sleepData).
Local Abbreviation out :=
  (groupedByDate toDateString stepsData heartRateData hrvData sleepData).

Lemma filter_map_comm {X Y : Type} (f : Y -> bool) (g : X -> Y) (l : list X) :
  filter f (map g l) = map g (filter (fun x => f (g x)) l).
Proof.
  induction l as [| x l IH]; cbn; [reflexivity |].
  destruct (f (g x)); cbn; now rewrite IH.
Qed.

Lemma kinds_of_events (l : list HealthValue) (m : list SleepSample.t) :
  (stepsOf (map StepsEvent l) = l /\ heartRateOf (map StepsEvent l) = []
   /\ hrvOf (map StepsEvent l) = [] /\ sleepOf (map StepsEvent l) = [])
  /\ (stepsOf (map HeartRateEvent l) = [] /\ heartRateOf (map HeartRateEvent l) = l
      /\ hrvOf (map HeartRateEvent l) = [] /\ sleepOf (map HeartRateEvent l) = [])
  /\ (stepsOf (map HrvEvent l) = [] /\ heartRateOf (map HrvEvent l) = []
      /\ hrvOf (map HrvEvent l) = l /\ sleepOf (map HrvEvent l) = [])
  /\ (stepsOf (map SleepEvent m) = [] /\ heartRateOf (map SleepEvent m) = []
      /\ hrvOf (map SleepEvent m) = [] /\ sleepOf (map SleepEvent m) = m).
Proof.
  unfold stepsOf, heartRateOf, hrvOf, sleepOf. repeat split.
  1-12: induction l as [| x l IH]; cbn; congruence.
  all: induction m as [| x m IH]; cbn; congruence.
Qed.

(** The samples of each kind among the events of a day. *)
Lemma eventsOn_kinds (k : string) :
  stepsOf (eventsOn toDateString k es) = valuesOn toDateString k stepsData
  /\ heartRateOf (eventsOn toDateString k es)
     = valuesOn toDateString k heartRateData
  /\ hrvOf (eventsOn toDateString k es) = valuesOn toDateString k hrvData
  /\ sleepOf (eventsOn toDateString k es) = sleepOn toDateString k sleepData.
Proof.
  unfold events, eventsOn. rewrite !filter_app, !filter_map_comm.
  rewrite !stepsOf_app, !heartRateOf_app, !hrvOf_app, !sleepOf_app.
  cbn [instant].
  fold (valuesOn toDateString k stepsData).
  fold (valuesOn toDateString k heartRateData).
  fold (valuesOn toDateString k hrvData).
  fold (sleepOn toDateString k sleepData).
  destruct (kinds_of_events (valuesOn toDateString k stepsData)
              (sleepOn toDateString k sleepData))
    as ((A1 & A2 & A3 & A4) & _ & _ & (D1 & D2 & D3 & D4)).
  destruct (kinds_of_events (valuesOn toDateString k heartRateData) [])
    as (_ & (B1 & B2 & B3 & B4) & _ & _).
  destruct (kinds_of_events (valuesOn toDateString k hrvData) [])
    as (_ & _ & (C1 & C2 & C3 & C4) & _).
  rewrite A1, A2, A3, A4, B1, B2, B3, B4, C1, C2, C3, C4, D1, D2, D3, D4.
  cbn. rewrite ?app_nil_r. repeat split.
Qed.

Lemma instants_events : map instant es = instants stepsData heartRateData hrvData sleepData.
Proof.
  unfold events, instants. rewrite !map_app, !map_map. reflexivity.
Qed.

Lemma In_out (g : DateGroup) : In g out <-> exists k, In (k, g) groups.
Proof.
  unfold groupedByDate, JSObject.values. split.
  - intros H. apply (Permutation_in _ (sort_perm _ _)) in H.
    apply in_map_iff in H. destruct H as ([k g'] & <- & H). now exists k.
  - intros [k H].
    apply (Permutation_in _ (Permutation_sym (sort_perm _ _))).
    apply in_map_iff. now exists (k, g).
Qed.

(** A group is stored under the day of its date, which is the start of the
    first sample visited on that day. *)
Lemma group_key (k : string) (g : DateGroup) :
  In (k, g) groups ->
  toDateString (date g) = k
  /\ hd_error (filter (onDay toDateString k)
                 (instants stepsData heartRateData hrvData sleepData))
     = Some (date g).
Proof.
  intros H.
  destruct (group_content _ _ _
              (GroupsOf_groupByDate toDateString stepsData heartRateData
                 hrvData sleepData) _ _ H)
    as ((e & rest & E & D) & _).
  split.
  - assert (Hin : In e (eventsOn toDateString k es)) by (rewrite E; now left).
    apply filter_In in Hin. destruct Hin as [_ Hday].
    apply String.eqb_eq in Hday. now rewrite D.
  - rewrite <- instants_events, filter_map_comm.
    fold (eventsOn toDateString k es). rewrite E. cbn. now rewrite D.
Qed.

Lemma days_of_out :
  Permutation (map (fun g => toDateString (date g)) out) (map fst groups).
Proof.
  unfold groupedByDate, JSObject.values.
  rewrite (Permutation_map _ (sort_perm _ _)). rewrite map_map.
  assert (E : forall l : JSObject.t DateGroup,
             (forall k g, In (k, g) l -> toDateString (date g) = k) ->
             map (fun x => toDateString (date (snd x))) l = map fst l).
  { induction l as [| [k g] l IH]; intros H; cbn; [reflexivity |].
    rewrite (H k g) by now left. f_equal. apply IH.
    intros k' g' Hin. apply H. now right. }
  rewrite E; [reflexivity |].
  intros k g H. now apply group_key.
Qed.

Lemma days_distinct : NoDup (map (fun g => toDateString (date g)) out).
Proof.
  apply (Permutation_NoDup (Permutation_sym days_of_out)).
  exact (keys_distinct _ _ _
           (GroupsOf_groupByDate toDateString stepsData heartRateData
              hrvData sleepData)).
Qed.

(** The lists of every entry are the samples of its day. *)
Lemma out_content :
  Forall (fun g =>
            let day := toDateString (date g) in
            Historical.stepsData g = valuesOn toDateString day stepsData
            /\ Historical.heartRateData g
               = valuesOn toDateString day heartRateData
            /\ Historical.hrvData g = valuesOn toDateString day hrvData
            /\ Historical.sleepData g = sleepOn toDateString day sleepData)
    out.
Proof.
  apply Forall_forall. intros g Hg. apply In_out in Hg. destruct Hg as [k H].
  destruct (group_key k g H) as [E _].
  destruct (group_content _ _ _
              (GroupsOf_groupByDate toDateString stepsData heartRateData
                 hrvData sleepData) _ _ H)
    as (_ & Es & Eh & Ev & El).
  cbv beta zeta. rewrite E, Es, Eh, Ev, El. exact (eventsOn_kinds k).
Qed.

(** Every sample's day has an entry. *)
Lemma days_cover (t : Z) :
  In t (instants stepsData heartRateData hrvData sleepData) ->
  exists g, In g out /\ toDateString (date g) = toDateString t.
Proof.
  intros Ht. rewrite <- instants_events in Ht.
  apply in_map_iff in Ht. destruct Ht as (e & <- & He).
  pose proof (keys_cover _ _ _
                (GroupsOf_groupByDate toDateString stepsData heartRateData
                   hrvData sleepData) e He) as Hk.
  apply in_map_iff in Hk. destruct Hk as ([k g] & Ek & Hin). cbn in Ek.
  exists g. split; [apply In_out; now exists k |].
  destruct (group_key k g Hin) as [E _]. now rewrite E.
Qed.

(** Every entry's day is the day of a sample. *)
Lemma days_of_samples (g : DateGroup) :
  In g out ->
  In (toDateString (date g))
     (map toDateString (instants stepsData heartRateData hrvData sleepData)).
Proof.
  intros Hg. apply In_out in Hg. destruct Hg as [k H].
  destruct (group_key k g H) as [E F]. rewrite E.
  destruct (filter _ _) as [| t rest] eqn:Q; [discriminate F |].
  assert (Hin : In t (filter (onDay toDateString k)
                        (instants stepsData heartRateData hrvData sleepData)))
    by (rewrite Q; now left).
  apply filter_In in Hin. destruct Hin as [Hin Hday].
  apply String.eqb_eq in Hday. rewrite <- Hday. now apply in_map.
Qed.

(** X12.  Every entry of the result holds, in each of its four lists,
    exactly the samples of the corresponding input list that start on the
    entry's day, in the order of that list. *)
Theorem groups_hold_the_samples_of_their_day :
  let result :=
    groupedByDate toDateString stepsData heartRateData hrvData sleepData in
  Forall (fun g =>
            let day := toDateString (date g) in
            Historical.stepsData g = valuesOn toDateString day stepsData
            /\ Historical.heartRateData g
               = valuesOn toDateString day heartRateData
            /\ Historical.hrvData g = valuesOn toDateString day hrvData
            /\ Historical.sleepData g = sleepOn toDateString day sleepData)
    result.
Proof. exact out_content. Qed.

(** X13.  The result has one entry per day: the days of its entries are
    pairwise distinct, every sample's day has an entry, every entry is dated
    by the start of the first sample visited on its day (steps, then heart
    rate, then variability, then sleep), and it is empty exactly when there
    is no sample. *)
Theorem one_entry_per_day :
  let result :=
    groupedByDate toDateString stepsData heartRateData hrvData sleepData in
  NoDup (map (fun g => toDateString (date g)) result)
  /\ (forall t,
         In t (instants stepsData heartRateData hrvData sleepData) ->
         exists g, In g result /\ toDateString (date g) = toDateString t)
  /\ Forall (fun g =>
               hd_error
                 (filter (onDay toDateString (toDateString (date g)))
                    (instants stepsData heartRateData hrvData sleepData))
               = Some (date g))
       result
  /\ (result = [] <-> instants stepsData heartRateData hrvData sleepData = []).
Proof.
  intros result. subst result.
  pose proof (GroupsOf_groupByDate toDateString stepsData heartRateData
                hrvData sleepData) as G.
  pose proof days_cover as Cover.
  assert (First : Forall (fun g =>
             hd_error
               (filter (onDay toDateString (toDateString (date g)))
                  (instants stepsData heartRateData hrvData sleepData))
             = Some (date g)) out).
  { apply Forall_forall. intros g Hg. apply In_out in Hg.
    destruct Hg as [k H]. destruct (group_key k g H) as [E F].
    now rewrite E. }
  split; [| split; [exact Cover | split; [exact First |]]].
  - exact days_distinct.
  - split.
    + intros E.
      destruct (instants stepsData heartRateData hrvData sleepData)
        as [| t l] eqn:I; [reflexivity |].
      destruct (Cover t) as (g & Hg & _); [now left |].
      rewrite E in Hg. contradiction.
    + intros I. destruct out as [| g l] eqn:O; [reflexivity |].
      rewrite Forall_forall in First.
      specialize (First g). rewrite I in First. cbn in First.
      discriminate First. now left.
Qed.

Lemma sorted_distinct_strict (l : list DateGroup) :
  StronglySorted (fun a b => (date b <= date a)%Z) l ->
  NoDup (map date l) ->
  StronglySorted (fun a b => (date b < date a)%Z) l.
Proof.
  induction 1 as [| a l Hl IH Ha]; intros N; [constructor |].
  cbn in N. inversion N as [| ? ? Hnotin N']; subst.
  constructor; [now apply IH |].
  apply Forall_forall. intros b Hb.
  rewrite Forall_forall in Ha. specialize (Ha b Hb).
  assert (date b <> date a).
  { intros E. apply Hnotin. rewrite <- E. now apply in_map. }
  lia.
Qed.

(** X14.  The result is ordered by date, latest first, and no two entries
    have the same date. *)
Theorem result_is_strictly_latest_first :
  let result :=
    groupedByDate toDateString stepsData heartRateData hrvData sleepData in
  StronglySorted (fun a b => (date b < date a)%Z) result.
Proof.
  intros result. subst result.
  apply sorted_distinct_strict.
  - unfold groupedByDate.
    apply (sort_sorted byDateDescending (fun a b => (date b <= date a)%Z));
      unfold byDateDescending; intros; lia.
  - pose proof days_distinct as N.
    rewrite <- map_map in N. exact (NoDup_map_inv _ _ N).
Qed.

(** X20.  The result has exactly as many entries as the samples have
    distinct days. *)
Theorem one_entry_for_each_distinct_day :
  let result :=
    groupedByDate toDateString stepsData heartRateData hrvData sleepData in
  List.length result
  = List.length
      (nodup string_dec
         (map toDateString
            (instants stepsData heartRateData hrvData sleepData))).
Proof.
  intros result. subst result.
  rewrite <- (length_map (fun g => toDateString (date g)) out).
  apply Permutation_length, NoDup_Permutation.
  - exact days_distinct.
  - apply NoDup_nodup.
  - intros k. rewrite nodup_In. split.
    + intros H. apply in_map_iff in H. destruct H as (g & <- & Hg).
      now apply days_of_samples.
    + intros H. apply in_map_iff in H. destruct H as (t & <- & Ht).
      destruct (days_cover t Ht) as (g & Hg & <-).
      apply in_map_iff. now exists g.
Qed.

(** The lists that distinct keys select from a list, put together, are the
    list, when every element has one of the keys. *)
Lemma partition_by_keys {X : Type} (key : X -> string) (ks : list string)
  (l : list X) :
  NoDup ks -> (forall x, In x l -> In (key x) ks) ->
  Permutation
    (flat_map (fun k => filter (fun x => String.eqb (key x) k) l) ks) l.
Proof.
  intros N. induction l as [| x l IH]; intros C.
  - cbn. clear. induction ks; cbn; auto.
  - transitivity
      (x :: flat_map (fun k => filter (fun y => String.eqb (key y) k) l) ks);
      [| constructor; apply IH; intros y Hy; apply C; now right].
    pose proof (C x (or_introl eq_refl)) as Hx. clear C IH.
    induction ks as [| k ks IHk]; [contradiction |].
    inversion N as [| ? ? Hnotin N']; subst.
    cbn [flat_map].
    destruct (String.eqb (key x) k) eqn:E.
    + apply String.eqb_eq in E.
      assert (Tail : forall ks',
                 ~ In (key x) ks' ->
                 flat_map
                   (fun k' => filter (fun y => String.eqb (key y) k') (x :: l))
                   ks'
                 = flat_map
                     (fun k' => filter (fun y => String.eqb (key y) k') l)
                     ks').
      { induction ks' as [| k' ks' IHt]; intros Hn; [reflexivity |].
        cbn [flat_map]. rewrite IHt by (intros H; apply Hn; now right).
        cbn [filter].
        destruct (String.eqb (key x) k') eqn:E'; [| reflexivity].
        apply String.eqb_eq in E'. exfalso. apply Hn. now left. }
      rewrite Tail by congruence.
      cbn [filter]. rewrite <- E, String.eqb_refl. reflexivity.
    + assert (Hx' : In (key x) ks).
      { destruct Hx as [Hx | Hx]; [| exact Hx].
        apply String.eqb_neq in E. congruence. }
      rewrite (IHk N' Hx'). cbn [filter]. rewrite E.
      symmetry. apply Permutation_middle.
Qed.

Lemma flat_map_days {X : Type} (field : DateGroup -> list X)
  (select : string -> list X) (l : list DateGroup) :
  Forall (fun g => field g = select (toDateString (date g))) l ->
  flat_map field l
  = flat_map select (map (fun g => toDateString (date g)) l).
Proof.
  induction 1 as [| g l Hg _ IH]; cbn; [reflexivity |].
  now rewrite Hg, IH.
Qed.

(** X21.  No sample is lost or repeated: the steps lists of the entries,
    put together, are a rearrangement of the steps samples, and likewise for
    the heart rate, variability and sleep samples. *)
Theorem grouping_keeps_every_sample :
  let result :=
    groupedByDate toDateString stepsData heartRateData hrvData sleepData in
  Permutation (flat_map Historical.stepsData result) stepsData
  /\ Permutation (flat_map Historical.heartRateData result) heartRateData
  /\ Permutation (flat_map Historical.hrvData result) hrvData
  /\ Permutation (flat_map Historical.sleepData result) sleepData.
Proof.
  intros result. subst result.
  pose proof out_content as C. pose proof days_distinct as N.
  assert (Cov : forall t,
             In t (instants stepsData heartRateData hrvData sleepData) ->
             In (toDateString t) (map (fun g => toDateString (date g)) out)).
  { intros t Ht. destruct (days_cover t Ht) as (g & Hg & <-).
    apply in_map_iff. now exists g. }
  unfold instants in Cov.
  split; [| split; [| split]].
  - rewrite (flat_map_days Historical.stepsData
               (fun k => valuesOn toDateString k stepsData)).
    + apply (partition_by_keys (fun s => toDateString (startDate s)));
        [exact N |].
      intros x Hx. apply Cov. apply in_or_app. left. now apply in_map.
    + eapply Forall_impl; [| exact C]. cbv beta zeta. tauto.
  - rewrite (flat_map_days Historical.heartRateData
               (fun k => valuesOn toDateString k heartRateData)).
    + apply (partition_by_keys (fun s => toDateString (startDate s)));
        [exact N |].
      intros x Hx. apply Cov. apply in_or_app. right.
      apply in_or_app. left. now apply in_map.
    + eapply Forall_impl; [| exact C]. cbv beta zeta. tauto.
  - rewrite (flat_map_days Historical.hrvData
               (fun k => valuesOn toDateString k hrvData)).
    + apply (partition_by_keys (fun s => toDateString (startDate s)));
        [exact N |].
      intros x Hx. apply Cov. apply in_or_app. right.
      apply in_or_app. right. apply in_or_app. left. now apply in_map.
    + eapply Forall_impl; [| exact C]. cbv beta zeta. tauto.
  - rewrite (flat_map_days Historical.sleepData
               (fun k => sleepOn toDateString k sleepData)).
    + apply (partition_by_keys
               (fun s => toDateString (SleepSample.startDate s)));
        [exact N |].
      intros x Hx. apply Cov. apply in_or_app. right.
      apply in_or_app. right. apply in_or_app. right. now apply in_map.
    + eapply Forall_impl; [| exact C]. cbv beta zeta. tauto.
Qed.

End GroupedByDate.

Section HistoricalMethods.
Import ReactNative Async Health HealthService Historical HealthServiceMethods.
Variable OS : PlatformOS.
Variable kit : AppleHealthKit.t.
Variable toDateString : Z -> string.
Variable getHistoricalStepsData : R -> Promise (list HealthValue).
Variable getHistoricalHeartRateData : R -> Promise (list HealthValue).
Variable getHistoricalHRVData : R -> Promise (list HealthValue).
Variable getHistoricalSleepData : R -> Promise (list SleepSample.t).
Variable getHistoricalWorkoutData : R -> Promise (list Workout).

(** [getHistoricalHealthData] and its [try] block with the providers of this
    section. *)
Local Abbreviation historical :=
  (getHistoricalHealthData OS kit toDateString getHistoricalStepsData
     getHistoricalHeartRateData getHistoricalHRVData getHistoricalSleepData).
Local Abbreviation collect :=
  (collectHistoricalHealthData toDateString getHistoricalStepsData
     getHistoricalHeartRateData getHistoricalHRVData getHistoricalSleepData).

(** The [try] block of [getHistoricalHealthData], by the providers. *)
Lemma collect_outcome (d : R) :
  (rejects (collect d)
   <-> rejects (getHistoricalStepsData d)
       \/ rejects (getHistoricalHeartRateData d)
       \/ rejects (getHistoricalHRVData d)
       \/ rejects (getHistoricalSleepData d))
  /\ (forall s h v l,
         getHistoricalStepsData d = Resolved s ->
         getHistoricalHeartRateData d = Resolved h ->
         getHistoricalHRVData d = Resolved v ->
         getHistoricalSleepData d = Resolved l ->
         collect d = Resolved (groupedByDate toDateString s h v l)).
Proof.
  unfold collectHistoricalHealthData. split.
  - destruct (getHistoricalStepsData d) as [s | e1];
      [| cbn; split; [intros _; left | intros _]; apply rejected_rejects].
    destruct (getHistoricalHeartRateData d) as [h | e2];
      [| cbn; split; [intros _; right; left | intros _];
         apply rejected_rejects].
    destruct (getHistoricalHRVData d) as [v | e3];
      [| cbn; split; [intros _; right; right; left | intros _];
         apply rejected_rejects].
    destruct (getHistoricalSleepData d) as [l | e4];
      [| cbn; split; [intros _; right; right; right | intros _];
         apply rejected_rejects].
    cbn. split.
    + intros H. now apply resolved_never_rejects in H.
    + intros [H | [H | [H | H]]]; now apply resolved_never_rejects in H.
  - intros s h v l -> -> -> ->. reflexivity.
Qed.

(** X15.  [getHistoricalHealthData] rejects exactly when initialisation
    fails or one of the four historical providers rejects; a failed
    initialisation gives [HealthKitInitializationError]; with providers that
    resolve it resolves with their samples grouped by day; and without an
    argument it asks the providers for 30 days. *)
Theorem getHistoricalHealthData_outcome
  (days : option R) (this : HealthService.t) :
  let d := daysOrDefault days in
  let p := fst (historical days this) in
  let initializationFails :=
    isHealthKitInitialized this = false
    /\ fst (initialize OS kit this) = Resolved false in
  (rejects p
   <-> initializationFails
       \/ rejects (getHistoricalStepsData d)
       \/ rejects (getHistoricalHeartRateData d)
       \/ rejects (getHistoricalHRVData d)
       \/ rejects (getHistoricalSleepData d))
  /\ (initializationFails ->
      p = Rejected (HealthKitInitializationError
                      "Failed to initialize HealthKit"))
  /\ (~ initializationFails ->
      forall s h v l,
        getHistoricalStepsData d = Resolved s ->
        getHistoricalHeartRateData d = Resolved h ->
        getHistoricalHRVData d = Resolved v ->
        getHistoricalSleepData d = Resolved l ->
        p = Resolved (groupedByDate toDateString s h v l))
  /\ historical None this = historical (Some 30) this.
Proof.
  intros d p initializationFails.
  destruct (collect_outcome d) as [Crej Cres].
  unfold p, initializationFails, getHistoricalHealthData. fold d.
  destruct (ensureInitialized OS kit this) as [ready s0] eqn:E.
  cbn [fst snd]. rewrite try_catch_rethrow.
  destruct (ensureInitialized_cases OS kit this)
    as [(F & C) | [(F & I & C) | (F & I & S & C)]];
    rewrite E in *; cbn [fst snd] in *.
  - injection C as -> ->. cbn [await]. rewrite F.
    split; [| split; [| split; [| reflexivity]]].
    + rewrite Crej. split; [intros H; now right |].
      intros [[H _] | H]; [discriminate H | exact H].
    + intros [H _]. discriminate H.
    + intros _. exact Cres.
  - injection C as -> ->. cbn [await]. rewrite I.
    split; [| split; [| split; [| reflexivity]]].
    + rewrite Crej. split; [intros H; now right |].
      intros [[_ H] | H]; [discriminate H | exact H].
    + intros [_ H]. discriminate H.
    + intros _. exact Cres.
  - subst ready. cbn [await].
    split; [| split; [| split; [| reflexivity]]].
    + split; [intros _; left; auto | intros _; apply rejected_rejects].
    + reflexivity.
    + intros N. exfalso. apply N. auto.
Qed.

(** X16.  [getComprehensiveHistoricalData] rejects with
    [HealthKitInitializationError] when initialisation fails.  Otherwise it
    leaves the service as [getHistoricalHealthData] does, resolves with the
    historical data paired with the workouts when both promises resolve, and
    rejects when one of them rejects: with that promise's error, and when
    both reject with the error of the one that settles first. *)
Theorem getComprehensiveHistoricalData_outcome
  (workoutSettlesFirst : bool) (days : option R) (this : HealthService.t) :
  let d := daysOrDefault days in
  let h := fst (historical days this) in
  let w := getHistoricalWorkoutData d in
  let out :=
    getComprehensiveHistoricalData OS kit toDateString getHistoricalStepsData
      getHistoricalHeartRateData getHistoricalHRVData getHistoricalSleepData
      getHistoricalWorkoutData workoutSettlesFirst days this in
  let initializationFails :=
    isHealthKitInitialized this = false
    /\ (neq OS ios = true
        \/ JS.truthy_string (AppleHealthKit.initHealthKit kit) = true) in
  snd out = snd (historical days this)
  /\ (initializationFails ->
      fst out = Rejected (HealthKitInitializationError
                            "Failed to initialize HealthKit"))
  /\ (~ initializationFails ->
      (forall historicalData workoutData,
          h = Resolved historicalData -> w = Resolved workoutData ->
          fst out = Resolved {| historicalData := historicalData;
                                workoutData := workoutData |})
      /\ (forall e workoutData,
             h = Rejected e -> w = Resolved workoutData ->
             fst out = Rejected e)
      /\ (forall historicalData e,
             h = Resolved historicalData -> w = Rejected e ->
             fst out = Rejected e)
      /\ (forall e1 e2,
             h = Rejected e1 -> w = Rejected e2 ->
             fst out = Rejected (if workoutSettlesFirst then e2 else e1)))
  /\ (rejects (fst out) <-> initializationFails \/ rejects h \/ rejects w).
Proof.
  intros d h w out initializationFails.
  change initializationFails with (Spec.initializationFails OS kit this).
  destruct (ensureInitialized_by_environment OS kit this) as [Efail Esucc].
  assert (Hstate : snd out = snd (historical days this)
                   /\ (Spec.initializationFails OS kit this ->
                       fst out = Rejected (HealthKitInitializationError
                                             "Failed to initialize HealthKit"))
                   /\ (~ Spec.initializationFails OS kit this ->
                       fst out
                       = await (all2 workoutSettlesFirst h w)
                           (fun both =>
                              Resolved {| historicalData := fst both;
                                          workoutData := snd both |}))).
  { unfold out, h, w, d, getComprehensiveHistoricalData,
      getHistoricalHealthData.
    destruct (ensureInitialized OS kit this) as [ready s0] eqn:E.
    cbn [fst] in Efail, Esucc.
    destruct (ensureInitialized_cases OS kit this)
      as [(F & C) | [(F & I & C) | (F & I & S & C)]];
      rewrite E in *; cbn [fst snd] in *.
    - injection C as -> ->. rewrite E. cbn [fst snd await daysOrDefault].
      rewrite !try_catch_rethrow.
      split; [reflexivity |]. split; [| reflexivity].
      intros [H _]. rewrite F in H. discriminate H.
    - injection C as -> ->.
      unfold ensureInitialized. cbn [isHealthKitInitialized negb].
      cbn [fst snd await daysOrDefault]. rewrite !try_catch_rethrow.
      split; [reflexivity |]. split; [| reflexivity].
      intros H. apply Efail in H. discriminate H.
    - subst ready. cbn [fst snd await].
      split; [reflexivity |]. split; [reflexivity |].
      intros N. apply Esucc in N. discriminate N. }
  destruct Hstate as (Hs & Hf & Ho).
  split; [exact Hs |]. split; [exact Hf |].
  split.
  { intros N. rewrite (Ho N).
    repeat split; intros; subst; repeat match goal with
      | H : h = _ |- _ => rewrite H
      | H : w = _ |- _ => rewrite H
      end; reflexivity. }
  split.
  - intros Hrej.
    destruct (isHealthKitInitialized this) eqn:Flag;
      [| destruct (neq OS ios) eqn:Eos;
         [| destruct (JS.truthy_string (AppleHealthKit.initHealthKit kit))
              eqn:Einit]];
      try (left; split; auto; fail).
    all: right;
      assert (N : ~ Spec.initializationFails OS kit this)
        by (intros [F [G | G]]; congruence);
      rewrite (Ho N) in Hrej;
      destruct h as [hd | e1]; [| left; apply rejected_rejects];
      destruct w as [wd | e2]; [| right; apply rejected_rejects];
      now apply resolved_never_rejects in Hrej.
  - intros [F | H].
    + rewrite (Hf F). apply rejected_rejects.
    + destruct (isHealthKitInitialized this) eqn:Flag;
        [| destruct (neq OS ios) eqn:Eos;
           [| destruct (JS.truthy_string (AppleHealthKit.initHealthKit kit))
                eqn:Einit]];
        try (rewrite Hf by (split; auto); apply rejected_rejects).
      all: assert (N : ~ Spec.initializationFails OS kit this)
          by (intros [F [G | G]]; congruence);
        rewrite (Ho N);
        destruct H as [[e E] | [e E]]; rewrite E;
        [destruct w | destruct h]; apply rejected_rejects.
Qed.

End HistoricalMethods.

Section WorkaroundFacts.
Import ReactNative NativeWorkaround.
Variable Fn : Type.

Lemma get_copyMissing (native kit : JSObject.t Fn) (k key : string) :
  JSObject.get key (copyMissing Fn native kit k)
  = match JSObject.get key kit with
    | Some f => Some f
    | None => if String.eqb k key then JSObject.get key native else None
    end.
Proof.
  unfold copyMissing.
  destruct (JSObject.get k kit) as [f |] eqn:K.
  - destruct (JSObject.get key kit) eqn:G; [reflexivity |].
    destruct (String.eqb k key) eqn:E; [| reflexivity].
    apply String.eqb_eq in E. congruence.
  - destruct (JSObject.get k native) as [f |] eqn:N.
    + rewrite get_set. destruct (String.eqb k key) eqn:E.
      * apply String.eqb_eq in E. subst key. now rewrite K, N.
      * now destruct (JSObject.get key kit).
    + destruct (JSObject.get key kit) eqn:G; [reflexivity |].
      destruct (String.eqb k key) eqn:E; [| reflexivity].
      apply String.eqb_eq in E. congruence.
Qed.

Lemma get_fold_copyMissing (native : JSObject.t Fn) (ks : list string) :
  forall (kit : JSObject.t Fn) (key : string),
    JSObject.get key (fold_left (copyMissing Fn native) ks kit)
    = match JSObject.get key kit with
      | Some f => Some f
      | None =>
          if existsb (fun k => String.eqb k key) ks
          then JSObject.get key native else None
      end.
Proof.
  induction ks as [| k ks IH]; intros kit key; cbn [fold_left existsb].
  - now destruct (JSObject.get key kit).
  - rewrite IH, get_copyMissing.
    destruct (JSObject.get key kit) as [f |]; [reflexivity |].
    destruct (String.eqb k key) eqn:E; cbn [orb]; [| reflexivity].
    destruct (JSObject.get key native); [reflexivity |].
    now destruct (existsb _ ks).
Qed.

(** X17.  The statement at the top of [healthService.ts] never replaces a
    function [AppleHealthKit] already has; on iOS with a native module it
    fills in, from the native module, exactly the functions of the eight
    listed names that are missing; otherwise it changes nothing. *)
Theorem patch_fills_only_missing_listed_functions
  (OS : PlatformOS) (native : option (JSObject.t Fn)) (kit : JSObject.t Fn)
  (key : string) :
  JSObject.get key (patch Fn OS native kit)
  = match JSObject.get key kit, native with
    | Some f, _ => Some f
    | None, Some native =>
        if neq OS ios then None
        else if existsb (fun k => String.eqb k key) keys
             then JSObject.get key native else None
    | None, None => None
    end.
Proof.
  unfold patch. destruct native as [native |].
  - destruct (neq OS ios).
    + now destruct (JSObject.get key kit).
    + apply get_fold_copyMissing.
  - now destruct (JSObject.get key kit).
Qed.

End WorkaroundFacts.

Section GroupingRun.
Import Historical.

(** The diary grouped: the latest day first, each day with its samples in
    input order and dated by its first sample. *)
Example groupedByDate_diary :
  groupedByDate Grouped.dayMarks Diary.steps Diary.heartRates [] [Diary.nap]
  = [ {| date := 172800000;
         stepsData := [];
         heartRateData := Diary.heartRates;
         hrvData := [];
         sleepData := [] |};
      {| date := 90000000;
         stepsData := [ {| value := 100; startDate := 90000000 |};
                        {| value := 300; startDate := 100000000 |} ];
         heartRateData := [];
         hrvData := [];
         sleepData := [] |};
      {| date := 1000;
         stepsData := [ {| value := 200; startDate := 1000 |} ];
         heartRateData := [];
         hrvData := [];
         sleepData := [Diary.nap] |} ].
Proof. reflexivity. Qed.

End GroupingRun.

(* ================================================================== *)
(** * The record of [getAllHealthMetrics] and the samples behind it *)

Section MetricsContract.
Import ReactNative Async HealthDataProviders.

Lemma addSample_by_hours_and_stage (acc : SleepTotals) (s s' : SleepSample.t) :
  hours s = hours s' -> SleepSample.value s = SleepSample.value s' ->
  addSample acc s = addSample acc s'.
Proof. intros H V. unfold addSample. now rewrite H, V. Qed.

(** X18.  The sleep analysis reads a sample only through its length and its
    stage: two sample lists that agree on both, sample by sample, give the
    same analysis, whenever the samples were taken. *)
Theorem analyseSleep_reads_lengths_and_stages
  (results1 results2 : list SleepSample.t) :
  map (fun s => (hours s, SleepSample.value s)) results1
  = map (fun s => (hours s, SleepSample.value s)) results2 ->
  analyseSleep results1 = analyseSleep results2.
Proof.
  intros H.
  assert (T : forall acc,
             fold_left addSample results1 acc
             = fold_left addSample results2 acc).
  { revert results2 H.
    induction results1 as [| s l IH]; intros [| s' l'] H acc;
      try discriminate H; [reflexivity |].
    cbn in H. injection H as Hh Hv Hl. cbn [fold_left].
    rewrite (addSample_by_hours_and_stage acc s s' Hh Hv). now apply IH. }
  unfold analyseSleep, sleepTotals. now rewrite T.
Qed.

Lemma analyseSleep_reads_lengths_and_stages_witness :
  analyseSleep Scenario.twoSamples = analyseSleep Diary.laterTwoSamples.
Proof.
  apply analyseSleep_reads_lengths_and_stages.
  unfold Scenario.twoSamples, Diary.laterTwoSamples, hours. cbn.
  replace ((25200000 - 0) / (1000 * 60 * 60)) with 7 by lra.
  replace ((57600000 - 25200000) / (1000 * 60 * 60)) with 9 by lra.
  replace ((28800000 - 3600000) / (1000 * 60 * 60)) with 7 by lra.
  replace ((61200000 - 28800000) / (1000 * 60 * 60)) with 9 by lra.
  reflexivity.
Defined.

Lemma sum_nonneg (l : list R) : Forall (fun x => 0 <= x) l -> 0 <= Spec.sum l.
Proof.
  unfold Spec.sum. induction 1 as [| x l Hx _ IH]; cbn; lra.
Qed.

Lemma averageValue_nonneg (results : list HealthValue) :
  Forall (fun s => 0 <= value s) results -> 0 <= averageValue results.
Proof.
  intros H. unfold averageValue, sumValues.
  destruct (JS.gt (JS.length_number results) 0) eqn:G; [| lra].
  apply gt_true in G. rewrite (reduce_add value), Rplus_0_l.
  assert (S : 0 <= Spec.sum (map value results)).
  { apply sum_nonneg, Forall_forall. intros x Hx. apply in_map_iff in Hx.
    destruct Hx as (s & <- & Hs). rewrite Forall_forall in H. now apply H. }
  apply Rmult_le_pos; [exact S |].
  apply Rlt_le, Rinv_0_lt_compat. exact G.
Qed.

Lemma Math_round_nonneg (x : R) : 0 <= x -> 0 <= JS.Math_round x.
Proof. intros H. rewrite <- Math_round_0. now apply Math_round_le. Qed.

(** What each provider resolves with is not negative when the samples are
    not. *)
Lemma providers_nonneg OS kit :
  (Forall (fun s => 0 <= value s)
     (results (AppleHealthKit.getRestingHeartRateSamples kit)) ->
   forall v, getRestingHeartRateData OS kit = Resolved v -> 0 <= v)
  /\ (Forall (fun s => 0 <= value s)
        (results (AppleHealthKit.getHeartRateVariabilitySamples kit)) ->
      forall v, getHeartRateVariabilityData OS kit = Resolved v -> 0 <= v)
  /\ (Forall (fun s => 0 <= value s)
        (results (AppleHealthKit.getVo2MaxSamples kit)) ->
      forall v, getVO2MaxData OS kit = Resolved v -> 0 <= v)
  /\ (0 <= value (results (AppleHealthKit.getStepCount kit)) ->
      forall v, getTodaysStepCount OS kit = Resolved v -> 0 <= v)
  /\ (forall s, getSleepAnalysisData OS kit = Resolved s ->
                0 <= sleepConsistency s <= 100).
Proof.
  unfold getRestingHeartRateData, getHeartRateVariabilityData, getVO2MaxData,
    getTodaysStepCount, getSleepAnalysisData.
  split; [| split; [| split; [| split]]].
  - intros H v. apply averageValue_nonneg in H.
    destruct (neq OS ios); [intros E; injection E as <-; lra |].
    destruct (JS.truthy_string _); intros E; injection E as <-; [lra |].
    now apply Math_round_nonneg.
  - intros H v. apply averageValue_nonneg in H.
    destruct (neq OS ios); [intros E; injection E as <-; lra |].
    destruct (JS.truthy_string _); intros E; injection E as <-; [lra |].
    now apply Math_round_nonneg.
  - intros H v. apply averageValue_nonneg in H.
    destruct (neq OS ios); [intros E; injection E as <-; lra |].
    destruct (JS.truthy_string _); intros E; injection E as <-; [lra |].
    assert (0 <= JS.Math_round (averageValue
                 (results (AppleHealthKit.getVo2MaxSamples kit)) * 10))
      by (apply Math_round_nonneg; lra).
    lra.
  - intros H v.
    destruct (neq OS ios); [intros E; injection E as <-; lra |].
    destruct (JS.truthy_string _); intros E; injection E as <-; [lra |].
    unfold JS.or_number. destruct (JS.truthy_number _); lra.
  - intros s.
    destruct (neq OS ios); [intros E; injection E as <-; cbn; lra |].
    destruct (JS.truthy_string _); intros E; injection E as <-; [cbn; lra |].
    rewrite analyseSleep_sleepConsistency.
    apply consistencyScore_range, standardDeviation_nonneg.
Qed.

(** The percentages with samples that do not end before they start. *)
Lemma sleep_percentages_bounds OS kit s :
  Forall (fun x => (SleepSample.startDate x <= SleepSample.endDate x)%Z)
    (results (AppleHealthKit.getSleepSamples kit)) ->
  getSleepAnalysisData OS kit = Resolved s ->
  0 <= deepSleepPercentage s <= 100 /\ 0 <= remSleepPercentage s <= 100.
Proof.
  intros H. unfold getSleepAnalysisData.
  destruct (neq OS ios); [intros E; injection E as <-; cbn; lra |].
  destruct (JS.truthy_string _); intros E; injection E as <-; [cbn; lra |].
  unfold analyseSleep. cbn [deepSleepPercentage remSleepPercentage].
  destruct (sleepTotals_ordered _ H) as (D & Rm & S).
  destruct (JS.gt (totalSleep (sleepTotals _)) 0) eqn:G.
  - apply gt_true in G.
    destruct (rounded_percentage_bounds _ _ _ D Rm S G) as (B1 & B2 & _).
    split; assumption.
  - rewrite Rmult_0_l, Math_round_0. lra.
Qed.

(** X19.  When HealthKit reports no negative sample value and no sleep
    sample that ends before it starts, every record [getAllHealthMetrics]
    resolves with has non-negative heart rate, variability, VO2 max and
    steps, sleep percentages within [0, 100] and a sleep consistency within
    [0, 100]. *)
Theorem getAllHealthMetrics_fields_within_range
  OS kit (getMonthlyWorkoutData : Promise HealthService.WorkoutData)
  (this : HealthService.t) (metrics : Health.HealthMetrics) :
  Forall (fun s => 0 <= value s)
    (results (AppleHealthKit.getRestingHeartRateSamples kit)) ->
  Forall (fun s => 0 <= value s)
    (results (AppleHealthKit.getHeartRateVariabilitySamples kit)) ->
  Forall (fun s => 0 <= value s)
    (results (AppleHealthKit.getVo2MaxSamples kit)) ->
  0 <= value (results (AppleHealthKit.getStepCount kit)) ->
  Forall (fun x => (SleepSample.startDate x <= SleepSample.endDate x)%Z)
    (results (AppleHealthKit.getSleepSamples kit)) ->
  fst (HealthService.getAllHealthMetrics OS kit getMonthlyWorkoutData this)
  = Resolved metrics ->
  0 <= Health.restingHeartRate metrics
  /\ 0 <= Health.heartRateVariability metrics
  /\ 0 <= Health.vo2Max metrics
  /\ 0 <= Health.deepSleepPercentage metrics <= 100
  /\ 0 <= Health.remSleepPercentage metrics <= 100
  /\ 0 <= Health.sleepConsistency metrics <= 100
  /\ 0 <= Health.dailySteps metrics.
Proof.
  intros Hr Hh Hv Hs Hl Hp.
  destruct (providers_nonneg OS kit) as (Nr & Nh & Nv & Ns & Nc).
  assert (C : HealthService.collectHealthMetrics OS kit getMonthlyWorkoutData
              = Resolved metrics).
  { unfold HealthService.getAllHealthMetrics in Hp.
    destruct (HealthService.ensureInitialized OS kit this) as [ready s0].
    cbn [fst] in Hp. rewrite try_catch_rethrow in Hp.
    destruct ready as [[] | e]; [exact Hp | discriminate Hp]. }
  unfold HealthService.collectHealthMetrics in C.
  destruct (getRestingHeartRateData OS kit) as [v1 |] eqn:E1;
    [| discriminate C].
  destruct (getHeartRateVariabilityData OS kit) as [v2 |] eqn:E2;
    [| discriminate C].
  destruct (getVO2MaxData OS kit) as [v3 |] eqn:E3; [| discriminate C].
  destruct (getSleepAnalysisData OS kit) as [v4 |] eqn:E4; [| discriminate C].
  destruct (getTodaysStepCount OS kit) as [v5 |] eqn:E5; [| discriminate C].
  destruct getMonthlyWorkoutData as [w |]; [| discriminate C].
  cbn in C. injection C as <-. cbn.
  destruct (sleep_percentages_bounds OS kit v4 Hl E4) as [Bd Br].
  pose proof (Nc v4 eq_refl) as Bc.
  pose proof (Nr Hr v1 eq_refl). pose proof (Nh Hh v2 eq_refl).
  pose proof (Nv Hv v3 eq_refl). pose proof (Ns Hs v5 eq_refl).
  repeat split; lra.
Qed.

Lemma getAllHealthMetrics_fields_within_range_witness :
  exists metrics,
    fst (HealthService.getAllHealthMetrics ios Readings.store
           (Resolved {| HealthService.monthlyTrainingTime := 300;
                        HealthService.trainingIntensity := 50 |})
           {| HealthService.isHealthKitInitialized := false |})
    = Resolved metrics
    /\ 0 <= Health.restingHeartRate metrics
    /\ 0 <= Health.heartRateVariability metrics
    /\ 0 <= Health.vo2Max metrics
    /\ 0 <= Health.deepSleepPercentage metrics <= 100
    /\ 0 <= Health.remSleepPercentage metrics <= 100
    /\ 0 <= Health.sleepConsistency metrics <= 100
    /\ 0 <= Health.dailySteps metrics.
Proof.
  eexists. split; [reflexivity |].
  apply (getAllHealthMetrics_fields_within_range ios Readings.store
           (Resolved {| HealthService.monthlyTrainingTime := 300;
                        HealthService.trainingIntensity := 50 |})
           {| HealthService.isHealthKitInitialized := false |}).
  - repeat constructor; cbn; lra.
  - repeat constructor; cbn; lra.
  - repeat constructor; cbn; lra.
  - cbn. lra.
  - repeat constructor; cbn; lia.
  - reflexivity.
Defined.

End MetricsContract.

Section TodayAndAll.
Import ReactNative Async HealthDataProviders.

(** X22.  Whenever [getAllHealthMetrics] resolves and today's workout
    provider resolves, [getTodaysHealthMetrics] on the same service resolves
    with the same steps, resting heart rate and variability, and leaves the
    service in the same state. *)
Theorem todays_metrics_agree_with_all_metrics
  OS kit (getMonthlyWorkoutData : Promise HealthService.WorkoutData)
  (getTodaysWorkoutData : Promise HealthServiceMethods.TodaysTraining)
  (this : HealthService.t) (metrics : Health.HealthMetrics)
  (todaysTraining : HealthServiceMethods.TodaysTraining) :
  fst (HealthService.getAllHealthMetrics OS kit getMonthlyWorkoutData this)
  = Resolved metrics ->
  getTodaysWorkoutData = Resolved todaysTraining ->
  HealthServiceMethods.getTodaysHealthMetrics OS kit getTodaysWorkoutData this
  = (Resolved
       {| HealthServiceMethods.dailySteps := Health.dailySteps metrics;
          HealthServiceMethods.dailyTrainingTime :=
            HealthServiceMethods.todaysTrainingTime todaysTraining;
          HealthServiceMethods.trainingIntensity :=
            HealthServiceMethods.todaysTrainingIntensity todaysTraining;
          HealthServiceMethods.restingHeartRate :=
            Health.restingHeartRate metrics;
          HealthServiceMethods.heartRateVariability :=
            Health.heartRateVariability metrics |},
     snd (HealthService.getAllHealthMetrics OS kit getMonthlyWorkoutData this)).
Proof.
  intros Hall ->.
  assert (T : HealthService.collectHealthMetrics OS kit getMonthlyWorkoutData
              = Resolved metrics ->
              try_catch
                (HealthServiceMethods.collectTodaysHealthMetrics OS kit
                   (Resolved todaysTraining))
                (fun _ => Resolved HealthServiceMethods.zeroTodaysHealthMetrics)
              = Resolved
                  {| HealthServiceMethods.dailySteps :=
                       Health.dailySteps metrics;
                     HealthServiceMethods.dailyTrainingTime :=
                       HealthServiceMethods.todaysTrainingTime todaysTraining;
                     HealthServiceMethods.trainingIntensity :=
                       HealthServiceMethods.todaysTrainingIntensity
                         todaysTraining;
                     HealthServiceMethods.restingHeartRate :=
                       Health.restingHeartRate metrics;
                     HealthServiceMethods.heartRateVariability :=
                       Health.heartRateVariability metrics |}).
  { unfold HealthService.collectHealthMetrics,
      HealthServiceMethods.collectTodaysHealthMetrics.
    destruct (getRestingHeartRateData OS kit) as [v1 |];
      [| intros C; discriminate C].
    destruct (getHeartRateVariabilityData OS kit) as [v2 |];
      [| intros C; discriminate C].
    destruct (getVO2MaxData OS kit) as [v3 |]; [| intros C; discriminate C].
    destruct (getSleepAnalysisData OS kit) as [v4 |];
      [| intros C; discriminate C].
    destruct (getTodaysStepCount OS kit) as [v5 |];
      [| intros C; discriminate C].
    destruct getMonthlyWorkoutData as [w |]; [| intros C; discriminate C].
    cbn. intros C. injection C as <-. reflexivity. }
  unfold HealthService.getAllHealthMetrics, HealthService.ensureInitialized,
    HealthServiceMethods.getTodaysHealthMetrics in *.
  destruct this as [[|]]; cbn [HealthService.isHealthKitInitialized negb] in *.
  - cbn [fst snd await] in *. rewrite try_catch_rethrow in Hall.
    now rewrite (T Hall).
  - unfold HealthService.initialize in *.
    destruct (neq OS ios); [discriminate Hall |].
    destruct (JS.truthy_string _); [discriminate Hall |].
    cbn [fst snd await negb] in *. rewrite try_catch_rethrow in Hall.
    now rewrite (T Hall).
Qed.

Lemma todays_metrics_agree_with_all_metrics_witness :
  exists metrics,
    fst (HealthService.getAllHealthMetrics ios Readings.store
           (Resolved {| HealthService.monthlyTrainingTime := 300;
                        HealthService.trainingIntensity := 50 |})
           {| HealthService.isHealthKitInitialized := false |})
    = Resolved metrics
    /\ HealthServiceMethods.getTodaysHealthMetrics ios Readings.store
         (Resolved {| HealthServiceMethods.todaysTrainingTime := 10;
                      HealthServiceMethods.todaysTrainingIntensity := 50 |})
         {| HealthService.isHealthKitInitialized := false |}
       = (Resolved
            {| HealthServiceMethods.dailySteps := Health.dailySteps metrics;
               HealthServiceMethods.dailyTrainingTime := 10;
               HealthServiceMethods.trainingIntensity := 50;
               HealthServiceMethods.restingHeartRate :=
                 Health.restingHeartRate metrics;
               HealthServiceMethods.heartRateVariability :=
                 Health.heartRateVariability metrics |},
          {| HealthService.isHealthKitInitialized := true |}).
Proof.
  eexists. split; [reflexivity |].
  exact (todays_metrics_agree_with_all_metrics ios Readings.store
           (Resolved {| HealthService.monthlyTrainingTime := 300;
                        HealthService.trainingIntensity := 50 |})
           (Resolved {| HealthServiceMethods.todaysTrainingTime := 10;
                        HealthServiceMethods.todaysTrainingIntensity := 50 |})
           {| HealthService.isHealthKitInitialized := false |}
           _ _ eq_refl eq_refl).
Defined.

End TodayAndAll.
